(** * Food-truck transaction pipeline, dashboard metrics and daily report

  A shallow embedding of the cleaning step and the dimension tables
  ([pipeline/transform.py]), the lake writer and the upload
  ([pipeline/load.py], [pipeline/main.py]), the dashboard transforms and
  aggregates ([dashboard_core/transforms.py], [dashboard_core/metrics.py],
  [app.py]) and the daily report ([pipeline/daily_report.py]), with the
  properties stated about them.

  Conventions.
  - A data frame is its list of column names and its list of rows; a row
    maps column names to cells. Row order is the frame's order.
  - Numbers are exact rationals: float64 rounding is not modelled.
  - Text is a byte string; stripping and case mapping act on ASCII.
  - A Python exception is the result [None]. *)

From Stdlib Require Import ZArith QArith Qround Qabs String Ascii List Lia Lqa.
From stdpp Require Import gmap strings list pretty sorting.

Open Scope string_scope.

(** ** Scalars *)

(** A [pandas.Timestamp], to the second. *)
Record Timestamp := mkTimestamp {
year : N; month : N; day : N; hour : N; minute : N; second : N }.

#[global] Instance Timestamp_eq_dec : EqDecision Timestamp.
Proof. solve_decision. Defined.

(** One cell of a frame: missing ([None], [NaN], [NaT], [pd.NA]), text, a
  number, a boolean or a timestamp. *)
Inductive Cell :=
| NA
| Str (s : string)
| Num (q : Q)
| Bool (b : bool)
| Time (t : Timestamp).

#[global] Instance Q_eq_dec : EqDecision Q.
Proof. solve_decision. Defined.

#[global] Instance Cell_eq_dec : EqDecision Cell.
Proof. solve_decision. Defined.

Abbreviation Row := (gmap string Cell).

Record DataFrame := mkDataFrame { columns : list string; rows : list Row }.

(** [df[c]] read at one row; a row without the key reads as missing. *)
Definition cell (c : string) (r : Row) : Cell := default NA (r !! c).

Definition has_column (c : string) (cols : list string) : bool :=
bool_decide (c ∈ cols).

(** ** Python string methods, on ASCII *)

Module Py.

(** [str.isspace] on the ASCII range: TAB..CR, FS..US and the space. *)
Definition is_space (c : ascii) : bool :=
  let n := nat_of_ascii c in
  ((9 <=? n)%nat && (n <=? 13)%nat) || ((28 <=? n)%nat && (n <=? 32)%nat).

Fixpoint lstrip (s : string) : string :=
  match s with
  | String c s' => if is_space c then lstrip s' else s
  | EmptyString => EmptyString
  end.

Fixpoint rstrip (s : string) : string :=
  match s with
  | String c s' =>
      match rstrip s' with
      | EmptyString => if is_space c then EmptyString else String c EmptyString
      | r => String c r
      end
  | EmptyString => EmptyString
  end.

(** [s.strip()] *)
Definition strip (s : string) : string := lstrip (rstrip s).

Definition lower_char (c : ascii) : ascii :=
  let n := nat_of_ascii c in
  if ((65 <=? n)%nat && (n <=? 90)%nat) then ascii_of_nat (n + 32) else c.

Definition upper_char (c : ascii) : ascii :=
  let n := nat_of_ascii c in
  if ((97 <=? n)%nat && (n <=? 122)%nat) then ascii_of_nat (n - 32) else c.

Fixpoint map_chars (f : ascii → ascii) (s : string) : string :=
  match s with
  | String c s' => String (f c) (map_chars f s')
  | EmptyString => EmptyString
  end.

(** [s.lower()], [s.upper()] *)
Definition lower : string → string := map_chars lower_char.
Definition upper : string → string := map_chars upper_char.

(** [s.replace(c, by)] for a one-character pattern. *)
Fixpoint replace (c : ascii) (by_ : string) (s : string) : string :=
  match s with
  | String a s' =>
      (if Ascii.eqb a c then by_ else String a EmptyString) ++ replace c by_ s'
  | EmptyString => EmptyString
  end.

(** [sub in s] *)
Fixpoint contains (sub s : string) : bool :=
  String.prefix sub s ||
  match s with
  | String _ s' => contains sub s'
  | EmptyString => false
  end.

(** The double quote character, as a string. *)
Definition dq : string := String (ascii_of_nat 34) EmptyString.

End Py.

(** ** pandas scalar conversions *)

(** What pandas does with one scalar when it reads text as a number or as a
  date, and when it prints a number or a date as text. The cleaning rules
  are stated for any such functions. *)
Class Parsers := {
(** [pd.to_numeric] on a text scalar, [errors="coerce"] *)
to_numeric_str : string → option Q;
(** [pd.to_datetime] on a text scalar, [errors="coerce"] *)
to_datetime_str : string → option Timestamp;
(** [pd.to_datetime] on a number (an epoch offset) *)
to_datetime_num : Q → option Timestamp;
(** [astype("string")] on a number and on a timestamp *)
str_of_num : Q → string;
str_of_time : Timestamp → string }.

Module Pd.
Section Conversions.
Context `{Parsers}.

(** [pd.to_numeric(_, errors="coerce")], one cell. *)
Definition to_numeric (c : Cell) : Cell :=
  match c with
  | Str s => match to_numeric_str s with Some q => Num q | None => NA end
  | Num q => Num q
  | Bool b => Bool b
  | Time _ | NA => NA
  end.

(** [pd.to_datetime(_, errors="coerce")], one cell. *)
Definition to_datetime (c : Cell) : Cell :=
  match c with
  | Str s => match to_datetime_str s with Some t => Time t | None => NA end
  | Num q => match to_datetime_num q with Some t => Time t | None => NA end
  | Time t => Time t
  | Bool _ | NA => NA
  end.

(** [astype("string")], one cell. *)
Definition astype_string (c : Cell) : Cell :=
  match c with
  | NA => NA
  | Str s => Str s
  | Num q => Str (str_of_num q)
  | Bool b => Str (if b then "True" else "False")
  | Time t => Str (str_of_time t)
  end.

(** [f"{x}"] for a scalar read from a frame. *)
Definition format_scalar (c : Cell) : string :=
  match astype_string c with Str s => s | _ => "nan" end.

End Conversions.

(** [.str.strip()], [.str.lower()] on a string column. *)
Definition str_strip (c : Cell) : Cell :=
  match c with Str s => Str (Py.strip s) | _ => c end.
Definition str_lower (c : Cell) : Cell :=
  match c with Str s => Str (Py.lower s) | _ => c end.

Definition notna (c : Cell) : bool :=
  match c with NA => false | _ => true end.

(** The value of a cell in a numeric comparison ([True] is 1). *)
Definition num_value (c : Cell) : option Q :=
  match c with
  | Num q => Some q
  | Bool b => Some (if b then 1 else 0)%Q
  | _ => None
  end.

(** [series > 0], [series.isin([0, 1])], [series.between(0, 5)],
    [series.isin(labels)]: a cell that is not comparable gives [False]. *)
Definition gt0 (c : Cell) : bool :=
  match num_value c with Some q => negb (Qle_bool q 0) | None => false end.
Definition isin01 (c : Cell) : bool :=
  match num_value c with
  | Some q => Qeq_bool q 0 || Qeq_bool q 1
  | None => false
  end.
Definition between (lo hi : Q) (c : Cell) : bool :=
  match num_value c with
  | Some q => Qle_bool lo q && Qle_bool q hi
  | None => false
  end.
Definition isin_str (labels : list string) (c : Cell) : bool :=
  match c with
  | Str s => bool_decide (s ∈ labels)
  | _ => false
  end.

(** Equality of two keys under [drop_duplicates]: numbers by value,
    text and timestamps by identity, and missing keys are all equal. *)
Definition dup_eqb (a b : Cell) : bool :=
  match a, b with
  | NA, NA => true
  | Str s, Str s' => bool_decide (s = s')
  | Time t, Time t' => bool_decide (t = t')
  | _, _ =>
      match num_value a, num_value b with
      | Some q, Some q' => Qeq_bool q q'
      | _, _ => false
      end
  end.

(** [drop_duplicates(subset=[c], keep="first")] on the rows: a row stays
    unless an earlier row has an equal key. *)
Fixpoint drop_dups_from (seen : list Cell) (c : string) (rs : list Row)
  : list Row :=
  match rs with
  | [] => []
  | r :: rs' =>
      if existsb (dup_eqb (cell c r)) seen then drop_dups_from seen c rs'
      else r :: drop_dups_from (cell c r :: seen) c rs'
  end.
Definition drop_duplicates (c : string) (rs : list Row) : list Row :=
  drop_dups_from [] c rs.

(** The distinct values of a list, in the order they first occur. *)
Fixpoint first_seen `{EqDecision K} (seen ks : list K) : list K :=
  match ks with
  | [] => []
  | k :: ks' =>
      if bool_decide (k ∈ seen) then first_seen seen ks'
      else k :: first_seen (k :: seen) ks'
  end.

(** [groupby(key, sort=False)]: one group per key, in the order the keys
    first occur; a group holds its rows in frame order. *)
Definition groupby `{EqDecision K} {A} (key : A → K) (rs : list A)
  : list (K * list A) :=
  (λ k, (k, List.filter (λ r, bool_decide (key r = k)) rs))
    <$> first_seen [] (key <$> rs).

(** [sort_values]: a stable insertion sort; [le a b] says that [a] may
    stand before [b]. *)
Fixpoint insert_by {A} (le : A → A → bool) (x : A) (l : list A) : list A :=
  match l with
  | [] => [x]
  | y :: l' => if le y x then y :: insert_by le x l' else x :: y :: l'
  end.
Definition sort_values {A} (le : A → A → bool) (l : list A) : list A :=
  foldl (λ acc x, insert_by le x acc) [] l.

Definition int64_min : Z := - 2 ^ 63.
Definition int64_max : Z := 2 ^ 63 - 1.

(** [astype("Int64")] after [to_numeric]: a missing value stays missing,
    an integral number in range is kept, anything else raises. *)
Definition astype_Int64 (c : Cell) : option Cell :=
  match c with
  | NA => Some NA
  | Str _ | Time _ => None
  | _ =>
      q ← num_value c;
      let q' := Qred q in
      if bool_decide (Qden q' = 1%positive ∧
                      (int64_min ≤ Qnum q' ≤ int64_max)%Z)
      then Some (Num q') else None
  end.

(** [astype("float64")] on a numeric column. *)
Definition astype_float64 (c : Cell) : option Cell :=
  match c with
  | NA => Some NA
  | Num q => Some (Num q)
  | Bool b => Some (Num (if b then 1 else 0))
  | Str _ | Time _ => None
  end.

(** [astype("boolean")]: 0 and 1 become [False] and [True]. *)
Definition astype_boolean (c : Cell) : option Cell :=
  match c with
  | NA => Some NA
  | Bool b => Some (Bool b)
  | Num q =>
      if Qeq_bool q 0 then Some (Bool false)
      else if Qeq_bool q 1 then Some (Bool true) else None
  | Str _ | Time _ => None
  end.

(** [df[c] = f(df[c])], cell by cell. *)
Definition assign (c : string) (f : Cell → Cell) (rs : list Row) : list Row :=
  (λ r, <[c := f (cell c r)]> r) <$> rs.

(** [df[c] = df[c].astype(...)] for a cast that raises on a bad cell. *)
Definition assign_cast (c : string) (f : Cell → option Cell) (rs : list Row)
  : option (list Row) :=
  mapM (λ r, v ← f (cell c r); Some (<[c := v]> r)) rs.

(** [df = df[mask(df[c])]] *)
Definition keep (p : Cell → bool) (c : string) (rs : list Row) : list Row :=
  List.filter (λ r, p (cell c r)) rs.

End Pd.

(** ** pipeline/transform.py *)

Module Transform.
Section CleanTransactions.
Context `{Parsers}.

Definition text_cols : list string :=
  ["payment_method"; "truck_name"; "truck_description"].

Definition int_cols : list string :=
  ["truck_id"; "payment_method_id"; "transaction_id"; "fsa_rating";
   "has_card_reader"].

Definition preferred_order : list string :=
  ["transaction_id"; "at"; "truck_name"; "payment_method"; "total";
   "truck_id"; "payment_method_id"; "fsa_rating"; "has_card_reader";
   "truck_description"].

(** [df.loc[df["total"].str.upper().eq("VOID"), "total"] = pd.NA] *)
Definition void_to_na (c : Cell) : Cell :=
  match c with
  | Str s => if bool_decide (Py.upper s = "VOID") then NA else c
  | _ => c
  end.

(** Lines 10-14: strip the text columns that are present. *)
Definition strip_text (cols : list string) (rs : list Row) : list Row :=
  foldl (λ rs c,
           if has_column c cols
           then Pd.assign c (Pd.str_strip ∘ Pd.astype_string) rs else rs)
        rs text_cols.

(** Lines 10-38: the cleaning rules that normalise cells and drop rows. *)
Definition filter_rows (cols : list string) (rs : list Row) : list Row :=
  (* Strip text *)
  let rs := strip_text cols rs in
  (* Total handling *)
  let rs := Pd.assign "total" (Pd.str_strip ∘ Pd.astype_string) rs in
  let rs := Pd.assign "total" void_to_na rs in
  let rs := Pd.assign "total" Pd.to_numeric rs in
  let rs := Pd.keep (λ v, Pd.notna v && Pd.gt0 v) "total" rs in
  (* Timestamp *)
  let rs := Pd.assign "at" Pd.to_datetime rs in
  let rs := Pd.keep Pd.notna "at" rs in
  (* Domain checks *)
  let rs := if has_column "has_card_reader" cols
            then Pd.keep Pd.isin01 "has_card_reader"
                   (Pd.assign "has_card_reader" Pd.to_numeric rs)
            else rs in
  let rs := if has_column "fsa_rating" cols
            then Pd.keep (Pd.between 0 5) "fsa_rating"
                   (Pd.assign "fsa_rating" Pd.to_numeric rs)
            else rs in
  let rs := if has_column "payment_method" cols
            then Pd.keep (Pd.isin_str ["cash"; "card"]) "payment_method"
                   (Pd.assign "payment_method" Pd.str_lower rs)
            else rs in
  rs.

(** Lines 40-42: remove duplicates. *)
Definition remove_duplicates (cols : list string) (rs : list Row) : list Row :=
  if has_column "transaction_id" cols
  then Pd.drop_duplicates "transaction_id" rs else rs.

(** Lines 44-49: the identifier and integer columns become [Int64]. *)
Fixpoint cast_int_cols (cs cols : list string) (rs : list Row)
  : option (list Row) :=
  match cs with
  | [] => Some rs
  | c :: cs' =>
      rs' ← (if has_column c cols
              then Pd.assign_cast c (Pd.astype_Int64 ∘ Pd.to_numeric) rs
              else Some rs);
      cast_int_cols cs' cols rs'
  end.

(** Lines 44-54: the final type casts. *)
Definition cast_columns (cols : list string) (rs : list Row)
  : option (list Row) :=
  rs ← cast_int_cols int_cols cols rs;
  rs ← Pd.assign_cast "total" Pd.astype_float64 rs;
  if has_column "has_card_reader" cols
  then Pd.assign_cast "has_card_reader" Pd.astype_boolean rs
  else Some rs.

(** Lines 56-61: preferred columns first, the others in their order. *)
Definition reorder (cols : list string) : list string :=
  (List.filter (λ c, has_column c cols) preferred_order ++
   List.filter (λ c, negb (has_column c preferred_order)) cols)%list.

(** [clean_transactions(df)]. Reading [df["total"]] or [df["at"]] raises
    [KeyError] when the column is missing; nothing before line 17 can
    raise, so the two checks come first. *)
Definition clean_transactions (df : DataFrame) : option DataFrame :=
  let cols := columns df in
  if negb (has_column "total" cols && has_column "at" cols) then None else
  let rs := filter_rows cols (rows df) in
  let rs := remove_duplicates cols rs in
  rs ← cast_columns cols rs;
  Some {| columns := reorder cols; rows := rs |}.

(** The rows whose transaction identifier equals [k], as
    [drop_duplicates] compares identifiers. *)
Definition has_id (k : Cell) (r : Row) : bool :=
  Pd.dup_eqb (cell "transaction_id" r) k.

(** No two rows carry the same transaction identifier. *)
Definition distinct_ids (rs : list Row) : Prop :=
  ∀ i j ri rj, (i < j)%nat → rs !! i = Some ri → rs !! j = Some rj →
    has_id (cell "transaction_id" ri) rj = false.

(** [distinct_ids], as a test. *)
Fixpoint distinct_idsb (rs : list Row) : bool :=
  match rs with
  | [] => true
  | r :: rs' =>
      forallb (λ r', negb (has_id (cell "transaction_id" r) r')) rs' &&
      distinct_idsb rs'
  end.

(** The number [q], printed by [astype("string")], is read back by
    [to_numeric] as [q]. *)
Definition reads_back (q : Q) : Prop :=
  Py.upper (Py.strip (str_of_num q)) ≠ "VOID" ∧
  to_numeric_str (Py.strip (str_of_num q)) = Some q.

(** [reads_back] for the total of every row, as a test. *)
Definition reads_backb (q : Q) : bool :=
negb (String.eqb (Py.upper (Py.strip (str_of_num q))) "VOID") &&
bool_decide (to_numeric_str (Py.strip (str_of_num q)) = Some q).

Definition totals_read_backb (rs : list Row) : bool :=
forallb (λ r, match r !! "total" with
              | Some (Num q) => reads_backb q
              | _ => true
              end) rs.

(** The frame [clean_transactions] returns, empty when it raises. *)
Definition cleaned (df : DataFrame) : DataFrame :=
default {| columns := []; rows := [] |} (clean_transactions df).


(** Cleaning twice gives what cleaning once gives. *)
Definition idempotent_on (df : DataFrame) : Prop :=
  ∀ out, clean_transactions df = Some out → clean_transactions out = Some out.

End CleanTransactions.
End Transform.

(** ** Concrete scalar conversions

  Decimal numerals and ISO 8601 timestamps: the conversions used to run
  the model on sample frames. *)

Module Scalars.

Definition digit (c : ascii) : option Z :=
  let n := nat_of_ascii c in
  if ((48 <=? n)%nat && (n <=? 57)%nat) then Some (Z.of_nat (n - 48)) else None.

Fixpoint digits_value (acc : Z) (s : string) : option Z :=
  match s with
  | EmptyString => Some acc
  | String c s' => d ← digit c; digits_value (10 * acc + d)%Z s'
  end.

Fixpoint split_dot (s : string) : string * option string :=
  match s with
  | EmptyString => (EmptyString, None)
  | String c s' =>
      if Ascii.eqb c "." then (EmptyString, Some s')
      else let '(a, b) := split_dot s' in (String c a, b)
  end.

(** An optional sign, digits, and optionally a point and more digits;
    at least one digit in all. *)
Definition parse_decimal (s : string) : option Q :=
  let '(neg, body) :=
    match s with
    | String "-" s' => (true, s')
    | String "+" s' => (false, s')
    | _ => (false, s)
    end in
  let '(ip, fp) := split_dot body in
  let fp := default EmptyString fp in
  if (String.length ip + String.length fp =? 0)%nat then None else
  i ← digits_value 0 ip;
  f ← digits_value 0 fp;
  let den := (10 ^ Z.of_nat (String.length fp))%Z in
  let v := Qred ((i * den + f) # Z.to_pos den) in
  Some (if neg : bool then Qopp v else v).

Definition digit_char (d : Z) : ascii := ascii_of_nat (48 + Z.to_nat d).

Fixpoint frac_digits (fuel : nat) (r d : Z) : string :=
  match fuel with
  | O => EmptyString
  | S k =>
      let x := (10 * r)%Z in
      String (digit_char (x / d))
             (if (x mod d =? 0)%Z then EmptyString
              else frac_digits k (x mod d)%Z d)
  end.

(** The digits of the exact value, cut after 17 decimal places. *)
Definition print_decimal (q : Q) : string :=
  let n := Qnum q in
  let d := Zpos (Qden q) in
  let a := Z.abs n in
  (if (n <? 0)%Z then "-" else EmptyString) ++
  pretty (a / d)%Z ++ "." ++ frac_digits 17 (a mod d)%Z d.

Definition is_leap (y : Z) : bool :=
  ((y mod 4 =? 0) && negb (y mod 100 =? 0) || (y mod 400 =? 0))%Z.

Definition days_in_month (y m : Z) : Z :=
  if (m =? 2)%Z then (if is_leap y then 29 else 28)
  else if ((m =? 4) || (m =? 6) || (m =? 9) || (m =? 11))%Z then 30 else 31.

Definition two (a b : ascii) : option Z :=
  x ← digit a; y ← digit b; Some (10 * x + y)%Z.

Definition make_timestamp (y mo d h mi s : Z) : option Timestamp :=
  if ((1 <=? mo) && (mo <=? 12) && (1 <=? d) && (d <=? days_in_month y mo)
      && (h <=? 23) && (mi <=? 59) && (s <=? 59))%Z
  then Some (mkTimestamp (Z.to_N y) (Z.to_N mo) (Z.to_N d)
                         (Z.to_N h) (Z.to_N mi) (Z.to_N s))
  else None.

(** [YYYY-MM-DD], optionally followed by [T] or a space and [HH:MM:SS]. *)
Definition parse_iso (s : string) : option Timestamp :=
  match list_ascii_of_string s with
  | [y1; y2; y3; y4; "-"; m1; m2; "-"; d1; d2]%char =>
      a ← two y1 y2; b ← two y3 y4; mo ← two m1 m2; d ← two d1 d2;
      make_timestamp (100 * a + b) mo d 0 0 0
  | [y1; y2; y3; y4; "-"; m1; m2; "-"; d1; d2; sep;
     h1; h2; ":"; i1; i2; ":"; s1; s2]%char =>
      if Ascii.eqb sep "T" || Ascii.eqb sep " " then
        a ← two y1 y2; b ← two y3 y4; mo ← two m1 m2; d ← two d1 d2;
        h ← two h1 h2; mi ← two i1 i2; s ← two s1 s2;
        make_timestamp (100 * a + b) mo d h mi s
      else None
  | _ => None
  end.

Definition pad2 (n : N) : string :=
  if (n <? 10)%N then "0" ++ pretty n else pretty n.

Definition pad4 (n : N) : string :=
  if (n <? 10)%N then "000" ++ pretty n
  else if (n <? 100)%N then "00" ++ pretty n
  else if (n <? 1000)%N then "0" ++ pretty n else pretty n.

(** [str(ts)]: [YYYY-MM-DD HH:MM:SS]. *)
Definition print_iso (t : Timestamp) : string :=
  pad4 (year t) ++ "-" ++ pad2 (month t) ++ "-" ++ pad2 (day t) ++ " " ++
  pad2 (hour t) ++ ":" ++ pad2 (minute t) ++ ":" ++ pad2 (second t).

(** Days since 1970-01-01 to a civil date (proleptic Gregorian). *)
Definition civil_from_days (z : Z) : Z * Z * Z :=
  let z := (z + 719468)%Z in
  let era := (z / 146097)%Z in
  let doe := (z - era * 146097)%Z in
  let yoe := ((doe - doe / 1460 + doe / 36524 - doe / 146096) / 365)%Z in
  let doy := (doe - (365 * yoe + yoe / 4 - yoe / 100))%Z in
  let mp := ((5 * doy + 2) / 153)%Z in
  let d := (doy - (153 * mp + 2) / 5 + 1)%Z in
  let m := if (mp <? 10)%Z then (mp + 3)%Z else (mp - 9)%Z in
  let y := (yoe + era * 400)%Z in
  (if (m <=? 2)%Z then (y + 1)%Z else y, m, d).

(** A number is a count of nanoseconds since the epoch; outside the
    [int64] range the result is [NaT]. *)
Definition of_epoch_ns (q : Q) : option Timestamp :=
  let ns := Qfloor q in
  if ((Pd.int64_min <? ns) && (ns <=? Pd.int64_max))%Z then
    let secs := (ns / 1000000000)%Z in
    let '(y, m, d) := civil_from_days (secs / 86400) in
    let sod := (secs mod 86400)%Z in
    Some (mkTimestamp (Z.to_N y) (Z.to_N m) (Z.to_N d)
            (Z.to_N (sod / 3600)) (Z.to_N (sod mod 3600 / 60))
            (Z.to_N (sod mod 60)))
  else None.

#[export] Instance decimal_iso : Parsers := {|
  to_numeric_str := parse_decimal;
  to_datetime_str := parse_iso;
  to_datetime_num := of_epoch_ns;
  str_of_num := print_decimal;
  str_of_time := print_iso |}.

End Scalars.


(** ** pipeline/load.py *)

Module Load.

(** A path is the list of its components; the files written so far map
    a path to the frame stored there. *)
Abbreviation Path := (list string).
Abbreviation Files := (gmap (list string) DataFrame).

(** [f"{int(x):02d}"] *)
Definition fmt_02d (n : N) : string :=
  if (n <? 10)%N then "0" ++ pretty n else pretty n.

(** [df[c] = df[col].dt.<field>...]: the accessor raises unless the column
    holds timestamps. *)
Definition assign_part (c col : string) (f : Timestamp → string)
    (rs : list Row) : option (list Row) :=
  mapM (λ r, match cell col r with
             | Time t => Some (<[c := Str (f t)]> r)
             | _ => None
             end) rs.

Definition part_cols : list string := ["year"; "month"; "day"; "hour"].

(** New columns are appended; an existing one keeps its place. *)
Definition add_column (cols : list string) (c : string) : list string :=
  if has_column c cols then cols else (cols ++ [c])%list.

(** [chunk.drop(columns=["year", "month", "day", "hour"])] *)
Definition drop_parts (r : Row) : Row :=
  delete "hour" (delete "day" (delete "month" (delete "year" r))).
Definition drop_part_cols (cols : list string) : list string :=
  List.filter (λ c, negb (has_column c part_cols)) cols.

(** One helper column of one row: the event time formatted by [f]; not a
    time, no directory. *)
Definition step (c col : string) (f : Timestamp → string) (r : Row)
  : option Row :=
  match cell col r with Time t => Some (<[c := Str (f t)]> r) | _ => None end.

(** The four helper columns of one row, as [assign_part] fills them. *)
Definition stamp (col : string) (r : Row) : option Row :=
  r ← step "year" col (λ t, pretty (year t)) r;
  r ← step "month" col (λ t, fmt_02d (month t)) r;
  r ← step "day" col (λ t, fmt_02d (day t)) r;
  step "hour" col (λ t, fmt_02d (hour t)) r.

(** What the helper columns hold for an event time. *)
Definition key_of (t : Timestamp) : list Cell :=
  [Str (pretty (year t)); Str (fmt_02d (month t)); Str (fmt_02d (day t));
   Str (fmt_02d (hour t))].

Section Writer.
Context `{Parsers}.

(** The group key of a row: its [year], [month], [day], [hour] cells. *)
Definition part_key (r : Row) : list Cell := (λ c, cell c r) <$> part_cols.

(** [root_dir / f"year={y}" / f"month={m}" / f"day={d}" / f"hour={h}"] *)
Definition out_dir (root_dir : Path) (k : list Cell) : Path :=
  (root_dir ++
   zip_with (λ c v, c ++ "=" ++ Pd.format_scalar v)%string part_cols k)%list.

Definition write_time_partitioned_transactions
    (transactions : DataFrame) (root_dir : Path)
    (timestamp_col filename : string) (fs : Files) : option Files :=
  let cols := columns transactions in
  if negb (has_column timestamp_col cols) then None else
  let rs := Pd.assign timestamp_col Pd.to_datetime (rows transactions) in
  let rs := Pd.keep Pd.notna timestamp_col rs in
  rs ← assign_part "year" timestamp_col (λ t, pretty (year t)) rs;
  rs ← assign_part "month" timestamp_col (λ t, fmt_02d (month t)) rs;
  rs ← assign_part "day" timestamp_col (λ t, fmt_02d (day t)) rs;
  rs ← assign_part "hour" timestamp_col (λ t, fmt_02d (hour t)) rs;
  let cols := drop_part_cols (foldl add_column cols part_cols) in
  Some (foldl (λ fs '(k, chunk),
                 <[(out_dir root_dir k ++ [filename])%list :=
                     {| columns := cols; rows := drop_parts <$> chunk |}]> fs)
              fs (Pd.groupby part_key rs)).

(** The defaults of the signature. *)
Definition default_timestamp_col : string := "at".
Definition default_filename : string := "transaction.parquet".

(** The leaf partition of an event time: year, zero-padded month, day and
  hour. *)
Definition partition_of (t : Timestamp) : Path :=
["year=" ++ pretty (year t); "month=" ++ fmt_02d (month t);
 "day=" ++ fmt_02d (day t); "hour=" ++ fmt_02d (hour t)].

(** The event time of a raw row, when its timestamp cell can be read. *)
Definition event_time (col : string) (r : Row) : option Timestamp :=
match Pd.to_datetime (cell col r) with Time t => Some t | _ => None end.

(** A row as it is written: its timestamp parsed, the four helper columns
  gone. *)
Definition written_row (col : string) (t : Timestamp) (r : Row) : Row :=
drop_parts (<[col := Time t]> r).

(** The rows a frame sends to the partition [dir], in frame order. *)
Definition rows_of_partition (col : string) (dir : Path) (rs : list Row)
  : list Row :=
omap (λ r, t ← event_time col r;
           if bool_decide (partition_of t = dir)
           then Some (written_row col t r) else None) rs.

Definition written_cols (cols : list string) : list string :=
drop_part_cols (foldl add_column cols part_cols).

End Writer.
End Load.

(** ** dashboard/dashboard_core/metrics.py *)

Module Metrics.

(** One row of the joined transaction frame the dashboard aggregates;
    [None] is a missing value. The two labels are the [string] columns
    [clean_base_df] makes, where a comparison with a missing label is
    itself missing. *)
Record Tx := mkTx {
  transaction_id : option Z;
  truck_name : option string;
  payment_method : option string;
  total : option Q }.

(** One row of the truck-performance aggregate. *)
Record TruckPerf := mkTruckPerf {
  perf_truck_name : string;
  revenue : Q;
  transactions : nat;
  avg_sale : option Q;
  cash_share : Q }.

(** [sum()], skipping missing values. *)
Definition sum_total (g : list Tx) : Q :=
  foldr (λ r acc, default 0 (total r) + acc)%Q 0%Q g.

(** [nunique()]: distinct values, missing ones not counted. *)
Definition nunique (g : list Tx) : nat :=
  length (remove_dups (omap transaction_id g)).

(** [mean()], skipping missing values; [NaN] when nothing is left. *)
Definition mean_total (g : list Tx) : option Q :=
  match omap total g with
  | [] => None
  | vs => Some (foldr Qplus 0 vs / inject_Z (Z.of_nat (length vs)))%Q
  end.

(** The sales that carry a payment label, and those paid in cash. *)
Definition labelled (g : list Tx) : list Tx :=
  List.filter (λ r, bool_decide (is_Some (payment_method r))) g.
Definition paid_cash (g : list Tx) : list Tx :=
  List.filter (λ r, bool_decide (payment_method r = Some "cash")) g.

(** [s.eq("cash")] on a [string] column: [<NA>] for a missing label. *)
Definition is_cash (r : Tx) : option bool :=
  (λ l, bool_decide (l = "cash")) <$> payment_method r.

(** [float(s.eq("cash").mean())] on the rows of one group: the mean skips
    the missing comparisons; when none is left it is [<NA>], and [float]
    raises [TypeError]. *)
Definition cash_mean (g : list Tx) : option Q :=
  match omap is_cash g with
  | [] => None
  | bs =>
      Some (inject_Z (Z.of_nat (length (List.filter id bs))) /
            inject_Z (Z.of_nat (length bs)))%Q
  end.

(** The rows of the group with key [n]. *)
Definition group (n : string) (df : list Tx) : list Tx :=
  List.filter (λ r, bool_decide (truck_name r = Some n)) df.

(** [groupby("truck_name")]: the keys present, missing keys dropped,
    in ascending order. *)
Definition group_keys (df : list Tx) : list string :=
  Pd.sort_values String.leb (remove_dups (omap truck_name df)).

(** The row of the aggregate for the truck [n]; the [cash_share] lambda
    can raise. *)
Definition truck_perf_row (df : list Tx) (n : string) : option TruckPerf :=
  let g := group n df in
  share ← cash_mean g;
  Some {| perf_truck_name := n;
          revenue := sum_total g;
          transactions := nunique g;
          avg_sale := mean_total g;
          cash_share := share |}.

(** [compute_truck_perf(df)]: one row per group, in the order of the keys;
    it raises when the lambda raises on a group. *)
Definition compute_truck_perf (df : list Tx) : option (list TruckPerf) :=
  mapM (truck_perf_row df) (group_keys df).

(** [value_counts(dropna=False)]: one entry per distinct value, missing
    included, most frequent first. *)
Definition value_counts (col : list (option string))
  : list (option string * nat) :=
  Pd.sort_values (λ a b, (b.2 <=? a.2)%nat)
    ((λ l, (l, length (List.filter (λ x, bool_decide (x = l)) col)))
       <$> Pd.first_seen [] col).

Definition compute_payment_mix (df : list Tx) : list (string * nat) :=
  (λ '(l, n), (default "unknown" l, n)) <$> value_counts (payment_method <$> df).

Definition Qsum (xs : list Q) : Q := foldr Qplus 0%Q xs.



End Metrics.

(** ** dashboard/app.py: action cues *)

Module App.
Import Metrics.

(** [Series.quantile(p)] with the default linear interpolation: the value
    at position [(n - 1) * p] of the sorted values, interpolated between
    its two neighbours. [NaN] on an empty series. *)
Definition quantile (xs : list Q) (p : Q) : option Q :=
  let s := Pd.sort_values Qle_bool xs in
  match s with
  | [] => None
  | x0 :: _ =>
      let n := Z.of_nat (length s) in
      let h := (inject_Z (n - 1) * p)%Q in
      let lo := Qfloor h in
      let hi := Z.min (lo + 1) (n - 1) in
      let a := nth (Z.to_nat lo) s x0 in
      let b := nth (Z.to_nat hi) s x0 in
      Some (a + (b - a) * (h - inject_Z lo))%Q
  end.

Definition low_rev_threshold (truck_perf : list TruckPerf) : option Q :=
  quantile (revenue <$> truck_perf) (1 # 4).

Definition high_cash_threshold (truck_perf : list TruckPerf) : option Q :=
  quantile (cash_share <$> truck_perf) (3 # 4).

(** [truck_perf[truck_perf["revenue"] <= low_rev_threshold]]; against a
    [NaN] threshold every comparison is false. *)
Definition low_rev (truck_perf : list TruckPerf) : list TruckPerf :=
  match low_rev_threshold truck_perf with
  | Some thr => List.filter (λ r, Qle_bool (revenue r) thr) truck_perf
  | None => []
  end.

Definition high_cash (truck_perf : list TruckPerf) : list TruckPerf :=
  match high_cash_threshold truck_perf with
  | Some thr => List.filter (λ r, Qle_bool thr (cash_share r)) truck_perf
  | None => []
  end.

End App.

(** ** pipeline/daily_report.py *)

Module DailyReport.

(** A scalar read from a query result. *)
Inductive Scalar := SNone | SNaN | SNum (q : Q).

(** A Python float: [nan] or a number. *)
Inductive PyFloat := Nan | Fin (q : Q).

Record OverallRow := mkOverallRow {
  o_n_transactions : Scalar;
  o_total_pence : Scalar;
  o_avg_customer_spend_pence : Scalar }.

Record TruckRow := mkTruckRow {
  r_truck_name : string;
  r_n_transactions : Scalar;
  r_total_pence : Scalar;
  r_avg_customer_spend_pence : Scalar }.

Record PaymentRow := mkPaymentRow {
  r_payment_method : string;
  r_count : Scalar }.

(** A row of [by_truck_df] after the casts and the two derived columns. *)
Record ByTruck := mkByTruck {
  truck_name : string;
  n_transactions : Z;
  total_pence : Q;
  avg_customer_spend_pence : Q;
  total_gbp : Q;
  avg_customer_spend_gbp : Q }.

Record Highlight := mkHighlight {
  h_truck_name : string;
  h_total_gbp : Q;
  h_n_transactions : Z }.

(** The dictionary returned by [build_metrics]. *)
Record Metrics := mkMetrics {
  report_date : string;
  generated_at : string;
  total_transaction_value_gbp : PyFloat;
  overall_n_transactions : Z;
  overall_avg_customer_spend_gbp : PyFloat;
  by_truck_df : list ByTruck;
  cash_n : Z;
  card_n : Z;
  cash_share : Q;
  card_share : Q;
  top_truck_by_revenue : option Highlight;
  lowest_truck_by_revenue : option Highlight;
  top_truck_by_transactions : option Highlight }.

Record Date := mkDate { d_year : N; d_month : N; d_day : N }.

(** *** Numbers and their formats *)

(** [x or d]: [None] and zero are falsy, [nan] is not. *)
Definition or_default (x : Scalar) (d : Q) : Scalar :=
  match x with
  | SNone => SNum d
  | SNaN => SNaN
  | SNum q => if Qeq_bool q 0 then SNum d else SNum q
  end.

Definition truncate (q : Q) : Z :=
  if Qle_bool 0 q then Qfloor q else Qceiling q.

(** [int(x)], [float(x)] *)
Definition py_int (x : Scalar) : option Z :=
  match x with SNum q => Some (truncate q) | _ => None end.
Definition py_float (x : Scalar) : option PyFloat :=
  match x with SNum q => Some (Fin q) | SNaN => Some Nan | SNone => None end.

(** [pd.to_numeric(_, errors="coerce").fillna(0)] *)
Definition numeric_or_zero (x : Scalar) : Q :=
  match x with SNum q => q | _ => 0%Q end.

(** Rounding to the nearest integer, ties to the even one. *)
Definition round_half_even (q : Q) : Z :=
  let f := Qfloor q in
  match (q - inject_Z f ?= 1 # 2)%Q with
  | Lt => f
  | Gt => (f + 1)%Z
  | Eq => if Z.even f then f else (f + 1)%Z
  end.

(** [round(x, 2)] *)
Definition round2 (q : Q) : Q := (inject_Z (round_half_even (q * 100)) / 100)%Q.

Definition gbp_from_pence (pence : PyFloat) : PyFloat :=
  match pence with
  | Nan => Nan
  | Fin q => Fin (round2 ((if Qeq_bool q 0 then 0 else q) / 100))
  end.

(** Thousands separators for a string of digits. *)
Fixpoint group3 (n : nat) (rev_digits : list ascii) : list ascii :=
  match rev_digits with
  | [] => []
  | d :: ds =>
      match n with
      | 3%nat => ","%char :: d :: group3 1 ds
      | _ => d :: group3 (S n) ds
      end
  end.
Definition with_commas (digits : string) : string :=
  string_of_list_ascii
    (rev (group3 0 (rev (list_ascii_of_string digits)))).

(** [f"{value:,}"] *)
Definition fmt_int (value : Z) : string :=
  (if (value <? 0)%Z then "-" else EmptyString) ++
  with_commas (pretty (Z.abs value)).

Fixpoint zero_pad (width : nat) (s : string) : string :=
  match width with
  | O => s
  | S w => if (String.length s <=? w)%nat then zero_pad w ("0" ++ s) else s
  end.

(** [f"{q:.<places>f}"], with thousands separators when [commas]. *)
Definition format_fixed (places : nat) (commas : bool) (q : Q) : string :=
  let unit := (10 ^ Z.of_nat places)%Z in
  let a := Z.abs (round_half_even (q * inject_Z unit)) in
  let ip := pretty (a / unit)%Z in
  (if Qle_bool 0 q then EmptyString else "-") ++
  (if commas then with_commas ip else ip) ++
  (match places with
   | O => EmptyString
   | _ => "." ++ zero_pad places (pretty (a mod unit)%Z)
   end).

(** [f"£{value:,.2f}"] *)
Definition fmt_gbp (value : PyFloat) : string :=
  "£" ++ match value with Fin q => format_fixed 2 true q | Nan => "nan" end.

(** [f"{share*100:.1f}"] *)
Definition fmt_pct (share : Q) : string := format_fixed 1 false (share * 100).

Definition isoformat (d : Date) : string :=
  Scalars.pad4 (d_year d) ++ "-" ++ Scalars.pad2 (d_month d) ++ "-" ++
  Scalars.pad2 (d_day d).

(** *** build_metrics *)

(** Lines 150-168: casts, the derived pound columns, and the sort by
    revenue then transaction count, both descending. *)
Definition by_truck_row (r : TruckRow) : ByTruck :=
  let n := truncate (numeric_or_zero (r_n_transactions r)) in
  let tp := numeric_or_zero (r_total_pence r) in
  let ap := numeric_or_zero (r_avg_customer_spend_pence r) in
  {| truck_name := r_truck_name r;
     n_transactions := n;
     total_pence := tp;
     avg_customer_spend_pence := ap;
     total_gbp := round2 (tp / 100);
     avg_customer_spend_gbp := round2 (ap / 100) |}.

Definition by_revenue_desc (a b : ByTruck) : bool :=
  negb (Qle_bool (total_gbp a) (total_gbp b)) ||
  (Qeq_bool (total_gbp a) (total_gbp b) &&
   (n_transactions b <=? n_transactions a)%Z).

Definition by_transactions_desc (a b : ByTruck) : bool :=
  (n_transactions b <=? n_transactions a)%Z.

Definition highlight (r : ByTruck) : Highlight :=
  {| h_truck_name := truck_name r;
     h_total_gbp := total_gbp r;
     h_n_transactions := n_transactions r |}.

(** [pm_counts]: a later row with the same label replaces an earlier one. *)
Definition pm_counts (pm_df : list PaymentRow) : gmap string Z :=
  foldl (λ m r, <[r_payment_method r :=
                    truncate (numeric_or_zero (r_count r))]> m) ∅ pm_df.

(** [build_metrics], given the results of its three queries, the report
    day and the clock reading. The first row of [overall_df] is read when
    there is one. *)
Definition build_metrics (overall_df : list OverallRow)
    (by_truck : list TruckRow) (pm_df : list PaymentRow)
    (report_day : Date) (now_utc : string) : option Metrics :=
  let first f dflt := match overall_df with r :: _ => f r | [] => SNum dflt end in
  n_tx ← py_int (or_default (first o_n_transactions 0%Q) 0%Q);
  total_pence ← py_float (or_default (first o_total_pence 0%Q) 0%Q);
  avg_pence ← py_float (or_default (first o_avg_customer_spend_pence 0%Q) 0%Q);
  let by_truck_df :=
    Pd.sort_values by_revenue_desc (by_truck_row <$> by_truck) in
  let counts := pm_counts pm_df in
  let cash_n := default 0%Z (counts !! "cash") in
  let card_n := default 0%Z (counts !! "card") in
  let denom := Z.max n_tx 1 in
  Some {|
    report_date := isoformat report_day;
    generated_at := now_utc;
    total_transaction_value_gbp := gbp_from_pence total_pence;
    overall_n_transactions := n_tx;
    overall_avg_customer_spend_gbp := gbp_from_pence avg_pence;
    by_truck_df := by_truck_df;
    cash_n := cash_n;
    card_n := card_n;
    cash_share := (inject_Z cash_n / inject_Z denom)%Q;
    card_share := (inject_Z card_n / inject_Z denom)%Q;
    top_truck_by_revenue := highlight <$> head by_truck_df;
    lowest_truck_by_revenue := highlight <$> last by_truck_df;
    top_truck_by_transactions :=
      highlight <$> head (Pd.sort_values by_transactions_desc by_truck_df) |}.

(** *** Rendering *)

(** [html.escape(s)], quotes included. *)
Definition html_escape (s : string) : string :=
  let s := Py.replace "&" "&amp;" s in
  let s := Py.replace "<" "&lt;" s in
  let s := Py.replace ">" "&gt;" s in
  let s := Py.replace (ascii_of_nat 34) "&quot;" s in
  let s := Py.replace "'" "&#x27;" s in
  s.

Definition no_transactions_notice : string :=
  "<p><em>No transactions recorded for this date.</em></p>".

Definition table_headers : list string :=
  ["Truck"; "Transactions"; "Total (GBP)"; "Avg customer spend (GBP)"].

Definition join (ss : list string) : string := foldr String.append EmptyString ss.

(** The four cells of a table row, formatted as text. *)
Definition row_values (r : ByTruck) : list string :=
  [truck_name r; fmt_int (n_transactions r); fmt_gbp (Fin (total_gbp r));
   fmt_gbp (Fin (avg_customer_spend_gbp r))].

Definition table_row (r : ByTruck) : string :=
  "<tr>" ++ join ((λ v, "<td>" ++ html_escape v ++ "</td>") <$> row_values r)
  ++ "</tr>".

Definition df_to_html_table (df : list ByTruck) : string :=
  match df with
  | [] => no_transactions_notice
  | _ =>
      let headers :=
        join ((λ c, "<th>" ++ html_escape c ++ "</th>") <$> table_headers) in
      "
    <table>
      <thead><tr>" ++ headers ++ "</tr></thead>
      <tbody>
        " ++ join (table_row <$> df) ++ "
      </tbody>
    </table>
    "
  end.

Definition highlight_line (label : string) (item : option Highlight) : string :=
  match item with
  | None => "<li><b>" ++ html_escape label ++ ":</b> n/a</li>"
  | Some item =>
      "<li><b>" ++ html_escape label ++ ":</b> " ++
      html_escape (h_truck_name item) ++ " " ++
      "(" ++ fmt_gbp (Fin (h_total_gbp item)) ++ ", " ++
      fmt_int (h_n_transactions item) ++ " tx)</li>"
  end.

Import Py.

Definition tpl_title : string :=
  "<!doctype html>
<html lang=" ++ dq ++ "en" ++ dq ++ ">
<head>
  <meta charset=" ++ dq ++ "utf-8" ++ dq ++ " />
  <meta name=" ++ dq ++ "viewport" ++ dq ++ " content=" ++ dq ++ "width=device-width, initial-scale=1" ++ dq ++ " />
  <title>T3 Daily Report — ".

Definition tpl_style_heading : string :=
  "</title>
  <style>
    body {
      font-family: -apple-system, BlinkMacSystemFont, " ++ dq ++ "Segoe UI" ++ dq ++ ", Roboto, Arial, sans-serif;
      margin: 24px;
      color: #111;
      background: #fff;
    }
    .wrap { max-width: 980px; margin: 0 auto; }
    h1 { font-size: 1.6rem; margin-bottom: 0.25rem; }
    .meta { color: #444; margin-bottom: 1.25rem; }
    .cards {
      display: grid;
      grid-template-columns: repeat(3, 1fr);
      gap: 12px;
      margin: 16px 0 18px;
    }
    .card {
      border: 1px solid #e6e6e6;
      border-radius: 12px;
      padding: 14px 14px;
    }
    .label { font-size: 0.9rem; color: #555; }
    .value { font-size: 1.35rem; font-weight: 700; margin-top: 6px; }
    hr { border: none; border-top: 1px solid #eaeaea; margin: 18px 0; }
    table {
      width: 100%;
      border-collapse: collapse;
      margin-top: 10px;
    }
    th, td {
      padding: 10px 10px;
      border-bottom: 1px solid #eee;
      text-align: left;
      font-size: 0.95rem;
    }
    th { background: #fafafa; font-weight: 700; }
    .small { color: #555; font-size: 0.95rem; }
    ul { margin-top: 8px; }
    @media (max-width: 820px) {
      .cards { grid-template-columns: 1fr; }
    }
  </style>
</head>
<body>
  <div class=" ++ dq ++ "wrap" ++ dq ++ ">
    <h1>T3 Daily Performance Report — ".

Definition tpl_generated : string :=
  "</h1>
    <div class=" ++ dq ++ "meta" ++ dq ++ ">
      Generated at ".

Definition tpl_total_card : string :=
  " (UTC)<br/>
      <span class=" ++ dq ++ "small" ++ dq ++ ">All monetary values reported in GBP.</span>
    </div>

    <div class=" ++ dq ++ "cards" ++ dq ++ ">
      <div class=" ++ dq ++ "card" ++ dq ++ ">
        <div class=" ++ dq ++ "label" ++ dq ++ ">Total transaction value (all trucks)</div>
        <div class=" ++ dq ++ "value" ++ dq ++ ">".

Definition tpl_count_card : string :=
  "</div>
      </div>
      <div class=" ++ dq ++ "card" ++ dq ++ ">
        <div class=" ++ dq ++ "label" ++ dq ++ ">Total transactions</div>
        <div class=" ++ dq ++ "value" ++ dq ++ ">".

Definition tpl_avg_card : string :=
  "</div>
      </div>
      <div class=" ++ dq ++ "card" ++ dq ++ ">
        <div class=" ++ dq ++ "label" ++ dq ++ ">Avg customer spend</div>
        <div class=" ++ dq ++ "value" ++ dq ++ ">".

Definition tpl_by_truck : string :=
  "</div>
      </div>
    </div>

    <hr/>

    <h2>By-truck performance</h2>
    <p class=" ++ dq ++ "small" ++ dq ++ ">Total transaction value and number of transactions per truck.</p>
    ".

Definition tpl_payment_mix : string :=
  "

    <hr/>

    <h2>Payment mix</h2>
    <p class=" ++ dq ++ "small" ++ dq ++ ">
      Cash: ".

Definition tpl_share_open : string :=
  " (".

Definition tpl_card_mix : string :=
  "%) &nbsp;|&nbsp;
      Card: ".

Definition tpl_highlights : string :=
  "%)
    </p>

    <hr/>

    <h2>Highlights</h2>
    <ul>
      ".

Definition tpl_item_sep : string :=
  "
      ".

Definition tpl_tail : string :=
  "
    </ul>
  </div>
</body>
</html>
".


Definition render_html_report (metrics : Metrics) : string :=
  let by_truck_table := df_to_html_table (by_truck_df metrics) in
  tpl_title ++ html_escape (report_date metrics) ++
  tpl_style_heading ++ html_escape (report_date metrics) ++
  tpl_generated ++ html_escape (generated_at metrics) ++
  tpl_total_card ++ fmt_gbp (total_transaction_value_gbp metrics) ++
  tpl_count_card ++ fmt_int (overall_n_transactions metrics) ++
  tpl_avg_card ++ fmt_gbp (overall_avg_customer_spend_gbp metrics) ++
  tpl_by_truck ++ by_truck_table ++
  tpl_payment_mix ++ fmt_int (cash_n metrics) ++
  tpl_share_open ++ fmt_pct (cash_share metrics) ++
  tpl_card_mix ++ fmt_int (card_n metrics) ++
  tpl_share_open ++ fmt_pct (card_share metrics) ++
  tpl_highlights ++
  highlight_line "Top truck by revenue" (top_truck_by_revenue metrics) ++
  tpl_item_sep ++
  highlight_line "Lowest truck by revenue" (lowest_truck_by_revenue metrics) ++
  tpl_item_sep ++
  highlight_line "Top truck by transactions" (top_truck_by_transactions metrics) ++
  tpl_tail.

(** What [lambda_handler] returns. *)
Record Response := mkResponse {
  resp_report_date : string;
  resp_generated_at : string;
  resp_html : string }.

(** [lambda_handler], from the resolved report day on. *)
Definition lambda_handler (overall_df : list OverallRow)
    (by_truck : list TruckRow) (pm_df : list PaymentRow)
    (report_day : Date) (now_utc : string) : option Response :=
  metrics ← build_metrics overall_df by_truck pm_df report_day now_utc;
  Some {| resp_report_date := report_date metrics;
          resp_generated_at := generated_at metrics;
          resp_html := render_html_report metrics |}.

(** The characters that open or close markup: the angle brackets and the
  two quotes. *)
Definition is_markup (c : ascii) : bool :=
  Ascii.eqb c "<" || Ascii.eqb c ">" || Ascii.eqb c (ascii_of_nat 34) ||
  Ascii.eqb c "'".

(** The markup characters of a text, in order. *)
Definition markup_chars (s : string) : list ascii :=
  List.filter is_markup (list_ascii_of_string s).

(** The metrics with every truck name replaced through [f]. *)
Definition rename_row (f : string → string) (r : ByTruck) : ByTruck :=
  {| truck_name := f (truck_name r);
     n_transactions := n_transactions r;
     total_pence := total_pence r;
     avg_customer_spend_pence := avg_customer_spend_pence r;
     total_gbp := total_gbp r;
     avg_customer_spend_gbp := avg_customer_spend_gbp r |}.

Definition rename_highlight (f : string → string) (h : Highlight) : Highlight :=
  {| h_truck_name := f (h_truck_name h);
     h_total_gbp := h_total_gbp h;
     h_n_transactions := h_n_transactions h |}.

Definition rename_trucks (f : string → string) (m : Metrics) : Metrics :=
  {| report_date := report_date m;
     generated_at := generated_at m;
     total_transaction_value_gbp := total_transaction_value_gbp m;
     overall_n_transactions := overall_n_transactions m;
     overall_avg_customer_spend_gbp := overall_avg_customer_spend_gbp m;
     by_truck_df := rename_row f <$> by_truck_df m;
     cash_n := cash_n m;
     card_n := card_n m;
     cash_share := cash_share m;
     card_share := card_share m;
     top_truck_by_revenue := rename_highlight f <$> top_truck_by_revenue m;
     lowest_truck_by_revenue := rename_highlight f <$> lowest_truck_by_revenue m;
     top_truck_by_transactions :=
       rename_highlight f <$> top_truck_by_transactions m |}.

End DailyReport.

(** ** The cleaning rules, one row at a time

    Every rule of [clean_transactions] before and after the removal of
    duplicates acts on each row by itself: it rewrites one cell, or tests
    one cell. [filter_steps] and [cast_steps] list these rules in source
    order; [Transform.filter_rows] and [Transform.cast_columns] are shown
    below to apply them to each row. *)

Module RowSteps.

Inductive Step :=
  | Upd (c : string) (f : Cell → option Cell)
  | Chk (p : Cell → bool) (c : string)
  | When (b : bool) (s : Step).

Fixpoint exec (s : Step) (r : Row) : option Row :=
  match s with
  | Upd c f => v ← f (cell c r); Some (<[c := v]> r)
  | Chk p c => if p (cell c r) then Some r else None
  | When b s' => if b then exec s' r else Some r
  end.

Fixpoint run (ss : list Step) (r : Row) : option Row :=
  match ss with
  | [] => Some r
  | s :: ss' => r' ← exec s r; run ss' r'
  end.

(** The column a step reads, what it does to that cell, and whether it
    writes the cell back. *)
Fixpoint step_col (s : Step) : string :=
  match s with Upd c _ | Chk _ c => c | When _ s' => step_col s' end.

Fixpoint step_eff (s : Step) (v : Cell) : option Cell :=
  match s with
  | Upd _ f => f v
  | Chk p _ => if p v then Some v else None
  | When b s' => if b then step_eff s' v else Some v
  end.

Fixpoint step_writes (s : Step) : bool :=
  match s with
  | Upd _ _ => true
  | Chk _ _ => false
  | When b s' => b && step_writes s'
  end.

(** The cell of column [c] after the steps, from the cell before. *)
Fixpoint cell_after (c : string) (ss : list Step) (v : Cell) : option Cell :=
  match ss with
  | [] => Some v
  | s :: ss' =>
      if String.eqb (step_col s) c
      then v' ← step_eff s v; cell_after c ss' v'
      else cell_after c ss' v
  end.

Fixpoint updates (c : string) (ss : list Step) : bool :=
  match ss with
  | [] => false
  | s :: ss' => (String.eqb (step_col s) c && step_writes s) || updates c ss'
  end.

Definition set_cell (c : string) (f : Cell → Cell) : Step := Upd c (Some ∘ f).

(** What the two text steps leave in a cell: text or nothing. *)
Definition is_text (v : Cell) : Prop := v = NA ∨ ∃ s, v = Str s.

(** Two keys are duplicates of each other when they have one canonical
    form. *)
Inductive DupKey := KNA | KStr (s : string) | KTime (t : Timestamp) | KNum (q : Q).

Definition dup_key (c : Cell) : DupKey :=
  match c with
  | NA => KNA
  | Str s => KStr s
  | Time t => KTime t
  | Num q => KNum (Qred q)
  | Bool b => KNum (Qred (if b then 1 else 0))
  end.

(** The columns the cleaning rules touch. *)
Definition cleaned_cols : list string :=
  ["payment_method"; "truck_name"; "truck_description"; "total"; "at";
   "has_card_reader"; "fsa_rating"; "truck_id"; "payment_method_id";
   "transaction_id"].

Section Rules.
Context `{Parsers}.

Definition filter_steps (cols : list string) : list Step :=
  [ When (has_column "payment_method" cols)
      (set_cell "payment_method" (Pd.str_strip ∘ Pd.astype_string));
    When (has_column "truck_name" cols)
      (set_cell "truck_name" (Pd.str_strip ∘ Pd.astype_string));
    When (has_column "truck_description" cols)
      (set_cell "truck_description" (Pd.str_strip ∘ Pd.astype_string));
    set_cell "total" (Pd.str_strip ∘ Pd.astype_string);
    set_cell "total" Transform.void_to_na;
    set_cell "total" Pd.to_numeric;
    Chk (λ v, Pd.notna v && Pd.gt0 v) "total";
    set_cell "at" Pd.to_datetime;
    Chk Pd.notna "at";
    When (has_column "has_card_reader" cols)
      (set_cell "has_card_reader" Pd.to_numeric);
    When (has_column "has_card_reader" cols) (Chk Pd.isin01 "has_card_reader");
    When (has_column "fsa_rating" cols) (set_cell "fsa_rating" Pd.to_numeric);
    When (has_column "fsa_rating" cols) (Chk (Pd.between 0 5) "fsa_rating");
    When (has_column "payment_method" cols)
      (set_cell "payment_method" Pd.str_lower);
    When (has_column "payment_method" cols)
      (Chk (Pd.isin_str ["cash"; "card"]) "payment_method") ].

Definition cast_steps (cols : list string) : list Step :=
  ((λ c, When (has_column c cols) (Upd c (Pd.astype_Int64 ∘ Pd.to_numeric)))
     <$> Transform.int_cols) ++
  [ Upd "total" Pd.astype_float64;
    When (has_column "has_card_reader" cols)
      (Upd "has_card_reader" Pd.astype_boolean) ].

End Rules.
End RowSteps.

(** ** Sample frames *)

Module Samples.
Import Scalars.

(** The columns of the extract query, in its order. *)
Definition raw_cols : list string :=
  ["transaction_id"; "truck_id"; "truck_name"; "truck_description";
   "has_card_reader"; "fsa_rating"; "payment_method_id"; "payment_method";
   "total"; "at"].

Definition raw_row (id : Cell) (truck : string) (method : string)
    (total at_ : Cell) : Row :=
  list_to_map
    [("transaction_id", id); ("truck_id", Num 3); ("truck_name", Str truck);
     ("truck_description", Str " Street food ");
     ("has_card_reader", Num 1); ("fsa_rating", Num 4);
     ("payment_method_id", Num 2); ("payment_method", Str method);
     ("total", total); ("at", at_)].

(** Three sales, one of them recorded twice, and a voided one. *)
Definition raw_day : DataFrame :=
  {| columns := raw_cols;
     rows :=
       [ raw_row (Num 1) "Burrito Madness" "card" (Num 740)
           (Str "2024-03-05T14:30:00");
         raw_row (Num 2) " Kings of Kebabs " " Cash" (Str "520")
           (Str "2024-03-05T14:45:10");
         raw_row (Num 2) " Kings of Kebabs " " Cash" (Str "520")
           (Str "2024-03-05T14:45:10");
         raw_row (Num 3) "Burrito Madness" "card" (Str "void")
           (Str "2024-03-05T15:02:00");
         raw_row (Num 4) "Burrito Madness" "cash" (Num 1250)
           (Str "2024-03-05T15:20:00") ] |}.

(** The first row of the cleaned [raw_day]. *)
Definition first_cleaned : Row :=
default ∅ (head (rows (Transform.cleaned raw_day))).

(** The lake written from the cleaned [raw_day]. *)
Definition lake : Load.Files :=
  default ∅
    (Load.write_time_partitioned_transactions (Transform.cleaned raw_day)
       ["input"; "transaction"] Load.default_timestamp_col
       Load.default_filename ∅).


(** Two valid sales whose identifiers are text that is not a number. *)
Definition text_ids : DataFrame :=
  {| columns := raw_cols;
     rows :=
       [ raw_row (Str "T-1001") "Burrito Madness" "card" (Num 740)
           (Str "2024-03-05T14:30:00");
         raw_row (Str "T-1002") "Kings of Kebabs" "cash" (Num 520)
           (Str "2024-03-05T14:45:10") ] |}.


(** Four trucks with revenues 10, 20, 30 and 40. *)
Definition four_trucks : list Metrics.Tx :=
  [ Metrics.mkTx (Some 1%Z) (Some "Cupcakes by Michelle") (Some "card") (Some 20%Q);
    Metrics.mkTx (Some 2%Z) (Some "Burrito Madness") (Some "cash") (Some 4%Q);
    Metrics.mkTx (Some 3%Z) (Some "Kings of Kebabs") (Some "cash") (Some 30%Q);
    Metrics.mkTx (Some 4%Z) (Some "Burrito Madness") (Some "card") (Some 6%Q);
    Metrics.mkTx (Some 5%Z) (Some "Yoghurt Heaven") (Some "card") (Some 40%Q) ].

(** Their aggregate, empty if the aggregation raises. *)
Definition four_trucks_perf : list Metrics.TruckPerf :=
  default [] (Metrics.compute_truck_perf four_trucks).

(** A truck with one cash sale and one sale whose payment method is
    missing, and a truck whose only sale has no payment method. *)
Definition half_labelled : list Metrics.Tx :=
  [ Metrics.mkTx (Some 1%Z) (Some "Yoghurt Heaven") (Some "cash") (Some 4%Q);
    Metrics.mkTx (Some 2%Z) (Some "Yoghurt Heaven") None (Some 6%Q) ].

Definition unlabelled : list Metrics.Tx :=
  [ Metrics.mkTx (Some 1%Z) (Some "Yoghurt Heaven") None (Some 4%Q) ].

(** The three query results of a day without transactions: the overall
    query aggregates without grouping and returns one row, a count of 0
    with a missing sum and a missing average; the two grouped queries
    return no row. *)
Definition empty_day_overall : list DailyReport.OverallRow :=
  [ DailyReport.mkOverallRow (DailyReport.SNum 0) DailyReport.SNaN
      DailyReport.SNaN ].

Definition empty_day : option DailyReport.Metrics :=
  DailyReport.build_metrics empty_day_overall [] []
    (DailyReport.mkDate 2024 3 5) "2024-03-06T00:05:00Z".

(** A day on which one truck is named like a script element. *)
Definition script_name : string := "<script>alert(1)</script>".

Definition script_day : option DailyReport.Metrics :=
  DailyReport.build_metrics
    [ DailyReport.mkOverallRow (DailyReport.SNum 3) (DailyReport.SNum 123456)
        (DailyReport.SNum 41152) ]
    [ DailyReport.mkTruckRow script_name (DailyReport.SNum 2)
        (DailyReport.SNum 100000) (DailyReport.SNum 50000);
      DailyReport.mkTruckRow "Kings of Kebabs" (DailyReport.SNum 1)
        (DailyReport.SNum 23456) (DailyReport.SNum 23456) ]
    [ DailyReport.mkPaymentRow "cash" (DailyReport.SNum 2);
      DailyReport.mkPaymentRow "card" (DailyReport.SNum 1) ]
    (DailyReport.mkDate 2024 3 5) "2024-03-06T00:05:00Z".

End Samples.

(** ** pipeline/transform.py: the dimension tables *)

Module Dims.
Section Metadata.
Context `{Parsers}.

Definition truck_cols : list string :=
  ["truck_id"; "truck_name"; "truck_description"; "has_card_reader";
   "fsa_rating"].

Definition pm_cols : list string := ["payment_method_id"; "payment_method"].

(** The cells of a row in the columns [cols]. *)
Definition restrict (cols : list string) (r : Row) : Row :=
  filter (λ kv, kv.1 ∈ cols) r.

(** [df[cols]]: a missing column raises [KeyError]. *)
Definition select (cols : list string) (df : DataFrame) : option (list Row) :=
  if forallb (λ c, has_column c (columns df)) cols
  then Some (restrict cols <$> rows df) else None.

(** [.astype("Int64").astype("boolean")]: an integer other than 0 is
    [True]. *)
Definition int64_to_boolean (c : Cell) : Cell :=
  match c with Num q => Bool (negb (Qeq_bool q 0)) | _ => c end.

Definition astype_Int64_boolean (c : Cell) : option Cell :=
  int64_to_boolean <$> Pd.astype_Int64 c.

(** [build_truck_metadata(df)] *)
Definition build_truck_metadata (df : DataFrame) : option DataFrame :=
  meta ← select truck_cols df;
  let meta := Pd.drop_duplicates "truck_id" meta in
  meta ← Pd.assign_cast "truck_id" (Pd.astype_Int64 ∘ Pd.to_numeric) meta;
  meta ← Pd.assign_cast "has_card_reader"
            (astype_Int64_boolean ∘ Pd.to_numeric) meta;
  meta ← Pd.assign_cast "fsa_rating" (Pd.astype_Int64 ∘ Pd.to_numeric) meta;
  let meta := Pd.assign "truck_name" (Pd.str_strip ∘ Pd.astype_string) meta in
  let meta :=
    Pd.assign "truck_description" (Pd.str_strip ∘ Pd.astype_string) meta in
  Some {| columns := truck_cols; rows := Pd.keep Pd.notna "truck_id" meta |}.

(** [build_payment_method_metadata(df)] *)
Definition build_payment_method_metadata (df : DataFrame)
  : option DataFrame :=
  meta ← select pm_cols df;
  let meta := Pd.drop_duplicates "payment_method_id" meta in
  meta ← Pd.assign_cast "payment_method_id"
            (Pd.astype_Int64 ∘ Pd.to_numeric) meta;
  let meta :=
    Pd.assign "payment_method"
      (Pd.str_lower ∘ Pd.str_strip ∘ Pd.astype_string) meta in
  Some {| columns := pm_cols;
          rows := Pd.keep Pd.notna "payment_method_id" meta |}.

(** The casts of the two builders, one row at a time. *)
Definition truck_steps : list RowSteps.Step :=
  [ RowSteps.Upd "truck_id" (Pd.astype_Int64 ∘ Pd.to_numeric);
    RowSteps.Upd "has_card_reader" (astype_Int64_boolean ∘ Pd.to_numeric);
    RowSteps.Upd "fsa_rating" (Pd.astype_Int64 ∘ Pd.to_numeric);
    RowSteps.set_cell "truck_name" (Pd.str_strip ∘ Pd.astype_string);
    RowSteps.set_cell "truck_description" (Pd.str_strip ∘ Pd.astype_string) ].

Definition pm_steps : list RowSteps.Step :=
  [ RowSteps.Upd "payment_method_id" (Pd.astype_Int64 ∘ Pd.to_numeric);
    RowSteps.set_cell "payment_method"
      (Pd.str_lower ∘ Pd.str_strip ∘ Pd.astype_string) ].

(** What the two builders share: select the columns, keep the first row
    of each key, cast, and drop the rows whose key is missing. *)
Definition build_dim (cols : list string) (key : string)
    (steps : list RowSteps.Step) (df : DataFrame) : option DataFrame :=
  meta ← select cols df;
  meta ← mapM (RowSteps.run steps) (Pd.drop_duplicates key meta);
  Some {| columns := cols; rows := Pd.keep Pd.notna key meta |}.

(** The keys of the rows are pairwise different, as [drop_duplicates]
    compares them. *)
Definition distinct_keys (key : string) (rs : list Row) : Prop :=
  ∀ i j ri rj, (i < j)%nat → rs !! i = Some ri → rs !! j = Some rj →
    Pd.dup_eqb (cell key rj) (cell key ri) = false.

End Metadata.
End Dims.

(** ** pipeline/load.py: the lake and the upload *)

Module Lake.
Import Load.

(** The objects of the store: bucket and key to the uploaded content. *)
Abbreviation S3 := (gmap (string * string) DataFrame).

(** [write_unpartitioned_parquet(df, out_path)] *)
Definition write_unpartitioned_parquet (df : DataFrame) (out_path : Path)
    (fs : Files) : Files :=
  <[out_path := df]> fs.

(** [Path.as_posix()] of a relative path: the components joined by [/]. *)
Fixpoint as_posix (p : Path) : string :=
  match p with
  | [] => "."
  | [c] => c
  | c :: p' => c ++ "/" ++ as_posix p'
  end.

(** [file.relative_to(local_dir)] for a file under [local_dir]. *)
Definition relative_to (file local_dir : Path) : option Path :=
  if bool_decide (local_dir `prefix_of` file)
  then Some (drop (length local_dir) file) else None.

(** The key of a file found by [local_dir.rglob("*")]; the directory
    itself is not among the files found. *)
Definition object_key (local_dir : Path) (s3_prefix : string) (file : Path)
  : option string :=
  match relative_to file local_dir with
  | Some (c :: rel) => Some (s3_prefix ++ "/" ++ as_posix (c :: rel))
  | _ => None
  end.

(** [upload_directory_to_s3(local_dir, bucket, prefix)] *)
Definition upload_directory_to_s3 (local_dir : Path)
    (bucket s3_prefix : string) (fs : Files) (s3 : S3) : S3 :=
  map_fold (λ file content s3,
              match object_key local_dir s3_prefix file with
              | Some key => <[(bucket, key) := content]> s3
              | None => s3
              end) s3 fs.

(** A path component holds no separator. *)
Definition no_slash (c : string) : Prop :=
  "/"%char ∉ list_ascii_of_string c.

#[global] Instance no_slash_dec c : Decision (no_slash c).
Proof. unfold no_slash. apply _. Defined.

Section Writer.
Context `{Parsers}.

(** The rows the partition writer keeps: the timestamp parsed, the rows
    without one dropped. *)
Definition parsed_rows (col : string) (rs : list Row) : list Row :=
  omap (λ r, t ← event_time col r; Some (<[col := Time t]> r)) rs.

(** The files the writer's loop writes for rows that carry their helper
    columns. *)
Definition write_groups (cols : list string) (root_dir : Path)
    (filename : string) (fs : Files) (rs : list Row) : Files :=
  foldl (λ fs '(k, chunk),
           <[(out_dir root_dir k ++ [filename])%list :=
               {| columns := drop_part_cols (foldl add_column cols part_cols);
                  rows := drop_parts <$> chunk |}]> fs)
        fs (Pd.groupby part_key rs).

(** [write_data_lake_structure(dim_truck, dim_payment_method,
    transactions, base_dir)]: the directory it returns and the files. *)
Definition write_data_lake_structure
    (dim_truck dim_payment_method transactions : DataFrame) (base : Path)
    (fs : Files) : option (Path * Files) :=
  let fs := write_unpartitioned_parquet dim_truck
              (base ++ ["truck"; "truck.parquet"])%list fs in
  let fs := write_unpartitioned_parquet dim_payment_method
              (base ++ ["payment_method"; "payment_method.parquet"])%list fs in
  fs ← write_time_partitioned_transactions transactions
          (base ++ ["transaction"])%list "at" default_filename fs;
  Some (base, fs).

(** [main()], from the extracted frame on: clean, build the two tables,
    write the lake under [input], read the bucket name from the
    environment ([KeyError] when it is not set), upload the lake under the
    prefix [input]. *)
Definition main (raw : DataFrame) (s3_bucket : option string) (fs : Files)
    (s3 : S3) : option (Files * S3) :=
  transactions ← Transform.clean_transactions raw;
  dim_truck ← Dims.build_truck_metadata transactions;
  dim_payment_method ← Dims.build_payment_method_metadata transactions;
  '(output_dir, fs) ← write_data_lake_structure dim_truck dim_payment_method
                         transactions ["input"] fs;
  bucket ← s3_bucket;
  Some (fs, upload_directory_to_s3 output_dir bucket "input" fs s3).

End Writer.
End Lake.

(** ** dashboard/dashboard_core/metrics.py: the trend *)

Module Trend.
Import Metrics.

(** One row of the frame the dashboard aggregates: the sale and its two
    time columns, [NaT] as [None]. *)
Record Sale := mkSale {
  sale : Tx;
  day_dt : option Timestamp;
  hour_ts : option Timestamp }.

(** One row of the trend: the day or the hour, and its aggregates. *)
Record TrendRow := mkTrendRow {
  bucket : Timestamp;
  trend_revenue : Q;
  trend_transactions : nat;
  trend_avg_sale : option Q }.

(** Timestamps compare field by field, the year first. *)
Definition fields (t : Timestamp) : list N :=
  [year t; month t; day t; hour t; minute t; second t].

Fixpoint lex_compare (a b : list N) : comparison :=
  match a, b with
  | [], [] => Eq
  | [], _ :: _ => Lt
  | _ :: _, [] => Gt
  | x :: a', y :: b' =>
      match (x ?= y)%N with Eq => lex_compare a' b' | c => c end
  end.

Definition timestamp_leb (a b : Timestamp) : bool :=
  match lex_compare (fields a) (fields b) with Gt => false | _ => true end.

(** The sales of the group with key [k]. *)
Definition bucket_rows (key : Sale → option Timestamp) (k : Timestamp)
    (df : list Sale) : list Tx :=
  sale <$> List.filter (λ r, bool_decide (key r = Some k)) df.

(** [df.groupby(col, as_index=False).agg(revenue=("total", "sum"),
    transactions=("transaction_id", "nunique"),
    avg_sale=("total", "mean")).sort_values(col)]: missing keys make no
    group. *)
Definition trend_by (key : Sale → option Timestamp) (df : list Sale)
  : list TrendRow :=
  (λ k, let g := bucket_rows key k df in
        {| bucket := k;
           trend_revenue := sum_total g;
           trend_transactions := nunique g;
           trend_avg_sale := mean_total g |})
    <$> Pd.sort_values timestamp_leb (remove_dups (omap key df)).

Definition compute_trend (df : list Sale) (time_grain : string)
  : list TrendRow :=
  if String.eqb time_grain "Daily" then trend_by day_dt df
  else trend_by hour_ts df.

(** The column the trend of a grain groups by. *)
Definition grain_key (time_grain : string) : Sale → option Timestamp :=
  if String.eqb time_grain "Daily" then day_dt else hour_ts.


(** The headline figure [float(df["total"].sum())]. *)
Definition total_revenue (df : list Sale) : Q := sum_total (sale <$> df).

End Trend.

(** ** dashboard/dashboard_core/transforms.py *)

Module Dashboard.
Section Transforms.
Context `{Parsers}.

(** [pd.to_numeric(df["total"], errors="coerce") / 100]: pence to pounds. *)
Definition pence_to_pounds (c : Cell) : Cell :=
  match Pd.num_value (Pd.to_numeric c) with
  | Some q => Num (q / 100)
  | None => NA
  end.

(** The columns [clean_base_df] reads, and those of its [dropna]. *)
Definition base_cols : list string :=
  ["total"; "truck_name"; "payment_method"; "day_dt"; "hour_ts"].
Definition required_cols : list string :=
  ["total"; "truck_name"; "day_dt"; "hour_ts"].

(** [clean_base_df(df)]; reading a column that is missing raises
    [KeyError], and nothing else can raise. *)
Definition clean_base_df (df : DataFrame) : option DataFrame :=
  if negb (forallb (λ c, has_column c (columns df)) base_cols) then None else
  let rs := Pd.assign "total" pence_to_pounds (rows df) in
  let rs := Pd.assign "truck_name" (Pd.str_strip ∘ Pd.astype_string) rs in
  let rs := Pd.assign "payment_method"
              (Pd.str_lower ∘ Pd.str_strip ∘ Pd.astype_string) rs in
  let rs := Pd.assign "day_dt" Pd.to_datetime rs in
  let rs := Pd.assign "hour_ts" Pd.to_datetime rs in
  let rs := foldl (λ rs c, Pd.keep Pd.notna c rs) rs required_cols in
  let rs := Pd.keep Pd.gt0 "total" rs in
  Some {| columns := columns df; rows := rs |}.

(** [out = out[out[c].isin(selection)]] when the selection is not empty. *)
Definition select_in (c : string) (selection : list string) (df : DataFrame)
  : option DataFrame :=
  match selection with
  | [] => Some df
  | _ =>
      if has_column c (columns df)
      then Some {| columns := columns df;
                   rows := Pd.keep (Pd.isin_str selection) c (rows df) |}
      else None
  end.

(** [apply_filters(df, payment_filter, selected_trucks)] *)
Definition apply_filters (df : DataFrame)
    (payment_filter selected_trucks : list string) : option DataFrame :=
  out ← select_in "payment_method" payment_filter df;
  select_in "truck_name" selected_trucks out.

(** [app.py], lines 78-83: the trucks offered, and selected by default:
    [sorted(tmp["truck_name"].dropna().unique().tolist())], where [tmp] is
    the base frame under the payment filter. *)
Definition all_trucks (base_df : DataFrame) (payment_filter_ui : list string)
  : option (list string) :=
  tmp ← select_in "payment_method" payment_filter_ui base_df;
  if has_column "truck_name" (columns tmp)
  then Some (Pd.sort_values String.leb
               (remove_dups
                  (omap (λ r, match cell "truck_name" r with
                              | Str s => Some s
                              | _ => None
                              end) (rows tmp))))
  else None.

(** The rules of [clean_base_df], one row at a time. *)
Definition base_steps : list RowSteps.Step :=
  [ RowSteps.set_cell "total" pence_to_pounds;
    RowSteps.set_cell "truck_name" (Pd.str_strip ∘ Pd.astype_string);
    RowSteps.set_cell "payment_method"
      (Pd.str_lower ∘ Pd.str_strip ∘ Pd.astype_string);
    RowSteps.set_cell "day_dt" Pd.to_datetime;
    RowSteps.set_cell "hour_ts" Pd.to_datetime;
    RowSteps.Chk Pd.notna "total";
    RowSteps.Chk Pd.notna "truck_name";
    RowSteps.Chk Pd.notna "day_dt";
    RowSteps.Chk Pd.notna "hour_ts";
    RowSteps.Chk Pd.gt0 "total" ].

End Transforms.
End Dashboard.

(** ** More sample frames *)

Module Cases.
Import Scalars.

(** The three query results of a day with three trucks. *)
Definition day_overall : list DailyReport.OverallRow :=
  [ DailyReport.mkOverallRow (DailyReport.SNum 6) (DailyReport.SNum 345678)
      (DailyReport.SNum 57613) ].

Definition day_trucks : list DailyReport.TruckRow :=
  [ DailyReport.mkTruckRow "Kings of Kebabs" (DailyReport.SNum 3)
      (DailyReport.SNum 100000) (DailyReport.SNum 33333);
    DailyReport.mkTruckRow "Burrito Madness" (DailyReport.SNum 2)
      (DailyReport.SNum 222222) (DailyReport.SNum 111111);
    DailyReport.mkTruckRow "Yoghurt Heaven" (DailyReport.SNum 1)
      (DailyReport.SNum 23456) (DailyReport.SNum 23456) ].

Definition day_payments : list DailyReport.PaymentRow :=
  [ DailyReport.mkPaymentRow "cash" (DailyReport.SNum 4);
    DailyReport.mkPaymentRow "card" (DailyReport.SNum 2) ].

Definition day_metrics : option DailyReport.Metrics :=
  DailyReport.build_metrics day_overall day_trucks day_payments
    (DailyReport.mkDate 2024 3 5) "2024-03-06T00:05:00Z".

(** What the dashboard query returns for three sales: totals in pence,
    one truck name padded with blanks, one row without a truck, one row
    with a total that is no number. *)
Definition base_cols : list string :=
  ["transaction_id"; "truck_id"; "truck_name"; "payment_method_id";
   "payment_method"; "total"; "day_dt"; "hour_ts"].

Definition base_row (id : Q) (truck method total : Cell) : Row :=
  list_to_map
    [("transaction_id", Num id); ("truck_id", Num 3); ("truck_name", truck);
     ("payment_method_id", Num 2); ("payment_method", method);
     ("total", total); ("day_dt", Str "2024-03-05");
     ("hour_ts", Str "2024-03-05 14:00:00")].

Definition base_raw : DataFrame :=
  {| columns := base_cols;
     rows :=
       [ base_row 1 (Str " Burrito Madness ") (Str "Card") (Num 740);
         base_row 2 (Str "Kings of Kebabs") (Str "cash ") (Num 520);
         base_row 3 NA (Str "cash") (Num 300);
         base_row 4 (Str "Kings of Kebabs") NA (Str "n/a");
         base_row 5 (Str "Kings of Kebabs") NA (Num 1250) ] |}.

(** One valid sale of a truck rated four and a half. *)
Definition half_star_row : Row :=
  <["fsa_rating" := Num (9 # 2)]>
    (Samples.raw_row (Num 1) "Burrito Madness" "card" (Num 740)
       (Str "2024-03-05T14:30:00")).

Definition half_star : DataFrame :=
  {| columns := Samples.raw_cols; rows := [half_star_row] |}.

(** The row as the filters leave it. *)
Definition half_star_valid : Row :=
  default ∅ (head (Transform.filter_rows Samples.raw_cols [half_star_row])).

(** The two dimension tables of the cleaned sample day, empty when a
    builder raises. *)
Definition day_trucks_dim : DataFrame :=
  default {| columns := []; rows := [] |}
    (Dims.build_truck_metadata (Transform.cleaned Samples.raw_day)).

Definition day_payments_dim : DataFrame :=
  default {| columns := []; rows := [] |}
    (Dims.build_payment_method_metadata (Transform.cleaned Samples.raw_day)).

(** Three sales of two days, the second day's in two hours. *)
Definition trend_day : list Trend.Sale :=
  [ Trend.mkSale (Metrics.mkTx (Some 1%Z) (Some "Burrito Madness")
                    (Some "card") (Some (37 # 5)))
      (Some (mkTimestamp 2024 3 6 0 0 0)) (Some (mkTimestamp 2024 3 6 9 0 0));
    Trend.mkSale (Metrics.mkTx (Some 2%Z) (Some "Kings of Kebabs")
                    (Some "cash") (Some (26 # 5)))
      (Some (mkTimestamp 2024 3 5 0 0 0)) (Some (mkTimestamp 2024 3 5 14 0 0));
    Trend.mkSale (Metrics.mkTx (Some 3%Z) (Some "Kings of Kebabs")
                    (Some "cash") (Some 3%Q))
      (Some (mkTimestamp 2024 3 6 0 0 0)) (Some (mkTimestamp 2024 3 6 18 0 0)) ].

(** The lake of the cleaned sample day, written into an empty working
    directory: the directory returned and the files; nothing when a
    writer raises. *)
Definition day_lake : Load.Path * Load.Files :=
  default ([], ∅)
    (Lake.write_data_lake_structure day_trucks_dim day_payments_dim
       (Transform.cleaned Samples.raw_day) ["input"] ∅).

(** The base frame the dashboard works on, empty when the cleaning
    raises, and its first row. *)
Definition base_cleaned : DataFrame :=
  default {| columns := []; rows := [] |} (Dashboard.clean_base_df base_raw).

Definition first_base : Row := default ∅ (head (rows base_cleaned)).

End Cases.

(** * Facts *)

Module PyFacts.
Import Py.

Lemma lstrip_idem s : lstrip (lstrip s) = lstrip s.
Proof.
  induction s as [|c s IH]; [done|]. simpl.
  destruct (is_space c) eqn:Hc; [done|]. simpl. by rewrite Hc.
Qed.

Lemma rstrip_idem s : rstrip (rstrip s) = rstrip s.
Proof.
  induction s as [|c s IH]; [done|]. simpl.
  destruct (rstrip s) as [|a r] eqn:Hr.
  - destruct (is_space c) eqn:Hc; [done|]. simpl. by rewrite Hc.
  - cbn [rstrip] in *. by rewrite IH.
Qed.

Lemma lstrip_rstrip s : lstrip (rstrip s) = rstrip (lstrip s).
Proof.
  induction s as [|c s IH]; [done|]. cbn [lstrip rstrip].
  destruct (is_space c) eqn:Hc.
  - rewrite <- IH. destruct (rstrip s) as [|a r]; [done|].
    cbn [lstrip]. by rewrite Hc.
  - cbn [rstrip]. destruct (rstrip s) as [|a r]; rewrite ?Hc; cbn [lstrip];
      by rewrite Hc.
Qed.

Lemma strip_idem s : strip (strip s) = strip s.
Proof.
  unfold strip.
  by rewrite <- (lstrip_rstrip (rstrip s)), rstrip_idem, lstrip_idem.
Qed.

End PyFacts.

Module RowStepsFacts.
Import RowSteps.

Lemma cell_insert_eq c v (r : Row) : cell c (<[c := v]> r) = v.
Proof. unfold cell. by rewrite lookup_insert_eq. Qed.

Lemma cell_insert_ne c c' v (r : Row) : c' ≠ c → cell c (<[c' := v]> r) = cell c r.
Proof. intros. unfold cell. by rewrite lookup_insert_ne. Qed.

Lemma run_app ss1 ss2 r : run (ss1 ++ ss2) r = run ss1 r ≫= run ss2.
Proof.
  revert r. induction ss1 as [|s ss1 IH]; intros r; simpl; [done|].
  destruct (exec s r) as [r1|]; simpl; [apply IH | done].
Qed.

Lemma exec_cell c s r r1 :
  exec s r = Some r1 →
  (if String.eqb (step_col s) c then step_eff s (cell c r) else Some (cell c r))
  = Some (cell c r1).
Proof.
  revert r1. induction s as [c' f|p c'|b s IH]; intros r1; simpl.
  - destruct (f (cell c' r)) as [v|] eqn:Hf; simpl; [|done].
    intros [= <-]. destruct (String.eqb_spec c' c) as [->|Hne].
    + by rewrite Hf, cell_insert_eq.
    + by rewrite cell_insert_ne.
  - destruct (p (cell c' r)) eqn:Hp; [|done]. intros [= <-].
    destruct (String.eqb_spec c' c) as [->|Hne]; [by rewrite Hp | done].
  - destruct b; [apply IH|]. intros [= <-]. by destruct (String.eqb _ _).
Qed.

Lemma run_cell c ss r r' :
  run ss r = Some r' → cell_after c ss (cell c r) = Some (cell c r').
Proof.
  revert r. induction ss as [|s ss IH]; intros r; simpl.
  - by intros [= <-].
  - destruct (exec s r) as [r1|] eqn:Hs; simpl; [|done]. intros Hrun.
    apply (exec_cell c) in Hs. destruct (String.eqb (step_col s) c).
    + rewrite Hs. simpl. by apply IH.
    + injection Hs as ->. by apply IH.
Qed.

Lemma exec_lookup c s r r1 :
  exec s r = Some r1 →
  r1 !! c = if String.eqb (step_col s) c && step_writes s
            then Some (cell c r1) else r !! c.
Proof.
  revert r1. induction s as [c' f|p c'|b s IH]; intros r1; simpl.
  - destruct (f (cell c' r)) as [v|]; simpl; [|done]. intros [= <-].
    rewrite andb_true_r. destruct (String.eqb_spec c' c) as [->|Hne].
    + by rewrite cell_insert_eq, lookup_insert_eq.
    + by rewrite lookup_insert_ne.
  - destruct (p (cell c' r)); [|done]. intros [= <-]. by rewrite andb_false_r.
  - destruct b; simpl.
    + apply IH.
    + intros [= <-]. by rewrite andb_false_r.
Qed.

Lemma run_lookup c ss r r' :
  run ss r = Some r' →
  r' !! c = if updates c ss then Some (cell c r') else r !! c.
Proof.
  revert r. induction ss as [|s ss IH]; intros r; simpl.
  - by intros [= <-].
  - destruct (exec s r) as [r1|] eqn:Hs; simpl; [|done]. intros Hrun.
    rewrite (IH _ Hrun). apply (exec_lookup c) in Hs.
    destruct (updates c ss); [by rewrite orb_true_r|].
    rewrite orb_false_r, Hs.
    destruct (_ && _); [|done].
    unfold cell. by rewrite (IH _ Hrun), Hs.
Qed.

Lemma exec_is_Some s r :
  is_Some (step_eff s (cell (step_col s) r)) → is_Some (exec s r).
Proof.
  induction s as [c f|p c|b s IH]; simpl.
  - intros [v ->]. by eexists.
  - destruct (p (cell c r)); [by eexists | by intros [? ?]].
  - destruct b; [apply IH | by eexists].
Qed.

Lemma run_is_Some ss r :
  (∀ c, is_Some (cell_after c ss (cell c r))) → is_Some (run ss r).
Proof.
  revert r. induction ss as [|s ss IH]; intros r Hall; simpl; [by eexists|].
  destruct (exec s r) as [r1|] eqn:Hs; simpl.
  - apply IH. intros c. specialize (Hall c). simpl in Hall.
    apply (exec_cell c) in Hs. destruct (String.eqb (step_col s) c).
    + rewrite Hs in Hall. exact Hall.
    + injection Hs as <-. exact Hall.
  - specialize (Hall (step_col s)). simpl in Hall.
    rewrite String.eqb_refl in Hall.
    destruct (exec_is_Some s r) as [? ?]; [|congruence].
    destruct (step_eff s _); [by eexists|]. by destruct Hall.
Qed.

(** A row is left as it is by a list of steps as soon as every cell is, and
    the cells that are written exist. *)
Lemma run_fixed ss r :
  (∀ c, cell_after c ss (cell c r) = Some (cell c r)) →
  (∀ c, updates c ss = true → is_Some (r !! c)) →
  run ss r = Some r.
Proof.
  intros Hcell Hkey.
  destruct (run_is_Some ss r) as [r' Hrun].
  { intros c. rewrite Hcell. by eexists. }
  rewrite Hrun. f_equal. apply map_eq. intros c.
  rewrite (run_lookup c _ _ _ Hrun).
  pose proof (run_cell c _ _ _ Hrun) as Hc. rewrite Hcell in Hc.
  injection Hc as Hc.
  destruct (updates c ss) eqn:Hu; [|done].
  destruct (Hkey c Hu) as [v Hv]. rewrite <- Hc. unfold cell. by rewrite Hv.
Qed.

(** *** The frame operations, row by row *)

Lemma omap_run_app ss1 ss2 (rs : list Row) :
  omap (run ss2) (omap (run ss1) rs) = omap (run (ss1 ++ ss2)) rs.
Proof.
  induction rs as [|r rs IH]; csimpl; [done|].
  rewrite run_app. destruct (run ss1 r) as [r1|]; csimpl; [|done].
  destruct (run ss2 r1); csimpl; by rewrite IH.
Qed.

Lemma assign_omap c f rs : Pd.assign c f rs = omap (run [set_cell c f]) rs.
Proof.
  unfold Pd.assign. induction rs as [|r rs IH]; [done|].
  rewrite fmap_cons, IH. done.
Qed.

Lemma keep_omap p c rs : Pd.keep p c rs = omap (run [Chk p c]) rs.
Proof.
  unfold Pd.keep. induction rs as [|r rs IH]; [done|].
  cbn [List.filter]. rewrite IH. cbn [omap list_omap run exec]. 
  destruct (p (cell c r)); done.
Qed.
Lemma when_omap (b : bool) s (F : list Row → list Row) rs :
  (∀ rs, F rs = omap (run [s]) rs) →
  (if b then F rs else rs) = omap (run [When b s]) rs.
Proof.
  intros HF. destruct b; [by rewrite HF|].
  induction rs as [|r rs IH]; [done|].
  change (omap (run [When false s]) (r :: rs))
    with (r :: omap (run [When false s]) rs).
  by rewrite <- IH.
Qed.

Lemma mapM_cons {A B} (f : A → option B) x l :
  mapM f (x :: l) = y ← f x; k ← mapM f l; Some (y :: k).
Proof. done. Qed.

Lemma mapM_run_app ss1 ss2 (rs : list Row) :
  (mapM (run ss1) rs ≫= mapM (run ss2)) = mapM (run (ss1 ++ ss2)) rs.
Proof.
  induction rs as [|r rs IH]; [done|].
  rewrite !mapM_cons, <- IH, run_app.
  destruct (run ss1 r) as [r1|]; [|done].
  destruct (mapM (run ss1) rs) as [rs1|]; cbn.
  - by destruct (run ss2 r1).
  - by destruct (run ss2 r1).
Qed.

Lemma assign_cast_mapM c f rs :
  Pd.assign_cast c f rs = mapM (run [Upd c f]) rs.
Proof.
  unfold Pd.assign_cast. apply mapM_ext. intros r. simpl.
  destruct (f (cell c r)); done.
Qed.

Lemma when_mapM (b : bool) s (F : list Row → option (list Row)) rs :
  (∀ rs, F rs = mapM (run [s]) rs) →
  (if b then F rs else Some rs) = mapM (run [When b s]) rs.
Proof.
  intros HF. destruct b; [by rewrite HF|].
  induction rs as [|r rs IH]; [done|].
  change (mapM (run [When false s]) (r :: rs))
    with (rs' ← mapM (run [When false s]) rs; Some (r :: rs')).
  by rewrite <- IH.
Qed.

Lemma omap_run_ext ss1 ss2 (rs : list Row) :
  (∀ r, run ss1 r = run ss2 r) → omap (run ss1) rs = omap (run ss2) rs.
Proof.
  intros Hext. induction rs as [|r rs IH]; [done|].
  cbn [omap list_omap]. rewrite Hext.
  destruct (run ss2 r); [f_equal|]; exact IH.
Qed.

Lemma mapM_run_ext ss1 ss2 (rs : list Row) :
  (∀ r, run ss1 r = run ss2 r) → mapM (run ss1) rs = mapM (run ss2) rs.
Proof. intros Hext. by apply mapM_ext. Qed.

Lemma omap_run_nil (rs : list Row) : omap (run []) rs = rs.
Proof. induction rs as [|r rs IH]; [done|]. cbn. by f_equal. Qed.

Lemma mapM_run_nil (rs : list Row) : mapM (run []) rs = Some rs.
Proof. induction rs as [|r rs IH]; [done|]. rewrite mapM_cons, IH. done. Qed.

Section NormalForm.
Context `{Parsers}.

(** [filter_rows] applies [filter_steps] to each row and keeps the rows
    that pass. *)
Lemma filter_rows_omap cols rs :
  Transform.filter_rows cols rs = omap (run (filter_steps cols)) rs.
Proof.
  unfold Transform.filter_rows, Transform.strip_text, filter_steps.
  cbn [foldl Transform.text_cols].
  rewrite <- (omap_run_nil rs) at 1.
  destruct (has_column "payment_method" cols),
    (has_column "truck_name" cols), (has_column "truck_description" cols),
    (has_column "has_card_reader" cols), (has_column "fsa_rating" cols);
    rewrite ?assign_omap, ?keep_omap, ?omap_run_app.
  all: apply omap_run_ext; intros r; reflexivity.
Qed.

Lemma cast_int_cols_mapM cs cols rs :
  Transform.cast_int_cols cs cols rs =
  mapM (run ((λ c, When (has_column c cols)
                     (Upd c (Pd.astype_Int64 ∘ Pd.to_numeric))) <$> cs)) rs.
Proof.
  revert rs. induction cs as [|c cs IH]; intros rs.
  - by rewrite mapM_run_nil.
  - cbn [Transform.cast_int_cols fmap list_fmap].
    rewrite (when_mapM _ (Upd c (Pd.astype_Int64 ∘ Pd.to_numeric))
               (Pd.assign_cast c _)) by apply assign_cast_mapM.
    change (?s :: ?ss) with (app [s] ss) at 2.
    rewrite <- mapM_run_app.
    destruct (mapM _ rs) as [rs1|]; [apply IH | done].
Qed.

(** [cast_columns] applies [cast_steps] to each row and raises when any row
    does. *)
Lemma cast_columns_mapM cols rs :
  Transform.cast_columns cols rs = mapM (run (cast_steps cols)) rs.
Proof.
  unfold Transform.cast_columns, cast_steps.
  rewrite cast_int_cols_mapM, <- mapM_run_app.
  destruct (mapM _ rs) as [rs1|]; [|done]. cbn [mbind option_bind].
  rewrite assign_cast_mapM.
  change [?s; ?s'] with (app [s] [s']). rewrite <- mapM_run_app.
  destruct (mapM _ rs1) as [rs2|]; [|done]. cbn [mbind option_bind].
  apply (when_mapM _ _ (Pd.assign_cast _ _)), assign_cast_mapM.
Qed.
End NormalForm.

End RowStepsFacts.

Module TransformFacts.
Import RowSteps RowStepsFacts Transform.

Lemma drop_dups_from_subseteq seen c (rs : list Row) :
  Pd.drop_dups_from seen c rs ⊆ rs.
Proof.
  revert seen. induction rs as [|r rs IH]; intros seen; simpl; [done|].
  destruct (existsb _ seen); intros x Hx.
  - right. by apply (IH seen).
  - apply elem_of_cons in Hx as [->|Hx]; [by left|].
    right. by apply (IH (cell c r :: seen)).
Qed.

Section Clean.
Context `{Parsers}.

Lemma remove_duplicates_subseteq cols (rs : list Row) :
  remove_duplicates cols rs ⊆ rs.
Proof.
  unfold remove_duplicates. destruct (has_column _ _); [|done].
  apply drop_dups_from_subseteq.
Qed.

Lemma clean_transactions_Some df out :
  clean_transactions df = Some out ↔
  has_column "total" (columns df) = true ∧
  has_column "at" (columns df) = true ∧
  columns out = reorder (columns df) ∧
  cast_columns (columns df)
    (remove_duplicates (columns df) (filter_rows (columns df) (rows df)))
  = Some (rows out).
Proof.
  unfold clean_transactions.
  destruct (has_column "total" _), (has_column "at" _); simpl;
    try (split; [done | by intros (? & ? & _)]).
  destruct (cast_columns _ _) as [rs|]; simpl.
  - split.
    + intros [= <-]. done.
    + intros (_ & _ & Hc & [= ->]). destruct out; simpl in *. by subst.
  - split; [done | by intros (_ & _ & _ & ?)].
Qed.

(** Every cleaned row comes from a raw row through the row steps. *)
Lemma clean_transactions_row df out r :
  clean_transactions df = Some out → r ∈ rows out →
  ∃ r0, r0 ∈ rows df ∧
        run (filter_steps (columns df) ++ cast_steps (columns df)) r0 = Some r.
Proof.
  intros (_ & _ & _ & Hcast)%clean_transactions_Some Hr.
  rewrite cast_columns_mapM in Hcast. apply mapM_Some_1 in Hcast.
  apply list_elem_of_lookup_1 in Hr as [i Hi].
  destruct (Forall2_lookup_r _ _ _ _ _ Hcast Hi) as (r1 & Hr1 & Hrun).
  apply list_elem_of_lookup_2 in Hr1.
  apply remove_duplicates_subseteq in Hr1.
  rewrite filter_rows_omap in Hr1. apply list_elem_of_omap in Hr1.
  destruct Hr1 as (r0 & Hr0 & Hf). exists r0. split; [done|].
  by rewrite run_app, Hf.
Qed.

Lemma gt0_Num q : Pd.gt0 (Num q) = true → (0 < q)%Q.
Proof.
  unfold Pd.gt0. simpl. intros Hq. apply negb_true_iff in Hq.
  apply Qnot_le_lt. intros Hle. apply Qle_bool_iff in Hle. congruence.
Qed.

Lemma strip_astype_text v : is_text (Pd.str_strip (Pd.astype_string v)).
Proof. destruct v; simpl; unfold is_text; eauto. Qed.

Lemma to_numeric_void_text v :
  is_text v →
  Pd.to_numeric (void_to_na v) = NA ∨ ∃ q, Pd.to_numeric (void_to_na v) = Num q.
Proof.
  intros [->|[s ->]]; simpl; [by left|].
  case_bool_decide; simpl; [by left|].
  destruct (to_numeric_str s); eauto.
Qed.

Lemma total_after cols v v' :
  cell_after "total" (filter_steps cols ++ cast_steps cols) v = Some v' →
  ∃ q, v' = Num q ∧ (0 < q)%Q.
Proof.
  cbn.
  destruct (to_numeric_void_text _ (strip_astype_text v)) as [->|[q ->]];
    simpl; [done|].
  destruct (Pd.gt0 (Num q)) eqn:Hq; simpl; [|done].
  intros [= <-]. eauto using gt0_Num.
Qed.

Lemma at_after cols v v' :
  cell_after "at" (filter_steps cols ++ cast_steps cols) v = Some v' →
  ∃ t, v' = Time t.
Proof.
  cbn.
  assert (Pd.to_datetime v = NA ∨ ∃ t, Pd.to_datetime v = Time t) as Hv.
  { destruct v; simpl; eauto.
    - destruct (to_datetime_str s); eauto.
    - destruct (to_datetime_num q); eauto. }
  destruct Hv as [->|[t ->]]; simpl; [done|]. intros [= <-]. eauto.
Qed.

Lemma payment_method_after cols v v' :
  has_column "payment_method" cols = true →
  cell_after "payment_method" (filter_steps cols ++ cast_steps cols) v = Some v' →
  v' = Str "cash" ∨ v' = Str "card".
Proof.
  intros Hpm. cbn. rewrite Hpm. cbn.
  destruct (Pd.str_lower _) as [|s| | |] eqn:Hv; simpl; try done.
  case_bool_decide as Hs; simpl; [|done]. intros [= <-].
  rewrite !elem_of_cons in Hs.
  destruct Hs as [-> | [-> | Hs]]; [by left | by right |].
  by apply elem_of_nil in Hs.
Qed.

(** Claim C1. Every row that survives [clean_transactions] has a numeric
    [total] strictly greater than 0, a parsed timestamp in [at], and, the
    frame having a [payment_method] column, the lowercase label [cash] or
    [card] there. *)
Theorem clean_transactions_valid_rows df out r :
  clean_transactions df = Some out →
  "payment_method" ∈ columns df →
  r ∈ rows out →
  (∃ q, r !! "total" = Some (Num q) ∧ (0 < q)%Q) ∧
  (∃ t, r !! "at" = Some (Time t)) ∧
  (r !! "payment_method" = Some (Str "cash") ∨
   r !! "payment_method" = Some (Str "card")).
Proof.
  intros Hclean Hpm Hr.
  destruct (clean_transactions_row _ _ _ Hclean Hr) as (r0 & _ & Hrun).
  assert (has_column "payment_method" (columns df) = true) as Hpm'
    by by apply bool_decide_eq_true.
  split_and!.
  - rewrite (run_lookup "total" _ _ _ Hrun). cbn.
    destruct (total_after _ _ _ (run_cell "total" _ _ _ Hrun)) as (q & -> & ?).
    eauto.
  - rewrite (run_lookup "at" _ _ _ Hrun). cbn.
    destruct (at_after _ _ _ (run_cell "at" _ _ _ Hrun)) as (t & ->). eauto.
  - rewrite (run_lookup "payment_method" _ _ _ Hrun). cbn. rewrite Hpm'. cbn.
    destruct (payment_method_after _ _ _ Hpm' (run_cell "payment_method" _ _ _ Hrun))
      as [-> | ->]; eauto.
Qed.

(** *** Duplicates *)

End Clean.

Lemma Qeq_bool_Qred q q' : Qeq_bool q q' = true ↔ Qred q = Qred q'.
Proof. rewrite Qeq_bool_iff. symmetry. apply Qred_eq_iff. Qed.

Lemma dup_eqb_key a b : Pd.dup_eqb a b = true ↔ dup_key a = dup_key b.
Proof.
  destruct a as [|s|q|[]|t], b as [|s'|q'|[]|t']; simpl;
    rewrite ?bool_decide_eq_true, ?Qeq_bool_Qred;
    split; intros Heq; try done; try congruence.
  all: try (injection Heq as Heq; by rewrite Heq).
Qed.

Lemma existsb_dup_key (k : Cell) (f : Cell → bool) seen :
  (∀ s, f s = true ↔ dup_key s = dup_key k) →
  existsb f seen = true ↔ ∃ s, In s seen ∧ dup_key s = dup_key k.
Proof.
  intros Hf. rewrite existsb_exists. by setoid_rewrite Hf.
Qed.



Section Dedup.
Context `{Parsers}.



End Dedup.
End TransformFacts.

Module IdempotenceFacts.
Import RowSteps RowStepsFacts Transform TransformFacts PyFacts.

(** *** Columns *)

Lemma filter_all_false {A} (p : A → bool) l :
  (∀ x, In x l → p x = false) → List.filter p l = [].
Proof.
  induction l as [|x l IH]; [done|]. intros Hall. simpl.
  rewrite (Hall x) by by left. apply IH. intros y Hy. apply Hall. by right.
Qed.

Lemma filter_all_true {A} (p : A → bool) l :
  (∀ x, In x l → p x = true) → List.filter p l = l.
Proof.
  induction l as [|x l IH]; [done|]. intros Hall. simpl.
  rewrite (Hall x) by by left. f_equal. apply IH. intros y Hy. apply Hall. by right.
Qed.

Lemma has_column_reorder c cols :
  has_column c (reorder cols) = has_column c cols.
Proof.
  unfold has_column. apply bool_decide_ext. unfold reorder.
  rewrite elem_of_app, !list_elem_of_In, !filter_In, <- !list_elem_of_In.
  rewrite negb_true_iff. unfold has_column.
  rewrite bool_decide_eq_true, bool_decide_eq_false.
  destruct (decide (c ∈ preferred_order)); tauto.
Qed.

Lemma reorder_idem cols : reorder (reorder cols) = reorder cols.
Proof.
  unfold reorder at 1. unfold reorder at 3. f_equal.
  - apply List.filter_ext. intros c. apply has_column_reorder.
  - unfold reorder. rewrite List.filter_app.
    rewrite filter_all_false, filter_all_true; [done| |].
    + intros c [_ Hc]%filter_In. done.
    + intros c [Hc _]%filter_In. apply negb_false_iff.
      apply bool_decide_eq_true. by apply list_elem_of_In.
Qed.

(** *** Duplicates *)

Lemma drop_dups_from_distinct seen c (rs : list Row) :
  (∀ i j ri rj, (i < j)%nat → rs !! i = Some ri → rs !! j = Some rj →
     Pd.dup_eqb (cell c rj) (cell c ri) = false) →
  (∀ r s, r ∈ rs → In s seen → Pd.dup_eqb (cell c r) s = false) →
  Pd.drop_dups_from seen c rs = rs.
Proof.
  revert seen. induction rs as [|r rs IH]; intros seen Hpair Hseen; [done|].
  cbn [Pd.drop_dups_from].
  replace (existsb (Pd.dup_eqb (cell c r)) seen) with false.
  - f_equal. apply IH.
    + intros i j ri rj Hij Hi Hj. by apply (Hpair (S i) (S j)); [lia|..].
    + intros r' s Hr' [<-|Hs].
      * apply list_elem_of_lookup_1 in Hr' as [j Hj].
        by apply (Hpair 0%nat (S j)); [lia|..].
      * apply Hseen; [by right | done].
  - symmetry. apply not_true_iff_false. intros (s & Hs & Heq)%existsb_exists.
    rewrite Hseen in Heq; [done | by left | done].
Qed.

Lemma drop_duplicates_distinct (rs : list Row) :
  distinct_ids rs → Pd.drop_duplicates "transaction_id" rs = rs.
Proof.
  intros Hd. apply drop_dups_from_distinct; [|by intros ? ? ? []].
  intros i j ri rj Hij Hi Hj. exact (Hd i j ri rj Hij Hi Hj).
Qed.

(** *** Cells that the rules leave alone *)

Lemma cell_after_untouched c ss v :
  Forall (λ s, step_col s ≠ c) ss → cell_after c ss v = Some v.
Proof.
  induction 1 as [|s ss Hs _ IH]; [done|]. simpl.
  by destruct (String.eqb_spec (step_col s) c).
Qed.

Lemma updates_untouched c ss :
  Forall (λ s, step_col s ≠ c) ss → updates c ss = false.
Proof.
  induction 1 as [|s ss Hs _ IH]; [done|]. simpl.
  by destruct (String.eqb_spec (step_col s) c).
Qed.

Lemma updates_app c ss1 ss2 :
  updates c (ss1 ++ ss2) = updates c ss1 || updates c ss2.
Proof.
  induction ss1 as [|s ss1 IH]; [done|]. simpl. by rewrite IH, orb_assoc.
Qed.

(** Steps that fix every cell of the result of other steps fix the result. *)
Lemma run_again ss1 ss r0 r :
  run ss r0 = Some r →
  (∀ c, updates c ss1 = true → updates c ss = true) →
  (∀ c, cell_after c ss1 (cell c r) = Some (cell c r)) →
  run ss1 r = Some r.
Proof.
  intros Hrun Hupd Hcell. apply run_fixed; [done|].
  intros c Hc. rewrite (run_lookup c _ _ _ Hrun), (Hupd c Hc). by eexists.
Qed.

Lemma omap_fixed {A} (f : A → option A) (l : list A) :
  (∀ x, x ∈ l → f x = Some x) → omap f l = l.
Proof.
  induction l as [|x l IH]; [done|]. intros Hf. cbn [omap list_omap].
  rewrite (Hf x) by by left. f_equal. apply IH. intros y Hy. apply Hf. by right.
Qed.

Lemma mapM_fixed {A} (f : A → option A) (l : list A) :
  (∀ x, x ∈ l → f x = Some x) → mapM f l = Some l.
Proof.
  induction l as [|x l IH]; [done|]. intros Hf.
  rewrite mapM_cons, (Hf x), IH; [done| |by left].
  intros y Hy. apply Hf. by right.
Qed.

Section Stable.
Context `{Parsers}.

Lemma filter_steps_reorder cols :
  filter_steps (reorder cols) = filter_steps cols.
Proof. unfold filter_steps. by rewrite !has_column_reorder. Qed.

Lemma cast_steps_reorder cols : cast_steps (reorder cols) = cast_steps cols.
Proof.
  unfold cast_steps. cbn [fmap list_fmap int_cols].
  by rewrite !has_column_reorder.
Qed.

Lemma Qred_Qred q : Qred (Qred q) = Qred q.
Proof. apply Qred_complete, Qred_correct. Qed.

Lemma to_numeric_idem v : Pd.to_numeric (Pd.to_numeric v) = Pd.to_numeric v.
Proof. destruct v; simpl; try done. by destruct (to_numeric_str s). Qed.

Lemma astype_Int64_stable v v' :
  Pd.astype_Int64 (Pd.to_numeric v) = Some v' →
  Pd.astype_Int64 (Pd.to_numeric v') = Some v'.
Proof.
  unfold Pd.astype_Int64.
  destruct (Pd.to_numeric v) as [| |q|b|] eqn:Hv; try done; simpl.
  - by intros [= <-].
  - case_bool_decide as Hq; [|done]. intros [= <-]. simpl.
    rewrite Qred_Qred. by rewrite bool_decide_true.
  - case_bool_decide as Hq; [|done]. intros [= <-]. simpl.
    rewrite Qred_Qred. by rewrite bool_decide_true.
Qed.

Lemma astype_Int64_value v v' :
  Pd.astype_Int64 v = Some v' →
  v' = NA ∨ ∃ q, Pd.num_value v = Some q ∧ v' = Num (Qred q).
Proof.
  unfold Pd.astype_Int64. destruct v as [| |q|b|]; try done; simpl.
  - intros [= <-]. by left.
  - case_bool_decide; [|done]. intros [= <-]. eauto.
  - case_bool_decide; [|done]. intros [= <-]. eauto.
Qed.

Lemma Qle_bool_Qred_r a q : Qle_bool a (Qred q) = Qle_bool a q.
Proof.
  apply eq_true_iff_eq. rewrite !Qle_bool_iff. by rewrite Qred_correct.
Qed.

Lemma Qle_bool_Qred_l a q : Qle_bool (Qred q) a = Qle_bool q a.
Proof.
  apply eq_true_iff_eq. rewrite !Qle_bool_iff. by rewrite Qred_correct.
Qed.

Lemma Qeq_bool_Qred_l a q : Qeq_bool (Qred q) a = Qeq_bool q a.
Proof.
  apply eq_true_iff_eq. rewrite !Qeq_bool_iff. by rewrite Qred_correct.
Qed.

Lemma strip_astype_idem v :
  Pd.str_strip (Pd.astype_string (Pd.str_strip (Pd.astype_string v))) =
  Pd.str_strip (Pd.astype_string v).
Proof. destruct v; simpl; by rewrite ?strip_idem. Qed.

Lemma stable_text cols c v v' :
  c = "truck_name" ∨ c = "truck_description" →
  cell_after c (filter_steps cols ++ cast_steps cols) v = Some v' →
  cell_after c (filter_steps cols) v' = Some v' ∧
  cell_after c (cast_steps cols) v' = Some v'.
Proof.
  intros [-> | ->]; cbn; destruct (has_column _ cols); cbn;
    intros [= <-]; by rewrite ?strip_astype_idem.
Qed.

Lemma stable_payment_method cols v v' :
  cell_after "payment_method" (filter_steps cols ++ cast_steps cols) v = Some v' →
  cell_after "payment_method" (filter_steps cols) v' = Some v' ∧
  cell_after "payment_method" (cast_steps cols) v' = Some v'.
Proof.
  destruct (has_column "payment_method" cols) eqn:Hpm.
  - intros Hc. destruct (payment_method_after _ _ _ Hpm Hc) as [-> | ->];
      cbn; rewrite Hpm; by vm_compute.
  - cbn. rewrite Hpm. cbn. by intros [= <-].
Qed.

Lemma stable_total cols v v' :
  cell_after "total" (filter_steps cols ++ cast_steps cols) v = Some v' →
  (∀ q, v' = Num q → reads_back q) →
  cell_after "total" (filter_steps cols) v' = Some v' ∧
  cell_after "total" (cast_steps cols) v' = Some v'.
Proof.
  intros (q & -> & Hq)%total_after Hback.
  destruct (Hback q eq_refl) as [Hvoid Hparse]. cbn.
  case_bool_decide; [done|]. cbn. rewrite Hparse. cbn.
  replace (Qle_bool q 0) with false; [done|].
  symmetry. apply not_true_iff_false.
  rewrite Qle_bool_iff. by apply Qlt_not_le.
Qed.

Lemma stable_at cols v v' :
  cell_after "at" (filter_steps cols ++ cast_steps cols) v = Some v' →
  cell_after "at" (filter_steps cols) v' = Some v' ∧
  cell_after "at" (cast_steps cols) v' = Some v'.
Proof. by intros (t & ->)%at_after. Qed.

Lemma stable_id cols c v v' :
  c = "truck_id" ∨ c = "payment_method_id" ∨ c = "transaction_id" →
  cell_after c (filter_steps cols ++ cast_steps cols) v = Some v' →
  cell_after c (filter_steps cols) v' = Some v' ∧
  cell_after c (cast_steps cols) v' = Some v'.
Proof.
  intros [-> | [-> | ->]]; cbn; destruct (has_column _ cols); cbn;
    try by intros [= <-].
  all: destruct (Pd.astype_Int64 (Pd.to_numeric v)) as [v1|] eqn:Hv; [|done];
    cbn; intros [= <-]; by rewrite (astype_Int64_stable _ _ Hv).
Qed.

Lemma stable_fsa_rating cols v v' :
  cell_after "fsa_rating" (filter_steps cols ++ cast_steps cols) v = Some v' →
  cell_after "fsa_rating" (filter_steps cols) v' = Some v' ∧
  cell_after "fsa_rating" (cast_steps cols) v' = Some v'.
Proof.
  cbn. destruct (has_column "fsa_rating" cols); cbn; [|by intros [= <-]].
  destruct (Pd.between 0 5 (Pd.to_numeric v)) eqn:Hb; cbn; [|done].
  rewrite to_numeric_idem.
  destruct (Pd.astype_Int64 (Pd.to_numeric v)) as [v1|] eqn:Hv; [|done].
  cbn. intros [= <-].
  rewrite (astype_Int64_stable _ _ Hv). split; [|done].
  destruct (astype_Int64_value _ _ Hv) as [-> | (q & Hq & ->)].
  - unfold Pd.astype_Int64 in Hv. unfold Pd.between in Hb.
    destruct (Pd.to_numeric v); try done; simpl in *.
    all: by case_bool_decide.
  - simpl. unfold Pd.between in *. rewrite Hq in Hb. simpl.
    by rewrite Qle_bool_Qred_l, Qle_bool_Qred_r, Hb.
Qed.

Lemma stable_has_card_reader cols v v' :
  cell_after "has_card_reader" (filter_steps cols ++ cast_steps cols) v = Some v' →
  cell_after "has_card_reader" (filter_steps cols) v' = Some v' ∧
  cell_after "has_card_reader" (cast_steps cols) v' = Some v'.
Proof.
  cbn. destruct (has_column "has_card_reader" cols); cbn; [|by intros [= <-]].
  destruct (Pd.isin01 (Pd.to_numeric v)) eqn:Hb; cbn; [|done].
  rewrite to_numeric_idem.
  destruct (Pd.astype_Int64 (Pd.to_numeric v)) as [v1|] eqn:Hv; [|done].
  cbn. intros Hbool.
  assert (∃ b, v' = Bool b) as [b ->]; [|by destruct b; vm_compute].
  destruct (astype_Int64_value _ _ Hv) as [-> | (q & Hq & ->)].
  - unfold Pd.astype_Int64 in Hv. unfold Pd.isin01 in Hb.
    destruct (Pd.to_numeric v); try done; simpl in *.
    all: by case_bool_decide.
  - simpl in Hbool. destruct (Qeq_bool (Qred q) 0).
    + injection Hbool as <-. eauto.
    + destruct (Qeq_bool (Qred q) 1); [|done]. injection Hbool as <-. eauto.
Qed.

Lemma stable_cells cols c v v' :
  cell_after c (filter_steps cols ++ cast_steps cols) v = Some v' →
  (∀ q, c = "total" → v' = Num q → reads_back q) →
  cell_after c (filter_steps cols) v' = Some v' ∧
  cell_after c (cast_steps cols) v' = Some v'.
Proof.
  intros Hc Hback. destruct (decide (c ∈ cleaned_cols)) as [Hin|Hout].
  - unfold cleaned_cols in Hin. rewrite !elem_of_cons in Hin.
    destruct Hin as [->|[->|[->|[->|[->|[->|[->|[->|[->|[->|Hin]]]]]]]]]].
    + apply (stable_payment_method _ _ _ Hc).
    + apply (stable_text _ _ _ _ (or_introl eq_refl) Hc).
    + apply (stable_text _ _ _ _ (or_intror eq_refl) Hc).
    + apply (stable_total _ _ _ Hc). intros q. by apply Hback.
    + apply (stable_at _ _ _ Hc).
    + apply (stable_has_card_reader _ _ _ Hc).
    + apply (stable_fsa_rating _ _ _ Hc).
    + apply (stable_id _ _ _ _ (or_introl eq_refl) Hc).
    + apply (stable_id _ _ _ _ (or_intror (or_introl eq_refl)) Hc).
    + apply (stable_id _ _ _ _ (or_intror (or_intror eq_refl)) Hc).
    + by apply elem_of_nil in Hin.
  - unfold cleaned_cols in Hout. rewrite !not_elem_of_cons in Hout.
    destruct_and!.
    rewrite !cell_after_untouched by (repeat constructor; simpl; congruence).
    rewrite cell_after_untouched in Hc
      by (repeat constructor; simpl; congruence).
    done.
Qed.

(** Claim C3, amended. When the cleaned rows carry pairwise distinct
    transaction identifiers, and the totals that [astype("string")] prints
    are read back unchanged by [to_numeric], cleaning the cleaned frame
    returns it unchanged: same columns, same rows, same values, same
    order. *)
Theorem clean_transactions_idempotent df out :
  clean_transactions df = Some out →
  ("transaction_id" ∈ columns df → distinct_ids (rows out)) →
  (∀ r q, r ∈ rows out → r !! "total" = Some (Num q) → reads_back q) →
  clean_transactions out = Some out.
Proof.
  intros Hclean Hids Hback.
  assert (∀ r, r ∈ rows out →
            run (filter_steps (columns df)) r = Some r ∧
            run (cast_steps (columns df)) r = Some r) as Hrows.
  { intros r Hr.
    destruct (clean_transactions_row _ _ _ Hclean Hr) as (r0 & _ & Hrun).
    assert (∀ c, cell_after c (filter_steps (columns df)) (cell c r) = Some (cell c r) ∧
                 cell_after c (cast_steps (columns df)) (cell c r) = Some (cell c r))
      as Hcells.
    { intros c. apply (stable_cells _ _ _ _ (run_cell c _ _ _ Hrun)).
      intros q -> Hq. apply (Hback r q Hr).
      rewrite (run_lookup "total" _ _ _ Hrun). cbn. by rewrite Hq. }
    split; apply (run_again _ _ _ _ Hrun); try (intros c; apply Hcells).
    all: intros c Hc; rewrite updates_app, Hc; by rewrite ?orb_true_r. }
  apply clean_transactions_Some in Hclean as Hparts.
  destruct Hparts as (Htotal & Hat & Hcols & Hcast).
  apply clean_transactions_Some. rewrite Hcols, !has_column_reorder.
  split_and!; [done | done | by rewrite reorder_idem |].
  rewrite filter_rows_omap, cast_columns_mapM.
  rewrite filter_steps_reorder, cast_steps_reorder.
  rewrite omap_fixed by (intros r Hr; by apply Hrows).
  unfold remove_duplicates. rewrite has_column_reorder.
  destruct (has_column "transaction_id" (columns df)) eqn:Hid.
  - apply bool_decide_eq_true in Hid.
    rewrite drop_duplicates_distinct by by apply Hids.
    apply mapM_fixed. intros r Hr. by apply Hrows.
  - apply mapM_fixed. intros r Hr. by apply Hrows.
Qed.

End Stable.
End IdempotenceFacts.

Module TransformExamples.
Import Scalars Transform TransformFacts IdempotenceFacts.

Section Tests.
Context `{Parsers}.

Lemma distinct_idsb_sound rs : distinct_idsb rs = true → distinct_ids rs.
Proof.
  induction rs as [|r rs IH]; intros Hb i j ri rj Hij Hi Hj; [done|].
  cbn [distinct_idsb] in Hb. apply andb_true_iff in Hb as [Hr Hrs].
  destruct j as [|j]; [lia|]. cbn in Hj. destruct i as [|i].
  - injection Hi as <-. rewrite forallb_forall in Hr.
    apply negb_true_iff, Hr, list_elem_of_In, (list_elem_of_lookup_2 _ j), Hj.
  - cbn in Hi. apply (IH Hrs i j); [lia | done | done].
Qed.

Lemma totals_read_backb_sound rs :
  totals_read_backb rs = true →
  ∀ r q, r ∈ rs → r !! "total" = Some (Num q) → reads_back q.
Proof.
  unfold totals_read_backb. rewrite forallb_forall. intros Hb r q Hr Hq.
  specialize (Hb r (proj1 (list_elem_of_In _ _) Hr)). rewrite Hq in Hb.
  apply andb_true_iff in Hb as [Hvoid Hparse]. split.
  - apply negb_true_iff in Hvoid. by apply String.eqb_neq.
  - by apply bool_decide_eq_true in Hparse.
Qed.
End Tests.

Lemma cleaned_raw_day :
  clean_transactions Samples.raw_day = Some (cleaned Samples.raw_day).
Proof. vm_compute. reflexivity. Qed.

Lemma clean_transactions_valid_rows_witness :
  clean_transactions Samples.raw_day = Some (cleaned Samples.raw_day) ∧
  "payment_method" ∈ columns Samples.raw_day ∧
  Samples.first_cleaned ∈ rows (cleaned Samples.raw_day) ∧
  (∃ q, Samples.first_cleaned !! "total" = Some (Num q) ∧ (0 < q)%Q) ∧
  (∃ t, Samples.first_cleaned !! "at" = Some (Time t)) ∧
  (Samples.first_cleaned !! "payment_method" = Some (Str "cash") ∨
   Samples.first_cleaned !! "payment_method" = Some (Str "card")).
Proof.
  assert ("payment_method" ∈ columns Samples.raw_day) as Hpm
    by (apply (bool_decide_eq_true_1 _ (Decision0 := _)); vm_compute; reflexivity).
  assert (Samples.first_cleaned ∈ rows (cleaned Samples.raw_day)) as Hr.
  { apply (list_elem_of_lookup_2 _ 0%nat). vm_compute. reflexivity. }
  split_and!; [exact cleaned_raw_day | exact Hpm | exact Hr |
    apply (clean_transactions_valid_rows _ _ _ cleaned_raw_day Hpm Hr)..].
Defined.



Lemma clean_transactions_idempotent_witness :
  clean_transactions Samples.raw_day = Some (cleaned Samples.raw_day) ∧
  ("transaction_id" ∈ columns Samples.raw_day →
   distinct_ids (rows (cleaned Samples.raw_day))) ∧
  (∀ r q, r ∈ rows (cleaned Samples.raw_day) →
          r !! "total" = Some (Num q) → reads_back q) ∧
  clean_transactions (cleaned Samples.raw_day) = Some (cleaned Samples.raw_day).
Proof.
  assert (distinct_ids (rows (cleaned Samples.raw_day))) as Hids.
  { apply distinct_idsb_sound. vm_compute. reflexivity. }
  assert (∀ r q, r ∈ rows (cleaned Samples.raw_day) →
                 r !! "total" = Some (Num q) → reads_back q) as Hback.
  { apply totals_read_backb_sound. vm_compute. reflexivity. }
  split_and!; [exact cleaned_raw_day | exact (λ _, Hids) | exact Hback |].
  exact (clean_transactions_idempotent _ _ cleaned_raw_day (λ _, Hids) Hback).
Defined.

(** Claim C3 as stated fails: two valid rows whose identifiers are text
    that is not a number both survive the first cleaning with a missing
    identifier, and the second cleaning removes one as a duplicate. *)
Lemma text_ids_not_idempotent : ¬ idempotent_on Samples.text_ids.
Proof.
  intros Hclaim.
  assert (clean_transactions Samples.text_ids
          = Some (cleaned Samples.text_ids)) as Hout
    by (vm_compute; reflexivity).
  specialize (Hclaim _ Hout).
  apply (f_equal (fmap (M := option) (length ∘ rows))) in Hclaim.
  vm_compute in Hclaim. discriminate Hclaim.
Qed.

End TransformExamples.

Module LoadFacts.
Import Load RowStepsFacts IdempotenceFacts.

(** *** Groups *)

Lemma first_seen_spec {K} `{EqDecision K} (seen ks : list K) :
  NoDup (Pd.first_seen seen ks) ∧
  ∀ k, k ∈ Pd.first_seen seen ks ↔ k ∈ ks ∧ k ∉ seen.
Proof.
  revert seen. induction ks as [|k ks IH]; intros seen; simpl.
  - split; [constructor|]. intros k. rewrite elem_of_nil. tauto.
  - case_bool_decide as Hk.
    + destruct (IH seen) as [Hnd Hin]. split; [done|]. intros x.
      rewrite Hin, elem_of_cons. split; [tauto|].
      intros [[-> | Hx] Hs]; [done | tauto].
    + destruct (IH (k :: seen)) as [Hnd Hin]. split.
      * constructor; [|done]. rewrite Hin, elem_of_cons. tauto.
      * intros x. rewrite !elem_of_cons, Hin, elem_of_cons.
        destruct (decide (x = k)) as [-> | Hne]; tauto.
Qed.

Lemma elem_of_groupby {K A} `{EqDecision K} (key : A → K) (rs : list A) g :
  g ∈ Pd.groupby key rs →
  g.1 ∈ key <$> rs ∧ g.2 = List.filter (λ r, bool_decide (key r = g.1)) rs.
Proof.
  unfold Pd.groupby. intros (k & -> & Hk)%list_elem_of_fmap. simpl.
  apply first_seen_spec in Hk. tauto.
Qed.

Lemma groupby_elem_of {K A} `{EqDecision K} (key : A → K) (rs : list A) r :
  r ∈ rs →
  (key r, List.filter (λ r', bool_decide (key r' = key r)) rs)
    ∈ Pd.groupby key rs.
Proof.
  intros Hr. unfold Pd.groupby. apply list_elem_of_fmap. exists (key r).
  split; [done|]. apply first_seen_spec. split; [|apply not_elem_of_nil].
  apply list_elem_of_fmap. eauto.
Qed.

(** *** Writes *)

Section Writes.
Context {G : Type} (P : G → Path) (F : G → DataFrame).

Lemma write_all_lookup (gs : list G) (fs : Files) (p : Path) :
  (∀ g g', g ∈ gs → g' ∈ gs → P g = P g' → F g = F g') →
  foldl (λ fs g, <[P g := F g]> fs) fs gs !! p =
  match List.find (λ g, bool_decide (P g = p)) gs with
  | Some g => Some (F g)
  | None => fs !! p
  end.
Proof.
  revert fs. induction gs as [|g gs IH]; intros fs Hsame; [done|].
  cbn [foldl List.find]. rewrite IH.
  2:{ intros g1 g2 H1 H2. apply Hsame; by right. }
  case_bool_decide as Hg.
  - destruct (List.find _ gs) as [g'|] eqn:Hfind.
    + apply find_some in Hfind as [Hin Hp%bool_decide_eq_true].
      f_equal. symmetry. apply Hsame; [by left | |congruence].
      right. by apply list_elem_of_In.
    + subst p. by rewrite lookup_insert_eq.
  - destruct (List.find _ gs); [done|]. by rewrite lookup_insert_ne.
Qed.
End Writes.

Lemma foldl_ext_pairs {A B C} (f g : A → B * C → A) a l :
  (∀ a x, f a x = g a x) → foldl f a l = foldl g a l.
Proof.
  intros Hfg. revert a. induction l as [|x l IH]; intros a; [done|].
  simpl. by rewrite Hfg, IH.
Qed.

Lemma mapM_bind_fuse {A B C} (f : A → option B) (g : B → option C) l :
  (mapM f l ≫= mapM g) = mapM (λ x, f x ≫= g) l.
Proof.
  induction l as [|x l IH]; [done|].
  rewrite !mapM_cons, <- IH.
  destruct (f x) as [y|]; [|done].
  destruct (mapM f l) as [ys|]; cbn [mbind option_bind].
  - by rewrite mapM_cons.
  - by destruct (g y).
Qed.

(** *** Rows *)

Section Rows.
Context `{Parsers}.

Lemma out_dir_key_of root t : out_dir root (key_of t) = (root ++ partition_of t)%list.
Proof. reflexivity. Qed.

Lemma key_of_inj t t' : partition_of t = partition_of t' → key_of t = key_of t'.
Proof.
  unfold partition_of, key_of. intros [= H1 H2 H3 H4].
  change (EmptyString +:+ ?x) with x in *. by rewrite H1, H2, H3, H4.
Qed.

Lemma path_eq root dir dir' (file : string) :
  ((root ++ dir) ++ [file] = root ++ dir' ++ [file])%list ↔ dir = dir'.
Proof.
  rewrite <- app_assoc. split; [|by intros ->].
  intros Heq%app_inv_head. by apply app_inv_tail in Heq.
Qed.

Lemma step_Some c col f r t :
  cell col r = Time t → step c col f r = Some (<[c := Str (f t)]> r).
Proof. unfold step. by intros ->. Qed.

Lemma step_clobbered c c' g s (r : Row) :
  step c' c g (<[c := Str s]> r) = None.
Proof. unfold step. by rewrite cell_insert_eq. Qed.

Lemma stamp_spec col r t r' :
  cell col r = Time t → stamp col r = Some r' →
  part_key r' = key_of t ∧ drop_parts r' = drop_parts r.
Proof.
  intros Ht. unfold stamp.
  rewrite (step_Some _ _ _ _ _ Ht). cbn [mbind option_bind].
  destruct (decide (col = "year")) as [->|Hy].
  { by rewrite step_clobbered. }
  rewrite (step_Some _ _ _ _ t) by by rewrite cell_insert_ne.
  cbn [mbind option_bind].
  destruct (decide (col = "month")) as [->|Hm].
  { by rewrite step_clobbered. }
  rewrite (step_Some _ _ _ _ t) by by rewrite !cell_insert_ne.
  cbn [mbind option_bind].
  destruct (decide (col = "day")) as [->|Hd].
  { by rewrite step_clobbered. }
  rewrite (step_Some _ _ _ _ t) by by rewrite !cell_insert_ne.
  intros [= <-]. split.
  - unfold part_key, key_of. cbn [fmap list_fmap part_cols].
    by rewrite cell_insert_eq, !(cell_insert_ne _ "hour"), cell_insert_eq,
      !(cell_insert_ne _ "day"), cell_insert_eq,
      !(cell_insert_ne _ "month"), cell_insert_eq.
  - apply map_eq. intros c. unfold drop_parts.
    rewrite !lookup_delete, !lookup_insert.
    by repeat case_decide.
Qed.

Lemma valid_rows col (rs : list Row) :
  Pd.keep Pd.notna col (Pd.assign col Pd.to_datetime rs) =
  omap (λ r, t ← event_time col r; Some (<[col := Time t]> r)) rs.
Proof.
  unfold Pd.keep, Pd.assign, event_time.
  induction rs as [|r rs IH]; [done|].
  rewrite fmap_cons. cbn [List.filter omap list_omap].
  rewrite cell_insert_eq, IH.
  assert (Pd.to_datetime (cell col r) = NA ∨
          ∃ t, Pd.to_datetime (cell col r) = Time t) as [-> | [t ->]]; [|done..].
  destruct (cell col r) as [|s|q| |]; simpl; eauto.
  - destruct (to_datetime_str s); eauto.
  - destruct (to_datetime_num q); eauto.
Qed.

Lemma written_rows col root dir file (rs rs' : list Row) :
  mapM (stamp col)
    (omap (λ r, t ← event_time col r; Some (<[col := Time t]> r)) rs)
  = Some rs' →
  Forall (λ r', ∃ t, part_key r' = key_of t) rs' ∧
  drop_parts <$>
    List.filter
      (λ r', bool_decide ((out_dir root (part_key r') ++ [file])%list
                          = (root ++ dir ++ [file])%list)) rs'
  = rows_of_partition col dir rs.
Proof.
  revert rs'. induction rs as [|r rs IH]; intros rs'.
  - intros [= <-]. split; [constructor | done].
  - unfold rows_of_partition. cbn [omap list_omap].
    destruct (event_time col r) as [t|]; cbn [mbind option_bind]; [|apply IH].
    rewrite mapM_cons.
    destruct (stamp col _) as [r1|] eqn:Hstamp; [|done].
    cbn [mbind option_bind].
    destruct (mapM _ _) as [rs1|]; [|done]. cbn [mbind option_bind].
    intros [= <-]. destruct (IH rs1 eq_refl) as [Hkeys Hrows].
    apply stamp_spec with (t := t) in Hstamp as [Hkey Hdrop];
      [|by rewrite cell_insert_eq].
    split; [constructor; eauto|].
    cbn [List.filter]. rewrite Hkey, out_dir_key_of.
    rewrite (bool_decide_ext _ _ (path_eq root (partition_of t) dir file)).
    case_bool_decide; [rewrite fmap_cons, Hdrop|]; by rewrite Hrows.
Qed.

(** Claim C4. A file is written for the partition [dir] exactly when some
    transaction's event timestamp truncates to [dir] (year, zero-padded
    month, day and hour), and it then holds exactly the transactions whose
    timestamps do, in frame order; the file of any other partition is left
    as it was. So every written transaction is in one partition, fixed by
    its event timestamp alone; the timestamp 2024-03-05T14:30:00 gives
    [year=2024/month=03/day=05/hour=14]. *)
Theorem partition_assignment (df : DataFrame) (root : Path)
    (col file : string) (fs fs' : Files) :
  write_time_partitioned_transactions df root col file fs = Some fs' →
  (∀ dir : Path,
     fs' !! (root ++ dir ++ [file])%list =
     match rows_of_partition col dir (rows df) with
     | [] => fs !! (root ++ dir ++ [file])%list
     | chunk => Some {| columns := written_cols (columns df); rows := chunk |}
     end) ∧
  partition_of (mkTimestamp 2024 3 5 14 30 0)
  = ["year=2024"; "month=03"; "day=05"; "hour=14"].
Proof.
  intros Hwrite. split; [|reflexivity]. intros dir.
  unfold write_time_partitioned_transactions in Hwrite.
  destruct (has_column col (columns df)); [|done]. cbn [negb] in Hwrite.
  rewrite valid_rows in Hwrite. unfold assign_part in Hwrite.
  change (mapM ?f ?l ≫= ?k) with (mapM (step "year" col (λ t, pretty (year t))) l ≫= k) in Hwrite.
  destruct (mapM (step "year" col _) _) as [rs1|] eqn:H1; [|done].
  cbn [mbind option_bind] in Hwrite.
  change (mapM ?f ?l ≫= ?k) with (mapM (step "month" col (λ t, fmt_02d (month t))) l ≫= k) in Hwrite.
  destruct (mapM (step "month" col _) _) as [rs2|] eqn:H2; [|done].
  cbn [mbind option_bind] in Hwrite.
  change (mapM ?f ?l ≫= ?k) with (mapM (step "day" col (λ t, fmt_02d (day t))) l ≫= k) in Hwrite.
  destruct (mapM (step "day" col _) _) as [rs3|] eqn:H3; [|done].
  cbn [mbind option_bind] in Hwrite.
  change (mapM ?f ?l ≫= ?k) with (mapM (step "hour" col (λ t, fmt_02d (hour t))) l ≫= k) in Hwrite.
  destruct (mapM (step "hour" col _) _) as [rs4|] eqn:H4; [|done].
  cbn [mbind option_bind] in Hwrite. injection Hwrite as <-.
  assert (mapM (stamp col)
            (omap (λ r, t ← event_time col r; Some (<[col := Time t]> r)) (rows df))
          = Some rs4) as Hstamp.
  { unfold stamp.
    rewrite <- (mapM_bind_fuse (step "year" col _)), H1. cbn [mbind option_bind].
    rewrite <- (mapM_bind_fuse (step "month" col _)), H2. cbn [mbind option_bind].
    rewrite <- (mapM_bind_fuse (step "day" col _)), H3. cbn [mbind option_bind].
    exact H4. }
  destruct (written_rows _ root dir file _ _ Hstamp) as [Hkeys Hrows].
  rewrite <- Hrows.
  set (P := λ g : list Cell * list Row, (out_dir root g.1 ++ [file])%list).
  set (F := λ g : list Cell * list Row,
              {| columns := written_cols (columns df); rows := drop_parts <$> g.2 |}).
  rewrite (foldl_ext_pairs _ (λ fs g, <[P g := F g]> fs)) by by intros ? [].
  rewrite write_all_lookup.
  2:{ intros g g' [Hg Hc]%elem_of_groupby [Hg' Hc']%elem_of_groupby.
      unfold P, F. intros Hp. rewrite Hc, Hc'.
      apply list_elem_of_fmap in Hg as (r & Hk & Hr).
      apply list_elem_of_fmap in Hg' as (r' & Hk' & Hr').
      rewrite Forall_forall in Hkeys.
      destruct (Hkeys r Hr) as [t Ht], (Hkeys r' Hr') as [t' Ht'].
      rewrite Hk, Hk', Ht, Ht', !out_dir_key_of in Hp.
      rewrite <- (app_assoc root (partition_of t')) in Hp. apply path_eq in Hp.
      by rewrite Hk, Hk', Ht, Ht', (key_of_inj _ _ Hp). }
  destruct (List.find _ _) as [g|] eqn:Hfind.
  - apply find_some in Hfind as [Hg Hp%bool_decide_eq_true].
    apply list_elem_of_In, elem_of_groupby in Hg as [Hg Hchunk].
    apply list_elem_of_fmap in Hg as (r & Hkey & Hr).
    assert (List.filter
              (λ r', bool_decide ((out_dir root (part_key r') ++ [file])%list
                                  = (root ++ dir ++ [file])%list)) rs4
            = g.2) as ->.
    { rewrite Hchunk. apply List.filter_ext_in. intros r' Hr'%list_elem_of_In.
      apply bool_decide_ext. unfold P in *. cbn [fst] in *. split.
      - rewrite <- Hp, Hkey. rewrite Forall_forall in Hkeys.
        destruct (Hkeys r Hr) as [t Ht], (Hkeys r' Hr') as [t' Ht'].
        rewrite Ht, Ht', !out_dir_key_of, <- (app_assoc root (partition_of t)).
        intros Heq%path_eq. by rewrite (key_of_inj _ _ Heq).
      - by intros ->. }
    assert (r ∈ g.2) as Hin.
    { rewrite Hchunk. apply list_elem_of_In, filter_In. split.
      - by apply list_elem_of_In.
      - by apply bool_decide_eq_true. }
    unfold F. destruct (g.2) as [|r0 chunk]; [|done].
    by apply elem_of_nil in Hin.
  - rewrite filter_all_false; [done|]. intros r Hr%list_elem_of_In.
    apply bool_decide_eq_false. intros Hp.
    eapply find_none in Hfind; [|apply list_elem_of_In, (groupby_elem_of _ _ _ Hr)].
    apply bool_decide_eq_false in Hfind. by apply Hfind.
Qed.

End Rows.
End LoadFacts.

Module LoadExamples.
Import Scalars Load LoadFacts.

Lemma written_lake :
  write_time_partitioned_transactions (Transform.cleaned Samples.raw_day)
    ["input"; "transaction"] default_timestamp_col default_filename ∅
  = Some Samples.lake.
Proof. vm_compute. reflexivity. Qed.

Lemma partition_assignment_witness :
  write_time_partitioned_transactions (Transform.cleaned Samples.raw_day)
    ["input"; "transaction"] default_timestamp_col default_filename ∅
  = Some Samples.lake ∧
  (∀ dir : Path,
     Samples.lake !! (["input"; "transaction"] ++ dir ++ [default_filename])%list =
     match rows_of_partition default_timestamp_col dir
             (rows (Transform.cleaned Samples.raw_day)) with
     | [] => (∅ : Files) !! (["input"; "transaction"] ++ dir ++ [default_filename])%list
     | chunk =>
         Some {| columns := written_cols (columns (Transform.cleaned Samples.raw_day));
                 rows := chunk |}
     end) ∧
  partition_of (mkTimestamp 2024 3 5 14 30 0)
  = ["year=2024"; "month=03"; "day=05"; "hour=14"].
Proof.
  split; [exact written_lake|].
  exact (partition_assignment _ _ _ _ _ _ written_lake).
Defined.

(** The cleaned sample day lands in two partitions, hours 14 and 15 of
    2024-03-05, with two transactions and one. *)
Lemma lake_files :
  (λ '(p, f), (p, length (rows f))) <$> map_to_list Samples.lake ≡ₚ
  [ (["input"; "transaction"; "year=2024"; "month=03"; "day=05"; "hour=14";
      "transaction.parquet"], 2%nat);
    (["input"; "transaction"; "year=2024"; "month=03"; "day=05"; "hour=15";
      "transaction.parquet"], 1%nat) ].
Proof. vm_compute. apply Permutation_swap || reflexivity. Qed.

End LoadExamples.

Module MetricsFacts.
Import Metrics LoadFacts.

(** *** Sorting *)

Lemma insert_by_perm {A} (le : A → A → bool) x l :
  Pd.insert_by le x l ≡ₚ x :: l.
Proof.
  induction l as [|y l IH]; [done|]. simpl. destruct (le y x); [|done].
  rewrite IH. apply Permutation_swap.
Qed.

Lemma sort_values_perm {A} (le : A → A → bool) l : Pd.sort_values le l ≡ₚ l.
Proof.
  unfold Pd.sort_values.
  assert (∀ acc, foldl (λ acc x, Pd.insert_by le x acc) acc l ≡ₚ (acc ++ l)%list)
    as Hgen; [|apply Hgen].
  induction l as [|x l IH]; intros acc; simpl.
  - by rewrite app_nil_r.
  - rewrite IH, insert_by_perm. apply Permutation_middle.
Qed.

(** *** Sums *)





(** *** Truck performance *)

Lemma group_keys_spec df :
  NoDup (group_keys df) ∧
  ∀ n, n ∈ group_keys df ↔ ∃ r, r ∈ df ∧ truck_name r = Some n.
Proof.
  unfold group_keys. split.
  - rewrite sort_values_perm. apply NoDup_remove_dups.
  - intros n. rewrite sort_values_perm, elem_of_remove_dups.
    apply list_elem_of_omap.
Qed.



Lemma truck_perf_row_Some df n p :
  truck_perf_row df n = Some p →
  perf_truck_name p = n ∧
  revenue p = sum_total (group n df) ∧
  transactions p = nunique (group n df) ∧
  avg_sale p = mean_total (group n df) ∧
  cash_mean (group n df) = Some (cash_share p).
Proof.
  unfold truck_perf_row. cbn zeta.
  destruct (cash_mean (group n df)) as [share|]; [|done].
  by intros [= <-].
Qed.

Lemma compute_truck_perf_rows df truck_perf :
  compute_truck_perf df = Some truck_perf →
  Forall2 (λ n p, truck_perf_row df n = Some p) (group_keys df) truck_perf.
Proof. apply mapM_Some_1. Qed.

Lemma Forall2_fmap_eq {A B C} (f : A → C) (g : B → C) l k :
  Forall2 (λ x y, g y = f x) l k → g <$> k = f <$> l.
Proof. induction 1 as [|x y l k Hxy _ IH]; [done|]. by rewrite !fmap_cons, Hxy, IH. Qed.

Lemma compute_truck_perf_names df truck_perf :
  compute_truck_perf df = Some truck_perf →
  perf_truck_name <$> truck_perf = group_keys df.
Proof.
  intros Hrows%compute_truck_perf_rows.
  rewrite <- (list_fmap_id (group_keys df)). apply Forall2_fmap_eq.
  eapply Forall2_impl; [exact Hrows|].
  intros n p Hp. by apply truck_perf_row_Some in Hp as [-> _].
Qed.

Lemma compute_truck_perf_row df truck_perf p :
  compute_truck_perf df = Some truck_perf → p ∈ truck_perf →
  perf_truck_name p ∈ group_keys df ∧
  truck_perf_row df (perf_truck_name p) = Some p.
Proof.
  intros Hrows%compute_truck_perf_rows Hp.
  induction Hrows as [|n p' ks ps Hrow _ IH]; [by apply elem_of_nil in Hp|].
  apply elem_of_cons in Hp as [->|Hp].
  - pose proof (truck_perf_row_Some _ _ _ Hrow) as [Hn _]. rewrite Hn.
    split; [by left | done].
  - destruct (IH Hp) as [Hin Hrow']. split; [by right | done].
Qed.


Lemma group_nonempty df n : n ∈ group_keys df → group n df ≠ [].
Proof.
  intros (r & Hr & Hname)%group_keys_spec Hnil.
  assert (r ∈ group n df) as Hin.
  { unfold group. apply list_elem_of_In, filter_In. split.
    - by apply list_elem_of_In.
    - by apply bool_decide_eq_true. }
  rewrite Hnil in Hin. by apply elem_of_nil in Hin.
Qed.


Lemma four_trucks_aggregated :
  compute_truck_perf Samples.four_trucks = Some Samples.four_trucks_perf.
Proof. vm_compute. reflexivity. Qed.



(** *** Cash share *)

(** The sales of a group that carry a payment label, and those paid in
    cash. *)
Lemma cash_mean_counts g :
  length (omap is_cash g) = length (labelled g) ∧
  length (List.filter id (omap is_cash g)) = length (paid_cash g).
Proof.
  unfold labelled, paid_cash, is_cash.
  induction g as [|r g [IH1 IH2]]; [done|].
  cbn [omap list_omap List.filter].
  destruct (payment_method r) as [l|]; cbn [fmap option_fmap option_map].
  - rewrite (bool_decide_true (is_Some (Some l))) by by eexists.
    rewrite (bool_decide_ext (Some l = Some "cash") (l = "cash"))
      by (split; [by intros [= ->] | by intros ->]).
    cbn [List.filter length id]. fold (omap is_cash g).
    split; [by rewrite <- IH1|].
    destruct (bool_decide (l = "cash")); cbn [length]; by rewrite <- IH2.
  - rewrite (bool_decide_false (is_Some None)) by by intros [? ?].
    rewrite (bool_decide_false (None = Some "cash")) by done. done.
Qed.

Lemma paid_cash_labelled g : (length (paid_cash g) ≤ length (labelled g))%nat.
Proof.
  unfold labelled, paid_cash. induction g as [|r g IH]; [done|].
  cbn [List.filter]. destruct (payment_method r) as [l|].
  - rewrite (bool_decide_true (is_Some (Some l))) by by eexists.
    destruct (bool_decide _); cbn [length]; lia.
  - rewrite (bool_decide_false (is_Some None)) by by intros [? ?].
    by rewrite (bool_decide_false (None = Some "cash")) by done.
Qed.

Lemma cash_mean_Some g :
  cash_mean g =
  match labelled g with
  | [] => None
  | _ => Some (inject_Z (Z.of_nat (length (paid_cash g))) /
               inject_Z (Z.of_nat (length (labelled g))))%Q
  end.
Proof.
  unfold cash_mean. destruct (cash_mean_counts g) as [Hl Hc].
  destruct (omap is_cash g) as [|b bs] eqn:Hbs, (labelled g) as [|r rs];
    try done.
  by rewrite Hl, Hc.
Qed.

Lemma compute_truck_perf_is_Some df :
  is_Some (compute_truck_perf df) ↔
  ∀ n, n ∈ group_keys df → labelled (group n df) ≠ [].
Proof.
  unfold compute_truck_perf. rewrite mapM_is_Some, Forall_forall.
  apply forall_proper. intros n. apply forall_proper. intros _.
  unfold compose, truck_perf_row. cbn zeta. rewrite cash_mean_Some.
  destruct (labelled (group n df)); cbn [mbind option_bind].
  - split; [by intros [? ?] | done].
  - split; [done | by eexists].
Qed.

(** Claim C6, as the code has it. The payment labels of the dashboard are
    a [string] column, so the comparison with [cash] is missing for a sale
    without a label and the mean leaves that sale out: a truck with one
    cash sale and one sale without a label gets the cash share 1, not
    1/2; and for a truck none of whose sales has a label [float] raises on
    the missing mean, where the claim says 0. *)
Theorem cash_share_skips_missing_labels :
  (∃ truck_perf,
     compute_truck_perf Samples.half_labelled = Some truck_perf ∧
     cash_share <$> truck_perf = [1%Q]) ∧
  compute_truck_perf Samples.unlabelled = None.
Proof.
  split; [|vm_compute; reflexivity].
  eexists. split; vm_compute; reflexivity.
Qed.

(** Property X25. [compute_truck_perf] raises exactly when some truck has
    no sale with a payment label. In every aggregate it returns, the cash
    share of a truck is the number of its cash sales over the number of
    its sales that have a label: a ratio between 0 and 1, 1 when every sale
    of the truck is cash, and 0 when none is. *)
Theorem cash_share_over_labelled df :
  (is_Some (compute_truck_perf df) ↔
   ∀ n, n ∈ group_keys df → labelled (group n df) ≠ []) ∧
  ∀ truck_perf p,
    compute_truck_perf df = Some truck_perf → p ∈ truck_perf →
    let g := group (perf_truck_name p) df in
    labelled g ≠ [] ∧
    (cash_share p == inject_Z (Z.of_nat (length (paid_cash g))) /
                     inject_Z (Z.of_nat (length (labelled g))))%Q ∧
    (0 <= cash_share p)%Q ∧ (cash_share p <= 1)%Q ∧
    ((∀ r, r ∈ g → payment_method r = Some "cash") → (cash_share p == 1)%Q) ∧
    ((∀ r, r ∈ g → payment_method r ≠ Some "cash") → (cash_share p == 0)%Q).
Proof.
  split; [apply compute_truck_perf_is_Some|].
  intros truck_perf p Hperf Hp. cbn zeta.
  destruct (compute_truck_perf_row _ _ _ Hperf Hp) as [Hn Hrow].
  apply truck_perf_row_Some in Hrow as (_ & _ & _ & _ & Hshare).
  set (g := group (perf_truck_name p) df) in *.
  rewrite cash_mean_Some in Hshare.
  pose proof (paid_cash_labelled g) as Hle.
  destruct (labelled g) as [|r0 rs] eqn:Hlab; [done|].
  injection Hshare as Hshare. rewrite <- Hshare. cbn [length] in Hle |- *.
  set (c := length (paid_cash g)) in *.
  assert (0 < inject_Z (Z.of_nat (S (length rs))))%Q as Hpos.
  { rewrite <- (Zlt_Qlt 0). lia. }
  split_and!; [done | reflexivity | | | |].
  - apply Qle_shift_div_l; [done|]. rewrite Qmult_0_l.
    rewrite <- (Zle_Qle 0). lia.
  - apply Qle_shift_div_r; [done|]. rewrite Qmult_1_l.
    rewrite <- Zle_Qle. lia.
  - intros Hall.
    assert (paid_cash g = g ∧ labelled g = g) as [Hc Hg].
    { unfold paid_cash, labelled.
      split; apply IdempotenceFacts.filter_all_true;
        intros r Hr%list_elem_of_In; apply bool_decide_eq_true.
      - by apply Hall.
      - rewrite (Hall r Hr). by eexists. }
    assert (c = S (length rs)) as ->.
    { unfold c. by rewrite Hc, <- Hg, Hlab. }
    apply Qmult_inv_r. intros Heq. unfold Qeq in Heq.
    cbn [Qnum Qden inject_Z] in Heq. lia.
  - intros Hnone.
    assert (paid_cash g = []) as Hc.
    { unfold paid_cash. apply IdempotenceFacts.filter_all_false.
      intros r Hr%list_elem_of_In. apply bool_decide_eq_false. by apply Hnone. }
    unfold c. rewrite Hc. cbn [length]. unfold Qdiv. apply Qmult_0_l.
Qed.

(** The cash shares of the four sample trucks, in the order of their
    names. *)
Lemma four_trucks_cash_shares :
  Qred <$> (cash_share <$> Samples.four_trucks_perf) = [1 # 2; 0; 1; 0]%Q.
Proof. vm_compute. reflexivity. Qed.

(** *** Payment mix *)

Lemma sum_list_pick {K} `{EqDecision K} (f : K → nat) (k0 : K) ks :
  NoDup ks → k0 ∈ ks →
  sum_list ((λ k, if bool_decide (k0 = k) then S (f k) else f k) <$> ks)
  = S (sum_list (f <$> ks)).
Proof.
  induction 1 as [|k ks Hk Hnd IH]; intros Hin.
  - by apply elem_of_nil in Hin.
  - cbn [fmap list_fmap sum_list_with id].
    destruct (decide (k0 = k)) as [->|Hne].
    + rewrite bool_decide_true by done.
      rewrite (list_fmap_ext _ f ks); [done|].
      intros i k' Hk'%list_elem_of_lookup_2.
      rewrite bool_decide_false; [done | congruence].
    + rewrite bool_decide_false by done.
      apply elem_of_cons in Hin as [Hin|Hin]; [done|].
      rewrite (IH Hin). lia.
Qed.

Lemma length_filter_groups {A K} `{EqDecision K} (key : A → K) ks (l : list A) :
  NoDup ks → (∀ x, x ∈ l → key x ∈ ks) →
  sum_list ((λ k, length (List.filter (λ x, bool_decide (key x = k)) l)) <$> ks)
  = length l.
Proof.
  intros Hnd. induction l as [|x l IH]; intros Hcover.
  - cbn [List.filter length]. clear. induction ks as [|k ks IHk]; [done|].
    exact IHk.
  - cbn [length]. rewrite <- IH by (intros y Hy; apply Hcover; by right).
    rewrite <- (sum_list_pick _ (key x)); [|done|apply Hcover; by left].
    f_equal. apply list_fmap_ext. intros i k _.
    cbn [List.filter]. by case_bool_decide.
Qed.

(** Claim C10. [compute_payment_mix] has one entry for each distinct
    payment method of the input, the missing one included and labelled
    [unknown]; the count of an entry is the number of input rows with that
    method, a row counting once however often its transaction identifier
    occurs; and the counts add up to the number of input rows. *)
Theorem payment_mix_counts df :
  let vc := value_counts (payment_method <$> df) in
  compute_payment_mix df = (λ e, (default "unknown" e.1, e.2)) <$> vc ∧
  NoDup (fst <$> vc) ∧
  (∀ l, l ∈ fst <$> vc ↔ l ∈ payment_method <$> df) ∧
  (∀ l n, (l, n) ∈ vc →
     n = length (List.filter (λ r, bool_decide (payment_method r = l)) df)) ∧
  sum_list (snd <$> compute_payment_mix df) = length df.
Proof.
  set (col := payment_method <$> df).
  set (counts := (λ l, (l, length (List.filter (λ x, bool_decide (x = l)) col)))
                   <$> Pd.first_seen [] col).
  assert (value_counts col ≡ₚ counts) as Hperm by apply sort_values_perm.
  destruct (first_seen_spec [] col) as [Hnd Hin].
  assert (fst <$> counts = Pd.first_seen [] col) as Hfst.
  { unfold counts. rewrite <- list_fmap_compose. apply list_fmap_id. }
  assert (∀ l, length (List.filter (λ x, bool_decide (x = l)) col)
               = length (List.filter (λ r, bool_decide (payment_method r = l)) df))
    as Hcount.
  { intros l. unfold col. clear. induction df as [|r df IH]; [done|].
    rewrite fmap_cons. cbn [List.filter].
    case_bool_decide; cbn [length]; by rewrite IH. }
  cbn zeta. split_and!.
  - unfold compute_payment_mix. apply list_fmap_ext. by intros i [l n] _.
  - rewrite Hperm, Hfst. done.
  - intros l. rewrite Hperm, Hfst, Hin. split; [tauto|].
    split; [done | apply not_elem_of_nil].
  - intros l n Hln. rewrite Hperm in Hln. unfold counts in Hln.
    apply list_elem_of_fmap in Hln as (l' & [= -> ->] & _). apply Hcount.
  - unfold compute_payment_mix. rewrite <- list_fmap_compose.
    rewrite (list_fmap_ext _ snd (value_counts col))
      by (by intros i [l n] _).
    rewrite Hperm. unfold counts. rewrite <- list_fmap_compose.
    rewrite <- (length_fmap payment_method df). fold col.
    rewrite <- (length_filter_groups id (Pd.first_seen [] col) col Hnd).
    + done.
    + intros x Hx. apply Hin. split; [done | apply not_elem_of_nil].
Qed.

End MetricsFacts.

Module AppFacts.
Import Metrics App MetricsFacts.


End AppFacts.

Module ReportFacts.
Import Py DailyReport.

(** *** Substrings *)

Lemma prefix_app sub a b :
  String.prefix sub a = true → String.prefix sub (a ++ b) = true.
Proof.
  revert a. induction sub as [|c sub IH]; intros a Hp.
  - by destruct (a ++ b).
  - destruct a as [|c' a]; [done|].
    change (String c' a ++ b) with (String c' (a ++ b)).
    cbn [String.prefix] in *. destruct (ascii_dec c c'); [by apply IH | done].
Qed.

Lemma contains_nil_sub s : contains EmptyString s = true.
Proof. by destruct s. Qed.

Lemma contains_cons sub c s :
  contains sub (String c s) = String.prefix sub (String c s) || contains sub s.
Proof. done. Qed.

Lemma contains_app_r sub a b :
  contains sub b = true → contains sub (a ++ b) = true.
Proof.
  intros Hb. induction a as [|c a IH]; [done|].
  change (String c a ++ b) with (String c (a ++ b)).
  rewrite contains_cons, IH. apply orb_true_r.
Qed.

Lemma contains_app_l sub a b :
  contains sub a = true → contains sub (a ++ b) = true.
Proof.
  induction a as [|c a IH].
  - destruct sub; [intros _; apply contains_nil_sub | done].
  - rewrite contains_cons. intros [Hp | Ha]%orb_true_iff.
    + change (String c a ++ b) with (String c (a ++ b)).
      rewrite contains_cons.
      change (String c (a ++ b)) with (String c a ++ b).
      by rewrite (prefix_app _ _ b Hp).
    + change (String c a ++ b) with (String c (a ++ b)).
      rewrite contains_cons, (IH Ha). apply orb_true_r.
Qed.

(** *** The empty day *)

(** Three empty result frames: the report generator raises nothing and
    returns a report whose overall totals are zero transactions and zero
    revenue, whose by-truck table is the notice that no transactions were
    recorded, and whose payment mix shows cash and card at 0.0% each. The
    overall query cannot return such a frame: it aggregates without
    grouping and has one row on every day. *)
Lemma empty_frames_report (day : Date) (now_utc : string) :
  ∃ m resp,
    build_metrics [] [] [] day now_utc = Some m ∧
    lambda_handler [] [] [] day now_utc = Some resp ∧
    resp_html resp = render_html_report m ∧
    overall_n_transactions m = 0%Z ∧
    (∃ q, total_transaction_value_gbp m = Fin q ∧ (q == 0)%Q) ∧
    fmt_gbp (total_transaction_value_gbp m) = "£0.00" ∧
    by_truck_df m = [] ∧
    df_to_html_table (by_truck_df m) = no_transactions_notice ∧
    (cash_share m == 0)%Q ∧ (card_share m == 0)%Q ∧
    contains no_transactions_notice (resp_html resp) = true ∧
    contains "Cash: 0 (0.0%)" (resp_html resp) = true ∧
    contains "Card: 0 (0.0%)" (resp_html resp) = true ∧
    contains ">£0.00</div>" (resp_html resp) = true.
Proof.
  eexists _, _. split; [reflexivity|]. split; [reflexivity|].
  split_and!; try reflexivity.
  - eexists. split; [reflexivity|]. vm_compute. reflexivity.
  - cbn [resp_html]. unfold render_html_report. cbn [report_date generated_at].
    do 6 apply contains_app_r. vm_compute. reflexivity.
  - cbn [resp_html]. unfold render_html_report. cbn [report_date generated_at].
    do 6 apply contains_app_r. vm_compute. reflexivity.
  - cbn [resp_html]. unfold render_html_report. cbn [report_date generated_at].
    do 6 apply contains_app_r. vm_compute. reflexivity.
  - cbn [resp_html]. unfold render_html_report. cbn [report_date generated_at].
    do 6 apply contains_app_r. vm_compute. reflexivity.
Qed.

(** Claim C8, as the code has it. On a day without transactions the
    overall query returns one row, a count of 0 with a missing sum and a
    missing average, read as [NaN]. [NaN] is truthy, so [or] does not put
    the default 0.0 in its place: the report generator raises nothing, the
    count is 0, the by-truck table is the notice and the payment mix shows
    0.0% twice, but the total and the average are [nan], and the report
    shows [£nan] where the claim has a revenue of zero. *)
Theorem empty_day_shows_nan :
  ∃ m resp,
    Samples.empty_day = Some m ∧
    lambda_handler Samples.empty_day_overall [] [] (mkDate 2024 3 5)
      "2024-03-06T00:05:00Z" = Some resp ∧
    resp_html resp = render_html_report m ∧
    overall_n_transactions m = 0%Z ∧
    total_transaction_value_gbp m = Nan ∧
    overall_avg_customer_spend_gbp m = Nan ∧
    fmt_gbp (total_transaction_value_gbp m) = "£nan" ∧
    by_truck_df m = [] ∧
    df_to_html_table (by_truck_df m) = no_transactions_notice ∧
    (cash_share m == 0)%Q ∧ (card_share m == 0)%Q ∧
    contains no_transactions_notice (resp_html resp) = true ∧
    contains ">£nan</div>" (resp_html resp) = true ∧
    contains ">£0.00</div>" (resp_html resp) = false.
Proof.
  eexists _, _. split; [reflexivity|]. split; [reflexivity|].
  split_and!; try reflexivity; vm_compute; reflexivity.
Qed.

(** *** Escaping *)

Lemma append_assoc (a b c : string) : (a ++ b) ++ c = a ++ b ++ c.
Proof.
  induction a as [|x a IH]; [done|].
  change (String x a ++ b) with (String x (a ++ b)).
  change (String x (a ++ b) ++ c) with (String x ((a ++ b) ++ c)).
  change (String x a ++ b ++ c) with (String x (a ++ b ++ c)).
  by rewrite IH.
Qed.

Lemma replace_app c by_ a b :
  replace c by_ (a ++ b) = replace c by_ a ++ replace c by_ b.
Proof.
  induction a as [|x a IH]; [done|].
  change (String x a ++ b) with (String x (a ++ b)). cbn [replace].
  rewrite IH. by rewrite append_assoc.
Qed.

Lemma html_escape_app a b : html_escape (a ++ b) = html_escape a ++ html_escape b.
Proof. unfold html_escape. by rewrite !replace_app. Qed.

Lemma list_ascii_of_string_app a b :
  list_ascii_of_string (a ++ b)
  = (list_ascii_of_string a ++ list_ascii_of_string b)%list.
Proof.
  induction a as [|x a IH]; [done|].
  change (String x a ++ b) with (String x (a ++ b)). cbn. by rewrite IH.
Qed.

Lemma markup_chars_app a b :
  markup_chars (a ++ b) = (markup_chars a ++ markup_chars b)%list.
Proof.
  unfold markup_chars. by rewrite list_ascii_of_string_app, List.filter_app.
Qed.

Lemma markup_chars_escape_char (c : ascii) :
  markup_chars (html_escape (String c EmptyString)) = [].
Proof. destruct c as [[] [] [] [] [] [] [] []]; vm_compute; reflexivity. Qed.

(** An escaped text has no markup character. *)
Lemma markup_chars_escape s : markup_chars (html_escape s) = [].
Proof.
  induction s as [|c s IH]; [done|].
  change (String c s) with (String c EmptyString ++ s).
  by rewrite html_escape_app, markup_chars_app, markup_chars_escape_char, IH.
Qed.

Lemma markup_table_row f r :
  markup_chars (table_row (rename_row f r)) = markup_chars (table_row r).
Proof.
  unfold table_row, row_values. cbn [fmap list_fmap join foldr].
  by rewrite !markup_chars_app, !markup_chars_escape.
Qed.

Lemma markup_table_rows f df :
  markup_chars (join (table_row <$> (rename_row f <$> df)))
  = markup_chars (join (table_row <$> df)).
Proof.
  induction df as [|r df IH]; [done|].
  rewrite !fmap_cons. cbn [join foldr]. fold (join (table_row <$> df)).
  fold (join (table_row <$> (rename_row f <$> df))).
  by rewrite !markup_chars_app, IH, markup_table_row.
Qed.

Lemma markup_table f df :
  markup_chars (df_to_html_table (rename_row f <$> df))
  = markup_chars (df_to_html_table df).
Proof.
  destruct df as [|r df]; [done|].
  rewrite fmap_cons. unfold df_to_html_table.
  rewrite <- fmap_cons. by rewrite !markup_chars_app, markup_table_rows.
Qed.

Lemma markup_highlight_line f label item :
  markup_chars (highlight_line label (rename_highlight f <$> item))
  = markup_chars (highlight_line label item).
Proof.
  destruct item as [h|]; [|done]. cbn [fmap option_fmap option_map].
  unfold highlight_line. cbn [rename_highlight h_truck_name h_total_gbp h_n_transactions].
  by rewrite !markup_chars_app, !markup_chars_escape.
Qed.

Lemma markup_report f m :
  markup_chars (render_html_report (rename_trucks f m))
  = markup_chars (render_html_report m).
Proof.
  unfold render_html_report. cbn [rename_trucks report_date generated_at
    total_transaction_value_gbp overall_n_transactions
    overall_avg_customer_spend_gbp by_truck_df cash_n card_n cash_share
    card_share top_truck_by_revenue lowest_truck_by_revenue
    top_truck_by_transactions].
  by rewrite !markup_chars_app, markup_table, !markup_highlight_line.
Qed.

(** Claim C9. Escaped text holds no angle bracket and no quote; the table
    cell and the highlight line of a truck hold its name escaped; so the
    markup of the rendered report does not depend on the truck names. A
    truck named [<script>alert(1)</script>] appears in the table and in the
    highlights as [&lt;script&gt;alert(1)&lt;/script&gt;], and the report
    has no [<script] in it. *)
Theorem truck_names_escaped :
  (∀ s, markup_chars (html_escape s) = []) ∧
  (∀ r, ∃ rest,
     table_row r = "<tr><td>" ++ html_escape (truck_name r) ++ "</td>" ++ rest) ∧
  (∀ label h, ∃ rest,
     highlight_line label (Some h)
     = "<li><b>" ++ html_escape label ++ ":</b> " ++
       html_escape (h_truck_name h) ++ rest) ∧
  (∀ f m, markup_chars (render_html_report (rename_trucks f m))
          = markup_chars (render_html_report m)) ∧
  (∃ m, Samples.script_day = Some m ∧
        Samples.script_name ∈ truck_name <$> by_truck_df m ∧
        h_truck_name <$> top_truck_by_revenue m = Some Samples.script_name ∧
        html_escape Samples.script_name = "&lt;script&gt;alert(1)&lt;/script&gt;" ∧
        contains "<td>&lt;script&gt;alert(1)&lt;/script&gt;</td>"
          (render_html_report m) = true ∧
        contains "</b> &lt;script&gt;alert(1)&lt;/script&gt; ("
          (render_html_report m) = true ∧
        contains "<script" (render_html_report m) = false ∧
        contains "alert(1)</script" (render_html_report m) = false).
Proof.
  split_and!.
  - apply markup_chars_escape.
  - intros r. unfold table_row, row_values.
    cbn [fmap list_fmap join foldr]. rewrite !append_assoc.
    eexists. reflexivity.
  - intros label h. eexists. reflexivity.
  - apply markup_report.
  - eexists. split; [vm_compute; reflexivity|].
    split_and!; try (vm_compute; reflexivity).
    apply (list_elem_of_lookup_2 _ 0%nat). vm_compute. reflexivity.
Qed.

End ReportFacts.

Module OptionFacts.

Lemma default_Some {A} (x : option A) (d : A) :
  match x with Some _ => true | None => false end = true →
  x = Some (default d x).
Proof. by destruct x. Qed.

Lemma head_Some_default {A} (l : list A) (d : A) :
  match l with [] => false | _ => true end = true →
  l = default d (head l) :: tail l.
Proof. by destruct l. Qed.

End OptionFacts.

Module SortingFacts.
Import MetricsFacts.

(** *** Order of a sorted frame *)

Section Sorted.
Context {A : Type} (le : A → A → bool).
Hypothesis le_total : ∀ a b, le a b = false → le b a = true.
Hypothesis le_trans : ∀ a b c, le a b = true → le b c = true → le a c = true.

Lemma insert_by_sorted x l :
  StronglySorted (λ a b, le a b = true) l →
  StronglySorted (λ a b, le a b = true) (Pd.insert_by le x l).
Proof.
  induction 1 as [|y l Hl IH Hy]; simpl.
  - repeat constructor.
  - destruct (le y x) eqn:Hyx.
    + constructor; [done|].
      rewrite Forall_forall. intros z Hz.
      rewrite insert_by_perm in Hz. apply elem_of_cons in Hz as [->|Hz]; [done|].
      rewrite Forall_forall in Hy. by apply Hy.
    + apply le_total in Hyx. constructor; [by constructor|].
      constructor; [done|]. eapply Forall_impl; [exact Hy|].
      intros z Hz. by eapply le_trans.
Qed.

Lemma sort_values_sorted l :
  StronglySorted (λ a b, le a b = true) (Pd.sort_values le l).
Proof.
  unfold Pd.sort_values.
  assert (∀ acc, StronglySorted (λ a b, le a b = true) acc →
            StronglySorted (λ a b, le a b = true)
              (foldl (λ acc x, Pd.insert_by le x acc) acc l)) as Hgen.
  { induction l as [|x l IH]; intros acc Hacc; [done|].
    simpl. by apply IH, insert_by_sorted. }
  apply Hgen. constructor.
Qed.

Lemma sorted_lookup_le l i j a b :
  StronglySorted (λ a b, le a b = true) l →
  (i < j)%nat → l !! i = Some a → l !! j = Some b → le a b = true.
Proof.
  intros Hl. revert i j. induction Hl as [|y l Hl IH Hy]; intros i j Hij Ha Hb.
  - done.
  - destruct j as [|j]; [lia|]. destruct i as [|i].
    + injection Ha as ->. rewrite Forall_forall in Hy.
      apply Hy. by eapply list_elem_of_lookup_2.
    + apply (IH i j); [lia|done..].
Qed.

(** The first row of a sorted frame stands before every other row, and
    every other row stands before the last. *)
Lemma sorted_head_le l a b :
  head (Pd.sort_values le l) = Some a → b ∈ l → a = b ∨ le a b = true.
Proof.
  intros Ha Hb. rewrite <- (sort_values_perm le) in Hb.
  pose proof (sort_values_sorted l) as Hs.
  destruct (Pd.sort_values le l) as [|y s]; [done|]. injection Ha as ->.
  apply elem_of_cons in Hb as [->|Hb]; [by left|]. right.
  apply StronglySorted_inv in Hs as [_ Hy]. rewrite Forall_forall in Hy.
  by apply Hy.
Qed.

Lemma sorted_last_le l a b :
  last (Pd.sort_values le l) = Some a → b ∈ l → a = b ∨ le b a = true.
Proof.
  intros Ha Hb. rewrite <- (sort_values_perm le) in Hb.
  pose proof (sort_values_sorted l) as Hs.
  apply list_elem_of_lookup_1 in Hb as [i Hi].
  rewrite last_lookup in Ha.
  pose proof (lookup_lt_Some _ _ _ Hi) as Hlt.
  destruct (decide (i = pred (length (Pd.sort_values le l)))) as [->|Hne].
  - left. congruence.
  - right. eapply sorted_lookup_le; [done| |done..]. lia.
Qed.

End Sorted.

Lemma Qle_bool_total a b : Qle_bool a b = false → Qle_bool b a = true.
Proof.
  intros Hab. apply Qle_bool_iff. apply Qlt_le_weak, Qnot_le_lt.
  intros Hle%Qle_bool_iff. congruence.
Qed.

Lemma Qle_bool_trans a b c :
  Qle_bool a b = true → Qle_bool b c = true → Qle_bool a c = true.
Proof. rewrite !Qle_bool_iff. apply Qle_trans. Qed.

Lemma string_leb_total (a b : string) :
  String.leb a b = false → String.leb b a = true.
Proof. intros Hab. destruct (String.leb_total a b); congruence. Qed.

Lemma string_compare_trans (a b c : string) :
  String.compare a b ≠ Gt → String.compare b c ≠ Gt → String.compare a c ≠ Gt.
Proof.
  revert b c. induction a as [|x a IH]; intros [|y b] [|z c]; simpl; try done.
  unfold Ascii.compare.
  destruct (N.compare_spec (N_of_ascii x) (N_of_ascii y)) as [Hxy|Hxy|Hxy];
    destruct (N.compare_spec (N_of_ascii y) (N_of_ascii z)) as [Hyz|Hyz|Hyz];
    destruct (N.compare_spec (N_of_ascii x) (N_of_ascii z)) as [Hxz|Hxz|Hxz];
    try done; try lia.
  apply IH.
Qed.

Lemma string_leb_trans (a b c : string) :
  String.leb a b = true → String.leb b c = true → String.leb a c = true.
Proof.
  unfold String.leb. intros Hab Hbc.
  pose proof (string_compare_trans a b c) as Hac.
  destruct (String.compare a b); [| |done];
    destruct (String.compare b c); try done;
    destruct (String.compare a c); try done;
    by exfalso; apply Hac.
Qed.

End SortingFacts.

Module CuesFacts.
Import Metrics App MetricsFacts SortingFacts.

(** *** Quantiles *)

Lemma nth_sorted_le (s : list Q) x0 i j :
  StronglySorted (λ a b, Qle_bool a b = true) s →
  (i ≤ j < length s)%nat → (nth i s x0 <= nth j s x0)%Q.
Proof.
  intros Hs [Hij Hj]. rewrite !nth_lookup.
  destruct (lookup_lt_is_Some_2 s i) as [a Ha]; [lia|].
  destruct (lookup_lt_is_Some_2 s j) as [b Hb]; [lia|].
  rewrite Ha, Hb. simpl.
  destruct (decide (i = j)) as [->|Hne].
  - assert (a = b) as -> by congruence. apply Qle_refl.
  - apply Qle_bool_iff.
    eapply (sorted_lookup_le Qle_bool); [done| |done..]. lia.
Qed.

(** A quantile lies between two of the values: at least the value at the
    lower position, at most the value at the upper one. *)
Lemma quantile_between xs p q :
  (0 <= p)%Q → (p <= 1)%Q → quantile xs p = Some q →
  ∃ a b, a ∈ xs ∧ b ∈ xs ∧ (a <= q)%Q ∧ (q <= b)%Q.
Proof.
  intros Hp0 Hp1. unfold quantile.
  pose proof (sort_values_sorted Qle_bool Qle_bool_total Qle_bool_trans xs) as Hs.
  pose proof (sort_values_perm Qle_bool xs) as Hperm.
  destruct (Pd.sort_values Qle_bool xs) as [|x0 s'] eqn:Hsort; [done|].
  set (s := x0 :: s') in *.
  set (n := Z.of_nat (length s)).
  set (h := (inject_Z (n - 1) * p)%Q).
  set (lo := Qfloor h).
  set (hi := Z.min (lo + 1) (n - 1)).
  intros [= <-].
  assert (1 ≤ n)%Z as Hn by (unfold n, s; simpl; lia).
  assert (0 <= inject_Z (n - 1))%Q as Hn0 by (rewrite <- (Zle_Qle 0); lia).
  assert (0 <= h)%Q as Hh0 by (unfold h; nra).
  assert (h <= inject_Z (n - 1))%Q as Hh1 by (unfold h; nra).
  assert (0 ≤ lo)%Z as Hlo0.
  { unfold lo. change 0%Z with (Qfloor 0). by apply Qfloor_resp_le. }
  assert (lo ≤ n - 1)%Z as Hlo1.
  { unfold lo. rewrite <- (Qfloor_Z (n - 1)). by apply Qfloor_resp_le. }
  assert (inject_Z lo <= h)%Q as Hfl by apply Qfloor_le.
  assert (h < inject_Z (lo + 1))%Q as Hfu by apply Qlt_floor.
  rewrite inject_Z_plus in Hfu. change (inject_Z 1) with 1%Q in Hfu.
  assert (nth (Z.to_nat lo) s x0 <= nth (Z.to_nat hi) s x0)%Q as Hab.
  { apply nth_sorted_le; [done|]. unfold hi. fold n in Hn. unfold n in *. lia. }
  set (a := nth (Z.to_nat lo) s x0) in *.
  set (b := nth (Z.to_nat hi) s x0) in *.
  exists a, b. split_and!.
  - rewrite <- Hperm. unfold a. rewrite nth_lookup.
    destruct (lookup_lt_is_Some_2 s (Z.to_nat lo)) as [y Hy]; [unfold n in *; lia|].
    rewrite Hy. simpl. by eapply list_elem_of_lookup_2.
  - rewrite <- Hperm. unfold b. rewrite nth_lookup.
    destruct (lookup_lt_is_Some_2 s (Z.to_nat hi)) as [y Hy];
      [unfold hi, n in *; lia|].
    rewrite Hy. simpl. by eapply list_elem_of_lookup_2.
  - change (a <= a + (b - a) * (h - inject_Z lo))%Q.
    assert (0 <= (b - a) * (h - inject_Z lo))%Q
      by (apply Qmult_le_0_compat; lra).
    lra.
  - change (a + (b - a) * (h - inject_Z lo) <= b)%Q.
    assert (0 <= (b - a) * (1 - (h - inject_Z lo)))%Q
      by (apply Qmult_le_0_compat; lra).
    lra.
Qed.

Lemma quantile_is_Some xs p : xs ≠ [] → is_Some (quantile xs p).
Proof.
  intros Hxs. unfold quantile.
  pose proof (sort_values_perm Qle_bool xs) as Hperm.
  destruct (Pd.sort_values Qle_bool xs) as [|x0 s']; [|by eexists].
  by apply Permutation_nil_l in Hperm.
Qed.

(** *** Action cues *)

(** Property X1. A truck whose revenue is the least of the aggregate is
    flagged as underperforming, whatever the other revenues are: the 25th
    percentile never falls below the least revenue. So the list of
    underperforming trucks is empty only when there is no truck at all. *)
Theorem least_revenue_flagged truck_perf p :
  p ∈ truck_perf →
  (∀ p', p' ∈ truck_perf → (revenue p <= revenue p')%Q) →
  p ∈ low_rev truck_perf.
Proof.
  intros Hp Hleast. unfold low_rev, low_rev_threshold.
  destruct (quantile_is_Some (revenue <$> truck_perf) (1 # 4)) as [thr Hthr].
  { intros Hnil. apply fmap_nil_inv in Hnil. subst. by apply elem_of_nil in Hp. }
  rewrite Hthr.
  apply quantile_between in Hthr as (a & _ & Ha & _ & Hle & _); [|done..].
  apply list_elem_of_fmap in Ha as (pa & -> & Hpa).
  apply list_elem_of_In, filter_In. split; [by apply list_elem_of_In|].
  apply Qle_bool_iff. eapply Qle_trans; [by apply Hleast|done].
Qed.

Lemma least_revenue_flagged_witness :
  let truck_perf := Samples.four_trucks_perf in
  let p := default (mkTruckPerf EmptyString 0 0 None 0) (head truck_perf) in
  p ∈ truck_perf ∧
  (∀ p', p' ∈ truck_perf → (revenue p <= revenue p')%Q) ∧
  p ∈ low_rev truck_perf.
Proof.
  cbn zeta.
  set (p := default (mkTruckPerf EmptyString 0 0 None 0)
              (head Samples.four_trucks_perf)).
  assert (p ∈ Samples.four_trucks_perf) as Hp.
  { apply (list_elem_of_lookup_2 _ 0%nat). vm_compute. reflexivity. }
  assert (∀ p', p' ∈ Samples.four_trucks_perf →
            (revenue p <= revenue p')%Q) as Hleast.
  { apply Forall_forall. vm_compute. repeat constructor; discriminate. }
  split; [exact Hp|]. split; [exact Hleast|].
  exact (least_revenue_flagged _ _ Hp Hleast).
Defined.

(** Property X2. The other cue mirrors the first: the trucks flagged for
    high cash reliance are those whose cash share is at least the 75th
    percentile of the cash shares, and a truck with the greatest cash share
    is always among them. *)
Theorem greatest_cash_share_flagged truck_perf p :
  p ∈ truck_perf →
  (∀ p', p' ∈ truck_perf → (cash_share p' <= cash_share p)%Q) →
  p ∈ high_cash truck_perf ∧
  ∀ p', p' ∈ high_cash truck_perf ↔
        ∃ thr, high_cash_threshold truck_perf = Some thr ∧
               p' ∈ truck_perf ∧ (thr <= cash_share p')%Q.
Proof.
  intros Hp Hmost. unfold high_cash, high_cash_threshold.
  destruct (quantile_is_Some (cash_share <$> truck_perf) (3 # 4)) as [thr Hthr].
  { intros Hnil. apply fmap_nil_inv in Hnil. subst. by apply elem_of_nil in Hp. }
  rewrite Hthr. split.
  - apply quantile_between in Hthr as (_ & b & _ & Hb & _ & Hle); [|done..].
    apply list_elem_of_fmap in Hb as (pb & -> & Hpb).
    apply list_elem_of_In, filter_In. split; [by apply list_elem_of_In|].
    apply Qle_bool_iff. eapply Qle_trans; [done|by apply Hmost].
  - intros p'.
    rewrite list_elem_of_In, filter_In, <- list_elem_of_In, Qle_bool_iff.
    split.
    + intros [Hp' Hle]. by exists thr.
    + by intros (thr' & [= <-] & Hp' & Hle).
Qed.

Lemma greatest_cash_share_flagged_witness :
  let truck_perf := Samples.four_trucks_perf in
  let p := default (mkTruckPerf EmptyString 0 0 None 0) (truck_perf !! 2%nat) in
  p ∈ truck_perf ∧
  (∀ p', p' ∈ truck_perf → (cash_share p' <= cash_share p)%Q) ∧
  p ∈ high_cash truck_perf ∧
  ∀ p', p' ∈ high_cash truck_perf ↔
        ∃ thr, high_cash_threshold truck_perf = Some thr ∧
               p' ∈ truck_perf ∧ (thr <= cash_share p')%Q.
Proof.
  cbn zeta.
  set (p := default (mkTruckPerf EmptyString 0 0 None 0)
              (Samples.four_trucks_perf !! 2%nat)).
  assert (p ∈ Samples.four_trucks_perf) as Hp.
  { apply (list_elem_of_lookup_2 _ 2%nat). vm_compute. reflexivity. }
  assert (∀ p', p' ∈ Samples.four_trucks_perf →
            (cash_share p' <= cash_share p)%Q) as Hmost.
  { apply Forall_forall. vm_compute. repeat constructor; discriminate. }
  split; [exact Hp|]. split; [exact Hmost|].
  exact (greatest_cash_share_flagged _ _ Hp Hmost).
Defined.

End CuesFacts.

Module PerfFacts.
Import Metrics MetricsFacts SortingFacts.

Lemma sum_total_omap g : (sum_total g == Qsum (omap total g))%Q.
Proof.
  induction g as [|r g IH]; [done|].
  cbn [sum_total foldr omap list_omap]. fold (sum_total g).
  destruct (total r) as [q|]; cbn [default Qsum foldr].
  - fold (Qsum (omap total g)). by rewrite IH.
  - rewrite IH. fold (omap total g). lra.
Qed.

Lemma length_remove_dups {A} `{EqDecision A} (l : list A) :
  (length (remove_dups l) ≤ length l)%nat.
Proof.
  induction l as [|x l IH]; [done|]. simpl.
  destruct (decide_rel _ _ _); simpl; lia.
Qed.

Lemma length_omap {A B} (f : A → option B) (l : list A) :
  (length (omap f l) ≤ length l)%nat.
Proof.
  induction l as [|x l IH]; [done|]. cbn [omap list_omap].
  destruct (f x); simpl; fold (omap f l); lia.
Qed.

(** Property X3. Every truck-performance aggregate the function returns
    has one row per truck name that occurs in the input, in ascending order
    of the names; rows without a truck name make no group. *)
Theorem truck_perf_names df truck_perf :
  compute_truck_perf df = Some truck_perf →
  let names := perf_truck_name <$> truck_perf in
  NoDup names ∧
  StronglySorted (λ a b, String.leb a b = true) names ∧
  ∀ n, n ∈ names ↔ ∃ r, r ∈ df ∧ truck_name r = Some n.
Proof.
  intros Hperf. cbn zeta. rewrite (compute_truck_perf_names _ _ Hperf).
  destruct (group_keys_spec df) as [Hnd Hin]. split_and!; [done| |done].
  apply sort_values_sorted; [apply string_leb_total | apply string_leb_trans].
Qed.

Lemma truck_perf_names_witness :
  let names := perf_truck_name <$> Samples.four_trucks_perf in
  compute_truck_perf Samples.four_trucks = Some Samples.four_trucks_perf ∧
  NoDup names ∧
  StronglySorted (λ a b, String.leb a b = true) names ∧
  ∀ n, n ∈ names ↔ ∃ r, r ∈ Samples.four_trucks ∧ truck_name r = Some n.
Proof.
  cbn zeta. split; [exact four_trucks_aggregated|].
  exact (truck_perf_names _ _ four_trucks_aggregated).
Defined.

(** Property X4. Each row of an aggregate the function returns is
    consistent with its group: the revenue is the sum of the totals present,
    the transaction count is at most the number of rows, and the average
    sale times the number of totals present gives the revenue back; the
    average is missing only when no row of the group has a total, and the
    revenue is then 0. *)
Theorem truck_perf_rows df truck_perf p :
  compute_truck_perf df = Some truck_perf → p ∈ truck_perf →
  let g := group (perf_truck_name p) df in
  let totals := omap total g in
  (revenue p == Qsum totals)%Q ∧
  (transactions p ≤ length g)%nat ∧
  match avg_sale p with
  | Some a =>
      totals ≠ [] ∧ (a * inject_Z (Z.of_nat (length totals)) == revenue p)%Q
  | None => totals = [] ∧ (revenue p == 0)%Q
  end.
Proof.
  intros Hperf Hp. cbn zeta.
  destruct (compute_truck_perf_row _ _ _ Hperf Hp) as [_ Hrow].
  apply truck_perf_row_Some in Hrow as (_ & -> & -> & -> & _).
  set (g := group (perf_truck_name p) df). split_and!.
  - apply sum_total_omap.
  - unfold nunique. etrans; [apply length_remove_dups | apply length_omap].
  - unfold mean_total. pose proof (sum_total_omap g) as Hsum.
    destruct (omap total g) as [|q qs] eqn:Hts; [done|].
    split; [done|]. rewrite Hsum. fold (Qsum (q :: qs)).
    field. intros Heq. unfold Qeq in Heq. cbn [Qnum Qden inject_Z] in Heq.
    cbn [length] in Heq. lia.
Qed.

Lemma truck_perf_rows_witness :
  let df := Samples.four_trucks in
  let p := default (mkTruckPerf EmptyString 0 0 None 0)
             (head Samples.four_trucks_perf) in
  compute_truck_perf df = Some Samples.four_trucks_perf ∧
  p ∈ Samples.four_trucks_perf ∧
  let g := group (perf_truck_name p) df in
  let totals := omap total g in
  (revenue p == Qsum totals)%Q ∧
  (transactions p ≤ length g)%nat ∧
  match avg_sale p with
  | Some a =>
      totals ≠ [] ∧ (a * inject_Z (Z.of_nat (length totals)) == revenue p)%Q
  | None => totals = [] ∧ (revenue p == 0)%Q
  end.
Proof.
  cbn zeta.
  assert (default (mkTruckPerf EmptyString 0 0 None 0)
            (head Samples.four_trucks_perf)
          ∈ Samples.four_trucks_perf) as Hp.
  { apply (list_elem_of_lookup_2 _ 0%nat). vm_compute. reflexivity. }
  split; [exact four_trucks_aggregated|]. split; [exact Hp|].
  exact (truck_perf_rows _ _ _ four_trucks_aggregated Hp).
Defined.

End PerfFacts.

Module BuildMetricsFacts.
Import Py DailyReport ReportFacts MetricsFacts SortingFacts.

(** *** Missing aggregates *)

Lemma py_float_or_default x d : is_Some (py_float (or_default x d)).
Proof.
  destruct x as [| |q]; simpl; [by eexists..|].
  destruct (Qeq_bool q 0); by eexists.
Qed.

Lemma py_int_or_default_num q d : is_Some (py_int (or_default (SNum q) d)).
Proof. simpl. destruct (Qeq_bool q 0); by eexists. Qed.

(** Property X5. A [NaN] in the first row of the overall result is truthy,
    so the [or] of lines 119-126 does not replace it by the default: a [NaN]
    transaction count makes [int] raise, and a [NaN] sum is carried into the
    metrics and rendered as [£nan]. A missing ([None]) sum is replaced by 0. *)
Theorem nan_aggregates_reported :
  (∀ total avg rest by_truck pm_df day now_utc,
     build_metrics (mkOverallRow SNaN total avg :: rest) by_truck pm_df day
       now_utc = None) ∧
  (∀ q avg rest by_truck pm_df day now_utc,
     ∃ m, build_metrics (mkOverallRow (SNum q) SNaN avg :: rest) by_truck
            pm_df day now_utc = Some m ∧
          total_transaction_value_gbp m = Nan ∧
          contains "£nan" (render_html_report m) = true) ∧
  (∀ q avg rest by_truck pm_df day now_utc,
     ∃ m, build_metrics (mkOverallRow (SNum q) SNone avg :: rest) by_truck
            pm_df day now_utc = Some m ∧
          (∃ g, total_transaction_value_gbp m = Fin g ∧ (g == 0)%Q) ∧
          fmt_gbp (total_transaction_value_gbp m) = "£0.00").
Proof.
  split_and!.
  - done.
  - intros q avg rest by_truck pm_df day now_utc. unfold build_metrics.
    cbv beta zeta iota. cbn [o_n_transactions].
    destruct (py_int_or_default_num q 0) as [n ->].
    destruct (py_float_or_default avg 0) as [a Ha].
    cbn [o_total_pence o_avg_customer_spend_pence or_default py_float
         mbind option_bind]. rewrite Ha. cbn [mbind option_bind].
    eexists. split; [reflexivity|]. split; [reflexivity|].
    unfold render_html_report.
    cbn [report_date generated_at total_transaction_value_gbp gbp_from_pence].
    do 7 apply contains_app_r. apply contains_app_l. vm_compute. reflexivity.
  - intros q avg rest by_truck pm_df day now_utc. unfold build_metrics.
    cbv beta zeta iota. cbn [o_n_transactions].
    destruct (py_int_or_default_num q 0) as [n ->].
    destruct (py_float_or_default avg 0) as [a Ha].
    cbn [o_total_pence o_avg_customer_spend_pence or_default py_float
         mbind option_bind]. rewrite Ha. cbn [mbind option_bind].
    eexists. split; [reflexivity|]. split; [|reflexivity].
    eexists. split; [reflexivity|]. vm_compute. reflexivity.
Qed.

(** *** Highlights *)

Lemma by_revenue_desc_spec a b :
  by_revenue_desc a b = true ↔
  (total_gbp b < total_gbp a)%Q ∨
  ((total_gbp a == total_gbp b)%Q ∧ (n_transactions b ≤ n_transactions a)%Z).
Proof.
  unfold by_revenue_desc.
  rewrite orb_true_iff, andb_true_iff, negb_true_iff, Qeq_bool_iff, Z.leb_le.
  rewrite <- not_true_iff_false, Qle_bool_iff. split.
  - intros [Hlt|H]; [left; by apply Qnot_le_lt | by right].
  - intros [Hlt|H]; [left; by apply Qlt_not_le | by right].
Qed.

Lemma by_revenue_desc_total a b :
  by_revenue_desc a b = false → by_revenue_desc b a = true.
Proof.
  rewrite <- not_true_iff_false, !by_revenue_desc_spec. intros Hab.
  destruct (Q_dec (total_gbp a) (total_gbp b)) as [[Hlt|Hgt]|Heq].
  - by left.
  - exfalso. apply Hab. by left.
  - right. split; [by symmetry|].
    destruct (decide (n_transactions a ≤ n_transactions b)%Z); [done|].
    exfalso. apply Hab. right. split; [done|lia].
Qed.

Lemma by_revenue_desc_trans a b c :
  by_revenue_desc a b = true → by_revenue_desc b c = true →
  by_revenue_desc a c = true.
Proof.
  rewrite !by_revenue_desc_spec.
  intros [Hab|[Hab Hn]] [Hbc|[Hbc Hn']].
  - left. lra.
  - left. lra.
  - left. lra.
  - right. split; [lra|lia].
Qed.

Lemma by_transactions_desc_total a b :
  by_transactions_desc a b = false → by_transactions_desc b a = true.
Proof. unfold by_transactions_desc. rewrite Z.leb_gt, Z.leb_le. lia. Qed.

Lemma by_transactions_desc_trans a b c :
  by_transactions_desc a b = true → by_transactions_desc b c = true →
  by_transactions_desc a c = true.
Proof. unfold by_transactions_desc. rewrite !Z.leb_le. lia. Qed.

Lemma build_metrics_by_truck overall_df by_truck pm_df day now_utc m :
  build_metrics overall_df by_truck pm_df day now_utc = Some m →
  by_truck_df m = Pd.sort_values by_revenue_desc (by_truck_row <$> by_truck) ∧
  top_truck_by_revenue m = highlight <$> head (by_truck_df m) ∧
  lowest_truck_by_revenue m = highlight <$> last (by_truck_df m) ∧
  top_truck_by_transactions m =
    highlight <$> head (Pd.sort_values by_transactions_desc (by_truck_df m)).
Proof.
  unfold build_metrics. cbv beta zeta.
  destruct (py_int _); cbn [mbind option_bind]; [|done].
  destruct overall_df as [|r rest].
  - destruct (py_float_or_default (SNum 0) 0) as [a ->].
    cbn [mbind option_bind]. by intros [= <-].
  - destruct (py_float_or_default (o_total_pence r) 0) as [a ->].
    destruct (py_float_or_default (o_avg_customer_spend_pence r) 0) as [b ->].
    cbn [mbind option_bind]. by intros [= <-].
Qed.

(** Property X6. The by-truck table holds the rows of the query result, each
    once, ordered by pounds taken, the largest first, and among equal
    takings by transaction count. The three highlights are read from it: the
    top truck by revenue takes at least as much as any truck, the lowest at
    most as much, and the top truck by transactions has at least as many
    transactions as any truck. With no row the highlights are absent. *)
Theorem highlights_are_extremes overall_df by_truck pm_df day now_utc m :
  build_metrics overall_df by_truck pm_df day now_utc = Some m →
  by_truck_df m ≡ₚ by_truck_row <$> by_truck ∧
  StronglySorted (λ a b, by_revenue_desc a b = true) (by_truck_df m) ∧
  match by_truck with
  | [] =>
      top_truck_by_revenue m = None ∧ lowest_truck_by_revenue m = None ∧
      top_truck_by_transactions m = None
  | _ =>
      ∃ top low busy,
        top_truck_by_revenue m = Some top ∧
        lowest_truck_by_revenue m = Some low ∧
        top_truck_by_transactions m = Some busy ∧
        ∀ r, r ∈ by_truck_df m →
          (total_gbp r <= h_total_gbp top)%Q ∧
          (h_total_gbp low <= total_gbp r)%Q ∧
          (n_transactions r ≤ h_n_transactions busy)%Z
  end.
Proof.
  intros (Hdf & Htop & Hlow & Hbusy)%build_metrics_by_truck.
  rewrite Htop, Hlow, Hbusy, Hdf. clear Htop Hlow Hbusy Hdf.
  set (rows := by_truck_row <$> by_truck).
  pose proof (sort_values_perm by_revenue_desc rows) as Hperm.
  split; [done|]. split.
  { apply sort_values_sorted;
      [apply by_revenue_desc_total | apply by_revenue_desc_trans]. }
  destruct by_truck as [|r0 by_truck]; [done|].
  set (sorted := Pd.sort_values by_revenue_desc rows) in *.
  pose proof (sort_values_perm by_transactions_desc sorted) as Hperm'.
  destruct (head sorted) as [top|] eqn:Htop.
  2:{ apply head_None in Htop. rewrite Htop in Hperm.
      by apply Permutation_nil_l in Hperm. }
  destruct (last sorted) as [low|] eqn:Hlow.
  2:{ apply last_None in Hlow. rewrite Hlow in Hperm.
      by apply Permutation_nil_l in Hperm. }
  destruct (head (Pd.sort_values by_transactions_desc sorted)) as [busy|] eqn:Hbusy.
  2:{ apply head_None in Hbusy. rewrite Hbusy in Hperm'.
      apply Permutation_nil_l in Hperm'. by rewrite <- Hperm' in Htop. }
  exists (highlight top), (highlight low), (highlight busy).
  split_and!; [done..|]. intros r Hr. cbn [highlight h_total_gbp h_n_transactions].
  split_and!.
  - destruct (sorted_head_le by_revenue_desc by_revenue_desc_total
                by_revenue_desc_trans rows top r Htop) as [->|Hle].
    { by rewrite <- Hperm. }
    { apply Qle_refl. }
    apply by_revenue_desc_spec in Hle as [Hlt|[Heq _]]; lra.
  - destruct (sorted_last_le by_revenue_desc by_revenue_desc_total
                by_revenue_desc_trans rows low r Hlow) as [->|Hle].
    { by rewrite <- Hperm. }
    { apply Qle_refl. }
    apply by_revenue_desc_spec in Hle as [Hlt|[Heq _]]; lra.
  - destruct (sorted_head_le by_transactions_desc by_transactions_desc_total
                by_transactions_desc_trans sorted busy r Hbusy) as [->|Hle];
      [done|lia|].
    unfold by_transactions_desc in Hle. apply Z.leb_le in Hle. lia.
Qed.

Lemma highlights_are_extremes_witness :
  ∃ m, Cases.day_metrics = Some m ∧
    by_truck_df m ≡ₚ by_truck_row <$> Cases.day_trucks ∧
    StronglySorted (λ a b, by_revenue_desc a b = true) (by_truck_df m) ∧
    ∃ top low busy,
      top_truck_by_revenue m = Some top ∧
      lowest_truck_by_revenue m = Some low ∧
      top_truck_by_transactions m = Some busy ∧
      ∀ r, r ∈ by_truck_df m →
        (total_gbp r <= h_total_gbp top)%Q ∧
        (h_total_gbp low <= total_gbp r)%Q ∧
        (n_transactions r ≤ h_n_transactions busy)%Z.
Proof.
  destruct Cases.day_metrics as [m|] eqn:Hm; [|vm_compute in Hm; discriminate].
  exists m. split; [reflexivity|]. unfold Cases.day_metrics in Hm.
  exact (highlights_are_extremes _ _ _ _ _ _ Hm).
Defined.

(** The highlights of the sample day: the truck that took most, the one
    that took least, and the busiest one. *)
Lemma day_highlights :
  (λ m, (h_truck_name <$> top_truck_by_revenue m,
         h_truck_name <$> lowest_truck_by_revenue m,
         h_truck_name <$> top_truck_by_transactions m)) <$> Cases.day_metrics
  = Some (Some "Burrito Madness", Some "Yoghurt Heaven", Some "Kings of Kebabs").
Proof. vm_compute. reflexivity. Qed.

End BuildMetricsFacts.

Module NumbersFacts.
Import Py DailyReport ReportFacts.

(** *** Rounding to pence *)

Lemma round_half_even_near q :
  (- (1 # 2) <= inject_Z (round_half_even q) - q)%Q ∧
  (inject_Z (round_half_even q) - q <= 1 # 2)%Q.
Proof.
  unfold round_half_even. set (f := Qfloor q).
  pose proof (Qfloor_le q) as Hlo. pose proof (Qlt_floor q) as Hhi.
  fold f in Hlo, Hhi. rewrite inject_Z_plus in Hhi.
  change (inject_Z 1) with 1%Q in Hhi.
  destruct (Qcompare_spec (q - inject_Z f) (1 # 2)) as [Heq|Hlt|Hgt].
  - destruct (Z.even f); rewrite ?inject_Z_plus;
      change (inject_Z 1) with 1%Q; split; lra.
  - split; lra.
  - rewrite inject_Z_plus. change (inject_Z 1) with 1%Q. split; lra.
Qed.

Lemma round2_near q :
  (round2 q == inject_Z (round_half_even (q * 100)) / 100)%Q ∧
  (Qabs (round2 q - q) <= 1 # 200)%Q.
Proof.
  split; [reflexivity|]. unfold round2.
  destruct (round_half_even_near (q * 100)) as [Hlo Hhi].
  apply Qabs_Qle_condition. unfold Qdiv.
  change (/ 100)%Q with (1 # 100)%Q. split; lra.
Qed.

(** Property X7. Pounds are pence over 100, rounded to whole pence: the
    pound figure is a whole number of pence and lies within half a penny of
    the exact quotient; [nan] stays [nan]. The same holds for the two pound
    columns of the by-truck table, where a missing figure counts as 0. *)
Theorem pounds_to_the_penny :
  (∀ q, ∃ g z, gbp_from_pence (Fin q) = Fin g ∧
               (g == inject_Z z / 100)%Q ∧ (Qabs (g - q / 100) <= 1 # 200)%Q) ∧
  gbp_from_pence Nan = Nan ∧
  (∀ r, let b := by_truck_row r in
        total_pence b = numeric_or_zero (r_total_pence r) ∧
        (∃ z, (total_gbp b == inject_Z z / 100)%Q) ∧
        (Qabs (total_gbp b - total_pence b / 100) <= 1 # 200)%Q ∧
        (∃ z, (avg_customer_spend_gbp b == inject_Z z / 100)%Q) ∧
        (Qabs (avg_customer_spend_gbp b - avg_customer_spend_pence b / 100)
         <= 1 # 200)%Q).
Proof.
  split_and!.
  - intros q. eexists _, _. split; [reflexivity|].
    set (q' := if Qeq_bool q 0 then 0%Q else q).
    assert (q' == q)%Q as Hq.
    { unfold q'. destruct (Qeq_bool q 0) eqn:H0; [|reflexivity].
      apply Qeq_bool_iff in H0. by symmetry. }
    destruct (round2_near (q' / 100)) as [Hz Hnear].
    split; [exact Hz|]. by rewrite <- Hq.
  - done.
  - intros r. cbn zeta.
    cbn [by_truck_row total_pence total_gbp avg_customer_spend_gbp
         avg_customer_spend_pence].
    split; [done|].
    destruct (round2_near (numeric_or_zero (r_total_pence r) / 100)) as [Hz Hn].
    destruct (round2_near (numeric_or_zero (r_avg_customer_spend_pence r) / 100))
      as [Hz' Hn'].
    split_and!; [by eexists | done | by eexists | done].
Qed.

(** *** Thousands separators *)

Lemma pretty_N_char_no_comma x : pretty_N_char x ≠ ","%char.
Proof. unfold pretty_N_char. by repeat case_match. Qed.

Lemma pretty_N_go_no_comma x s :
  Forall (λ c, c ≠ ","%char) (list_ascii_of_string s) →
  Forall (λ c, c ≠ ","%char) (list_ascii_of_string (pretty_N_go x s)).
Proof.
  revert s. induction (N.lt_wf_0 x) as [x _ IH]; intros s Hs.
  assert (x = 0 ∨ 0 < x)%N as [->|Hpos] by lia.
  - by rewrite pretty_N_go_0.
  - rewrite pretty_N_go_step by done. apply IH.
    + by apply N.div_lt.
    + cbn [list_ascii_of_string]. constructor; [|done].
      apply pretty_N_char_no_comma.
Qed.

Lemma pretty_abs_no_comma z :
  Forall (λ c, c ≠ ","%char) (list_ascii_of_string (pretty (Z.abs z))).
Proof.
  assert (∀ p, Forall (λ c, c ≠ ","%char)
                 (list_ascii_of_string (pretty (Z.pos p)))) as Hpos.
  { intros p. unfold pretty, pretty_Z, pretty, pretty_positive, pretty, pretty_N.
    rewrite decide_False by done. apply pretty_N_go_no_comma. constructor. }
  destruct z as [|p|p]; cbn [Z.abs]; [|apply Hpos..].
  repeat constructor; discriminate.
Qed.

Lemma filter_group3 n l :
  Forall (λ c, c ≠ ","%char) l →
  List.filter (λ a, negb (Ascii.eqb a ",")) (group3 n l) = l.
Proof.
  intros Hl. revert n. induction Hl as [|d l Hd Hl IH]; intros n; [done|].
  assert (Ascii.eqb d "," = false) as Hd' by by apply Ascii.eqb_neq.
  cbn [group3].
  destruct n as [|[|[|[|n]]]]; cbn [List.filter Ascii.eqb negb];
    rewrite ?Hd'; cbn [negb]; by rewrite IH.
Qed.

Lemma replace_empty_filter c s :
  list_ascii_of_string (replace c EmptyString s)
  = List.filter (λ a, negb (Ascii.eqb a c)) (list_ascii_of_string s).
Proof.
  induction s as [|a s IH]; [done|]. cbn [replace list_ascii_of_string List.filter].
  destruct (Ascii.eqb a c); cbn [negb]; [exact IH|].
  change (String a EmptyString ++ ?x) with (String a x).
  cbn [list_ascii_of_string]. by rewrite IH.
Qed.

Lemma replace_no_comma s :
  Forall (λ c, c ≠ ","%char) (list_ascii_of_string s) →
  replace "," EmptyString (with_commas s) = s.
Proof.
  intros Hs. rewrite <- (string_of_list_ascii_of_string (replace _ _ _)).
  rewrite replace_empty_filter. unfold with_commas.
  rewrite list_ascii_of_string_of_list_ascii, List.filter_rev.
  rewrite filter_group3 by by apply Forall_rev.
  by rewrite rev_involutive, string_of_list_ascii_of_string.
Qed.

(** Where the separators stand, counting from the right end: the state
    [n] is the number of digits written since the last separator. *)
Lemma group3_commas n l i c :
  Forall (λ c, c ≠ ","%char) l → (n ≤ 3)%nat →
  group3 n l !! i = Some c → (c = ","%char ↔ (i + n) mod 4 = 3)%nat.
Proof.
  intros Hl. revert n i. induction Hl as [|d l Hd Hl IH]; intros n i Hn; [done|].
  cbn [group3]. destruct n as [|[|[|[|n]]]]; try lia.
  - destruct i as [|i]; cbn [lookup list_lookup].
    + intros [= <-]. split; [done|]. by rewrite Nat.add_0_r.
    + intros Hc. rewrite (IH 1%nat i) by (done || lia).
      by replace (S i + 0)%nat with (i + 1)%nat by lia.
  - destruct i as [|i]; cbn [lookup list_lookup].
    + intros [= <-]. split; [done|]. done.
    + intros Hc. rewrite (IH 2%nat i) by (done || lia).
      by replace (S i + 1)%nat with (i + 2)%nat by lia.
  - destruct i as [|i]; cbn [lookup list_lookup].
    + intros [= <-]. split; [done|]. done.
    + intros Hc. rewrite (IH 3%nat i) by (done || lia).
      by replace (S i + 2)%nat with (i + 3)%nat by lia.
  - destruct i as [|[|i]]; cbn [lookup list_lookup].
    + by intros [= <-].
    + intros [= <-]. split; [done|]. done.
    + intros Hc. rewrite (IH 1%nat i) by (done || lia).
      replace (S (S i) + 3)%nat with (i + 1 + 1 * 4)%nat by lia.
      by rewrite Nat.Div0.mod_add.
Qed.

(** Property X8. [fmt_int] only inserts separators: without them the text is
    the plain decimal numeral; and, counting the characters of the digits
    part from the right, the separators stand at every fourth place and
    nowhere else. *)
Theorem fmt_int_separators (value : Z) :
  replace "," EmptyString (fmt_int value) = pretty value ∧
  ∀ i c,
    rev (list_ascii_of_string (with_commas (pretty (Z.abs value)))) !! i = Some c →
    (c = ","%char ↔ i mod 4 = 3)%nat.
Proof.
  split.
  - unfold fmt_int. rewrite replace_app.
    rewrite (replace_no_comma _ (pretty_abs_no_comma value)).
    destruct value as [|p|p]; done.
  - intros i c. unfold with_commas.
    rewrite list_ascii_of_string_of_list_ascii, rev_involutive. intros Hc.
    pose proof (group3_commas 0 _ i c
                  (Forall_rev (pretty_abs_no_comma value)) ltac:(lia) Hc) as H.
    by rewrite Nat.add_0_r in H.
Qed.

Lemma fmt_int_samples :
  fmt_int 0 = "0" ∧ fmt_int 999 = "999" ∧ fmt_int 1000 = "1,000" ∧
  fmt_int 1234567 = "1,234,567" ∧ fmt_int (-1234) = "-1,234".
Proof. vm_compute. done. Qed.

End NumbersFacts.

Module CaseFacts.
Import Py PyFacts.

(** *** Case mapping and blanks *)

Lemma is_space_lower_char c : is_space (lower_char c) = is_space c.
Proof. destruct c as [[] [] [] [] [] [] [] []]; reflexivity. Qed.

Lemma lower_char_idem c : lower_char (lower_char c) = lower_char c.
Proof. destruct c as [[] [] [] [] [] [] [] []]; reflexivity. Qed.

Lemma lower_idem s : lower (lower s) = lower s.
Proof.
  induction s as [|c s IH]; [done|]. unfold lower in *. cbn [map_chars].
  by rewrite lower_char_idem, IH.
Qed.

Lemma lstrip_lower s : lstrip (lower s) = lower (lstrip s).
Proof.
  induction s as [|c s IH]; [done|]. unfold lower in *. cbn [map_chars lstrip].
  rewrite is_space_lower_char. by destruct (is_space c).
Qed.

Lemma rstrip_lower s : rstrip (lower s) = lower (rstrip s).
Proof.
  induction s as [|c s IH]; [done|]. unfold lower in *. cbn [map_chars rstrip].
  rewrite IH, is_space_lower_char.
  destruct (rstrip s); cbn [map_chars]; [by destruct (is_space c)|done].
Qed.

Lemma strip_lower s : strip (lower s) = lower (strip s).
Proof. unfold strip. by rewrite rstrip_lower, lstrip_lower. Qed.

End CaseFacts.

Module DashboardFacts.
Import Py PyFacts CaseFacts RowSteps RowStepsFacts TransformFacts
  IdempotenceFacts Dashboard.

Section Base.
Context `{Parsers}.

(** *** clean_base_df, row by row *)

Lemma clean_base_df_Some df out :
  clean_base_df df = Some out ↔
  forallb (λ c, has_column c (columns df)) base_cols = true ∧
  out = {| columns := columns df; rows := omap (run base_steps) (rows df) |}.
Proof.
  unfold clean_base_df.
  destruct (forallb _ base_cols); cbn [negb]; [|by split; [|intros [? _]]].
  cbn [foldl required_cols].
  rewrite !assign_omap, !keep_omap, !omap_run_app. cbn [app].
  split; [by intros [= <-] | by intros [_ ->]].
Qed.

Lemma clean_base_df_row df out r :
  clean_base_df df = Some out → r ∈ rows out →
  ∃ r0, r0 ∈ rows df ∧ run base_steps r0 = Some r.
Proof.
  intros [_ ->]%clean_base_df_Some. cbn [rows].
  intros (r0 & Hr0 & Hrun)%list_elem_of_omap. eauto.
Qed.

Lemma to_datetime_cases v :
  Pd.to_datetime v = NA ∨ ∃ t, Pd.to_datetime v = Time t.
Proof.
  destruct v as [|s|q| |]; simpl; eauto.
  - destruct (to_datetime_str s); eauto.
  - destruct (to_datetime_num q); eauto.
Qed.

Lemma total_after_base v v' :
  cell_after "total" base_steps v = Some v' →
  ∃ q, Pd.num_value (Pd.to_numeric v) = Some q ∧ v' = Num (q / 100) ∧
       (0 < q / 100)%Q.
Proof.
  cbn. unfold pence_to_pounds.
  destruct (Pd.num_value (Pd.to_numeric v)) as [q|]; cbn; [|intros [=]].
  destruct (negb (Qle_bool (q / 100) 0)) eqn:Hq; cbn; [|intros [=]].
  intros [= <-]. exists q. split_and!; [done..|]. by apply gt0_Num.
Qed.

Lemma truck_name_after_base v v' :
  cell_after "truck_name" base_steps v = Some v' →
  ∃ s, v' = Str s ∧ strip s = s.
Proof.
  cbn. destruct v as [|s|q|b|t]; cbn; [done|..]; intros [= <-];
    eexists; (split; [reflexivity|apply strip_idem]).
Qed.

Lemma payment_method_after_base v v' :
  cell_after "payment_method" base_steps v = Some v' →
  v' = NA ∨ ∃ s, v' = Str s ∧ strip s = s ∧ lower s = s.
Proof.
  cbn. destruct v as [|s|q|b|t]; cbn; intros [= <-]; [by left|..]; right;
    eexists; (split; [reflexivity|]);
    by rewrite strip_lower, strip_idem, lower_idem.
Qed.

Lemma time_after_base c v v' :
  c = "day_dt" ∨ c = "hour_ts" →
  cell_after c base_steps v = Some v' → ∃ t, v' = Time t.
Proof.
  intros [-> | ->]; cbn;
    destruct (to_datetime_cases v) as [->|[t ->]]; cbn; try done;
    intros [= <-]; eauto.
Qed.

(** The cells of a row of the cleaned base frame. *)
Lemma base_row_cells df out r :
  clean_base_df df = Some out → r ∈ rows out →
  columns out = columns df ∧
  (∃ r0 q, r0 ∈ rows df ∧
           Pd.num_value (Pd.to_numeric (cell "total" r0)) = Some q ∧
           r !! "total" = Some (Num (q / 100)) ∧ (0 < q / 100)%Q) ∧
  (∃ s, r !! "truck_name" = Some (Str s) ∧ strip s = s) ∧
  (∃ t, r !! "day_dt" = Some (Time t)) ∧
  (∃ t, r !! "hour_ts" = Some (Time t)) ∧
  (r !! "payment_method" = Some NA ∨
   ∃ s, r !! "payment_method" = Some (Str s) ∧ strip s = s ∧ lower s = s).
Proof.
  intros Hclean Hr.
  destruct (clean_base_df_row _ _ _ Hclean Hr) as (r0 & Hr0 & Hrun).
  apply clean_base_df_Some in Hclean as [_ ->]. split; [done|].
  split_and!.
  - destruct (total_after_base _ _ (run_cell "total" _ _ _ Hrun))
      as (q & Hq & Hv & Hpos).
    exists r0, q. split_and!; [done..| |done].
    rewrite (run_lookup "total" _ _ _ Hrun). cbn. by rewrite Hv.
  - destruct (truck_name_after_base _ _ (run_cell "truck_name" _ _ _ Hrun))
      as (s & Hv & Hs).
    exists s. split; [|done].
    rewrite (run_lookup "truck_name" _ _ _ Hrun). cbn. by rewrite Hv.
  - destruct (time_after_base "day_dt" _ _ (or_introl eq_refl)
                (run_cell "day_dt" _ _ _ Hrun)) as (t & Hv).
    exists t. rewrite (run_lookup "day_dt" _ _ _ Hrun). cbn. by rewrite Hv.
  - destruct (time_after_base "hour_ts" _ _ (or_intror eq_refl)
                (run_cell "hour_ts" _ _ _ Hrun)) as (t & Hv).
    exists t. rewrite (run_lookup "hour_ts" _ _ _ Hrun). cbn. by rewrite Hv.
  - rewrite (run_lookup "payment_method" _ _ _ Hrun). cbn.
    destruct (payment_method_after_base _ _
                (run_cell "payment_method" _ _ _ Hrun)) as [->|(s & -> & ?)];
      eauto.
Qed.

(** Property X9. Every row [clean_base_df] returns has a total in pounds, a
    hundredth of the number read from the raw cell, and greater than 0; a
    truck name that is text without blanks at either end; parsed [day_dt]
    and [hour_ts]; and a payment method that is missing or stripped
    lowercase text. The columns are those of the input. *)
Theorem clean_base_df_rows df out r :
  clean_base_df df = Some out → r ∈ rows out →
  columns out = columns df ∧
  (∃ r0 q, r0 ∈ rows df ∧
           Pd.num_value (Pd.to_numeric (cell "total" r0)) = Some q ∧
           r !! "total" = Some (Num (q / 100)) ∧ (0 < q / 100)%Q) ∧
  (∃ s, r !! "truck_name" = Some (Str s) ∧ strip s = s) ∧
  (∃ t, r !! "day_dt" = Some (Time t)) ∧
  (∃ t, r !! "hour_ts" = Some (Time t)) ∧
  (r !! "payment_method" = Some NA ∨
   ∃ s, r !! "payment_method" = Some (Str s) ∧ strip s = s ∧ lower s = s).
Proof. apply base_row_cells. Qed.

(** *** Cleaning a cleaned base frame *)

Lemma run_cons_fixed s ss (r : Row) :
  exec s r = Some r → run (s :: ss) r = run ss r.
Proof. intros Hs. cbn [run]. by rewrite Hs. Qed.

Lemma exec_set_cell_fixed c f (r : Row) v :
  r !! c = Some v → f v = v → exec (set_cell c f) r = Some r.
Proof.
  intros Hv Hf. unfold set_cell. cbn [exec]. unfold cell, compose. rewrite Hv.
  cbn [default mbind option_bind]. change (f (id v)) with (f v).
  by rewrite Hf, insert_id.
Qed.

Lemma exec_chk_pass p c (r : Row) v :
  r !! c = Some v → p v = true → exec (Chk p c) r = Some r.
Proof. intros Hv Hp. cbn [exec]. unfold cell. by rewrite Hv; cbn; rewrite Hp. Qed.

Lemma omap_fmap_Some {A B} (f : A → option B) (g : A → B) (l : list A) :
  (∀ x, x ∈ l → f x = Some (g x)) → omap f l = g <$> l.
Proof.
  induction l as [|x l IH]; intros Hf; [done|].
  cbn [omap list_omap]. rewrite (Hf x) by by left.
  rewrite fmap_cons. f_equal. apply IH. intros y Hy. apply Hf. by right.
Qed.

(** Property X10. [clean_base_df] is not idempotent: applied to its own
    result it keeps every row and every other cell, and divides each total
    by 100 once more. *)
Theorem clean_base_df_twice df out :
  clean_base_df df = Some out →
  clean_base_df out =
    Some {| columns := columns out;
            rows := (λ r, <["total" := pence_to_pounds (cell "total" r)]> r)
                      <$> rows out |} ∧
  ∀ r, r ∈ rows out →
       ∃ q, cell "total" r = Num q ∧
            pence_to_pounds (cell "total" r) = Num (q / 100).
Proof.
  intros Hclean.
  assert (∀ r, r ∈ rows out →
            ∃ q, cell "total" r = Num q ∧ (0 < q)%Q ∧
                 pence_to_pounds (cell "total" r) = Num (q / 100)) as Htotal.
  { intros r Hr.
    destruct (base_row_cells _ _ _ Hclean Hr)
      as (_ & (r0 & q & _ & _ & Hq & Hpos) & _).
    exists (q / 100)%Q. unfold cell. rewrite Hq. by cbn. }
  split.
  2:{ intros r Hr. destruct (Htotal r Hr) as (q & ? & _ & ?). eauto. }
  apply clean_base_df_Some. split.
  { apply clean_base_df_Some in Hclean as [Hcols ->]. exact Hcols. }
  f_equal. symmetry. apply omap_fmap_Some. intros r Hr.
  destruct (Htotal r Hr) as (q & Hq & Hpos & Hq').
  destruct (base_row_cells _ _ _ Hclean Hr)
    as (_ & _ & (s & Hs & Hstrip) & (d & Hd) & (h & Hh) & Hpm).
  rewrite Hq'. unfold base_steps.
  set (r1 := <["total" := Num (q / 100)]> r).
  assert (run [set_cell "total" pence_to_pounds] r = Some r1) as Hfirst.
  { unfold set_cell. cbn [run exec]. unfold compose.
    cbn [mbind option_bind]. by rewrite Hq'. }
  change (run (?s :: ?ss) r) with (run [s] r ≫= run ss).
  rewrite Hfirst. cbn [mbind option_bind].
  assert (0 < q / 100)%Q as Hpos'.
  { apply Qlt_shift_div_l; [done|]. by rewrite Qmult_0_l. }
  rewrite run_cons_fixed.
  2:{ apply (exec_set_cell_fixed _ _ _ (Str s)).
      - by unfold r1; rewrite lookup_insert_ne.
      - cbn. by rewrite Hstrip. }
  rewrite run_cons_fixed.
  2:{ destruct Hpm as [Hpm|(m & Hpm & Hms & Hml)].
      - apply (exec_set_cell_fixed _ _ _ NA); [by unfold r1; rewrite lookup_insert_ne|done].
      - apply (exec_set_cell_fixed _ _ _ (Str m)); [by unfold r1; rewrite lookup_insert_ne|].
        cbn. by rewrite Hms, Hml. }
  rewrite run_cons_fixed.
  2:{ apply (exec_set_cell_fixed _ _ _ (Time d)); [by unfold r1; rewrite lookup_insert_ne|done]. }
  rewrite run_cons_fixed.
  2:{ apply (exec_set_cell_fixed _ _ _ (Time h)); [by unfold r1; rewrite lookup_insert_ne|done]. }
  rewrite run_cons_fixed.
  2:{ apply (exec_chk_pass _ _ _ (Num (q / 100))); [by unfold r1; rewrite lookup_insert_eq|done]. }
  rewrite run_cons_fixed.
  2:{ apply (exec_chk_pass _ _ _ (Str s)); [by unfold r1; rewrite lookup_insert_ne|done]. }
  rewrite run_cons_fixed.
  2:{ apply (exec_chk_pass _ _ _ (Time d)); [by unfold r1; rewrite lookup_insert_ne|done]. }
  rewrite run_cons_fixed.
  2:{ apply (exec_chk_pass _ _ _ (Time h)); [by unfold r1; rewrite lookup_insert_ne|done]. }
  rewrite run_cons_fixed; [done|].
  apply (exec_chk_pass _ _ _ (Num (q / 100))); [by unfold r1; rewrite lookup_insert_eq|].
  unfold Pd.gt0. cbn [Pd.num_value]. apply negb_true_iff.
  apply not_true_iff_false. rewrite Qle_bool_iff. by apply Qlt_not_le.
Qed.

End Base.

(** *** Filters *)

Lemma select_in_Some c selection df :
  c ∈ columns df →
  select_in c selection df =
    Some {| columns := columns df;
            rows := List.filter
                      (λ r, bool_decide (selection = []) ||
                            Pd.isin_str selection (cell c r)) (rows df) |}.
Proof.
  intros Hc. unfold select_in. destruct selection as [|s sel].
  - rewrite filter_all_true by done. by destruct df.
  - unfold has_column. rewrite bool_decide_true by done. done.
Qed.

Lemma filter_filter {A} (p q : A → bool) (l : list A) :
  List.filter q (List.filter p l) = List.filter (λ x, p x && q x) l.
Proof.
  induction l as [|x l IH]; [done|]. cbn [List.filter].
  destruct (p x); cbn [List.filter andb]; [|done].
  destruct (q x); by rewrite IH.
Qed.

(** Property X11. [apply_filters] keeps, in order, the rows whose payment
    method and truck name are among the selected ones; an empty selection
    restricts nothing, and a missing label is never among the selected.
    Filtering the result again with the same selections changes nothing. *)
Theorem apply_filters_rows df payment_filter selected_trucks :
  "payment_method" ∈ columns df → "truck_name" ∈ columns df →
  let selected r :=
    (bool_decide (payment_filter = []) ||
     Pd.isin_str payment_filter (cell "payment_method" r)) &&
    (bool_decide (selected_trucks = []) ||
     Pd.isin_str selected_trucks (cell "truck_name" r)) in
  let out := {| columns := columns df;
                rows := List.filter selected (rows df) |} in
  apply_filters df payment_filter selected_trucks = Some out ∧
  apply_filters out payment_filter selected_trucks = Some out ∧
  (∀ r, r ∈ rows out → selected_trucks ≠ [] →
        ∃ s, cell "truck_name" r = Str s ∧ s ∈ selected_trucks).
Proof.
  intros Hpm Htn. cbn zeta.
  assert (∀ df', columns df' = columns df →
            apply_filters df' payment_filter selected_trucks =
            Some {| columns := columns df;
                    rows := List.filter
                      (λ r, (bool_decide (payment_filter = []) ||
                             Pd.isin_str payment_filter (cell "payment_method" r)) &&
                            (bool_decide (selected_trucks = []) ||
                             Pd.isin_str selected_trucks (cell "truck_name" r)))
                      (rows df') |}) as Hgen.
  { intros df' Hcols. unfold apply_filters.
    rewrite select_in_Some by by rewrite Hcols. cbn [mbind option_bind].
    rewrite select_in_Some by by rewrite Hcols.
    cbn [columns rows]. by rewrite filter_filter, Hcols. }
  split_and!.
  - by apply Hgen.
  - rewrite Hgen by done. cbn [rows]. rewrite filter_filter.
    do 2 f_equal. apply List.filter_ext. intros r. apply andb_diag.
  - cbn [rows]. intros r [_ Hsel]%list_elem_of_In%filter_In Hne.
    apply andb_true_iff in Hsel as [_ Hsel].
    rewrite bool_decide_false in Hsel by done. cbn [orb] in Hsel.
    unfold Pd.isin_str in Hsel. destruct (cell "truck_name" r); try done.
    apply bool_decide_eq_true in Hsel. eauto.
Qed.

Section Default.
Context `{Parsers}.

(** Property X12. The dashboard offers the truck names of the base frame
    under the payment filter and selects them all by default. On the frame
    [clean_base_df] returns this default restricts nothing: the frame
    filtered with the default selection is the frame filtered by payment
    method alone. *)
Theorem default_selection_keeps_all raw base payment_filter :
  clean_base_df raw = Some base →
  ∃ trucks out,
    all_trucks base payment_filter = Some trucks ∧
    apply_filters base payment_filter [] = Some out ∧
    apply_filters base payment_filter trucks = Some out ∧
    ∀ s, s ∈ trucks ↔ ∃ r, r ∈ rows out ∧ cell "truck_name" r = Str s.
Proof.
  intros Hclean.
  assert ("payment_method" ∈ columns base ∧ "truck_name" ∈ columns base)
    as [Hpm Htn].
  { pose proof Hclean as [Hcols ->]%clean_base_df_Some. cbn [columns].
    cbn [forallb base_cols] in Hcols. unfold has_column in Hcols.
    rewrite !andb_true_iff, !bool_decide_eq_true in Hcols. tauto. }
  unfold all_trucks, apply_filters.
  rewrite (select_in_Some _ _ _ Hpm). cbn [mbind option_bind columns rows].
  set (tmp := List.filter _ (rows base)).
  unfold has_column. rewrite bool_decide_true by done.
  set (names := omap _ tmp).
  set (trucks := Pd.sort_values String.leb (remove_dups names)).
  assert (∀ s, s ∈ trucks ↔ ∃ r, r ∈ tmp ∧ cell "truck_name" r = Str s) as Hin.
  { intros s. unfold trucks.
    rewrite MetricsFacts.sort_values_perm, elem_of_remove_dups.
    unfold names. rewrite list_elem_of_omap. split.
    - intros (r & Hr & Hs). exists r. split; [done|].
      destruct (cell "truck_name" r); congruence.
    - intros (r & Hr & Hs). exists r. by rewrite Hs. }
  exists trucks, {| columns := columns base; rows := tmp |}.
  split_and!; [done|done| |done].
  unfold select_in. cbn [columns rows].
  destruct trucks as [|t0 ts] eqn:Htrucks; [done|]. rewrite <- Htrucks in *.
  unfold has_column. rewrite bool_decide_true by done. do 2 f_equal.
  apply filter_all_true. intros r Hr%list_elem_of_In.
  assert (r ∈ rows base) as Hbase.
  { unfold tmp in Hr. by apply list_elem_of_In, filter_In in Hr as [Hr%list_elem_of_In _]. }
  destruct (base_row_cells _ _ _ Hclean Hbase) as (_ & _ & (s & Hs & _) & _).
  unfold cell at 1. rewrite Hs. cbn [default Pd.isin_str].
  apply bool_decide_eq_true, Hin. exists r. split; [done|].
  unfold cell. by rewrite Hs.
Qed.

End Default.
End DashboardFacts.

Module DashboardExamples.
Import Py Scalars Dashboard DashboardFacts OptionFacts.

Lemma cleaned_base_raw :
  clean_base_df Cases.base_raw = Some Cases.base_cleaned.
Proof. apply default_Some. vm_compute. reflexivity. Qed.

(** Of the five sample rows the one without a truck and the one whose
    total is no number are dropped. *)
Lemma base_cleaned_ids :
  (λ r, cell "transaction_id" r) <$> rows Cases.base_cleaned
  = [Num 1; Num 2; Num 5].
Proof. vm_compute. reflexivity. Qed.

Lemma clean_base_df_rows_witness :
  clean_base_df Cases.base_raw = Some Cases.base_cleaned ∧
  Cases.first_base ∈ rows Cases.base_cleaned ∧
  columns Cases.base_cleaned = columns Cases.base_raw ∧
  (∃ r0 q, r0 ∈ rows Cases.base_raw ∧
           Pd.num_value (Pd.to_numeric (cell "total" r0)) = Some q ∧
           Cases.first_base !! "total" = Some (Num (q / 100)) ∧
           (0 < q / 100)%Q) ∧
  (∃ s, Cases.first_base !! "truck_name" = Some (Str s) ∧ strip s = s) ∧
  (∃ t, Cases.first_base !! "day_dt" = Some (Time t)) ∧
  (∃ t, Cases.first_base !! "hour_ts" = Some (Time t)) ∧
  (Cases.first_base !! "payment_method" = Some NA ∨
   ∃ s, Cases.first_base !! "payment_method" = Some (Str s) ∧
        strip s = s ∧ lower s = s).
Proof.
  assert (Cases.first_base ∈ rows Cases.base_cleaned) as Hr.
  { apply (list_elem_of_lookup_2 _ 0%nat). vm_compute. reflexivity. }
  split; [exact cleaned_base_raw|]. split; [exact Hr|].
  exact (clean_base_df_rows _ _ _ cleaned_base_raw Hr).
Defined.

Lemma clean_base_df_twice_witness :
  clean_base_df Cases.base_raw = Some Cases.base_cleaned ∧
  clean_base_df Cases.base_cleaned =
    Some {| columns := columns Cases.base_cleaned;
            rows := (λ r, <["total" := pence_to_pounds (cell "total" r)]> r)
                      <$> rows Cases.base_cleaned |} ∧
  ∀ r, r ∈ rows Cases.base_cleaned →
       ∃ q, cell "total" r = Num q ∧
            pence_to_pounds (cell "total" r) = Num (q / 100).
Proof.
  split; [exact cleaned_base_raw|].
  exact (clean_base_df_twice _ _ cleaned_base_raw).
Defined.

(** The first sale, 740 pence, reads 7.40 after one cleaning and 0.074
    after two. *)
Lemma base_totals_twice :
  cell "total" Cases.first_base = Num (740 / 100) ∧
  pence_to_pounds (cell "total" Cases.first_base) = Num (740 / 100 / 100).
Proof. vm_compute. done. Qed.

Lemma apply_filters_rows_witness :
  let df := Cases.base_cleaned in
  let payment_filter := ["cash"] in
  let selected_trucks := ["Kings of Kebabs"] in
  "payment_method" ∈ columns df ∧ "truck_name" ∈ columns df ∧
  let selected r :=
    (bool_decide (payment_filter = []) ||
     Pd.isin_str payment_filter (cell "payment_method" r)) &&
    (bool_decide (selected_trucks = []) ||
     Pd.isin_str selected_trucks (cell "truck_name" r)) in
  let out := {| columns := columns df;
                rows := List.filter selected (rows df) |} in
  apply_filters df payment_filter selected_trucks = Some out ∧
  apply_filters out payment_filter selected_trucks = Some out ∧
  (∀ r, r ∈ rows out → selected_trucks ≠ [] →
        ∃ s, cell "truck_name" r = Str s ∧ s ∈ selected_trucks).
Proof.
  cbn zeta.
  assert ("payment_method" ∈ columns Cases.base_cleaned) as Hpm
    by (apply (bool_decide_eq_true_1 _ (Decision0 := _)); vm_compute; reflexivity).
  assert ("truck_name" ∈ columns Cases.base_cleaned) as Htn
    by (apply (bool_decide_eq_true_1 _ (Decision0 := _)); vm_compute; reflexivity).
  split; [exact Hpm|]. split; [exact Htn|].
  exact (apply_filters_rows _ ["cash"] ["Kings of Kebabs"] Hpm Htn).
Defined.

Lemma default_selection_keeps_all_witness :
  clean_base_df Cases.base_raw = Some Cases.base_cleaned ∧
  ∃ trucks out,
    all_trucks Cases.base_cleaned ["cash"] = Some trucks ∧
    apply_filters Cases.base_cleaned ["cash"] [] = Some out ∧
    apply_filters Cases.base_cleaned ["cash"] trucks = Some out ∧
    ∀ s, s ∈ trucks ↔ ∃ r, r ∈ rows out ∧ cell "truck_name" r = Str s.
Proof.
  split; [exact cleaned_base_raw|].
  exact (default_selection_keeps_all _ _ ["cash"] cleaned_base_raw).
Defined.

End DashboardExamples.

Module CleaningFacts.
Import Py PyFacts RowSteps RowStepsFacts Transform TransformFacts
  IdempotenceFacts.

(** *** Columns and row counts *)

Lemma NoDup_preferred_order : NoDup preferred_order.
Proof.
  apply (bool_decide_eq_true_1 _ (Decision0 := _)). vm_compute. reflexivity.
Qed.

Lemma reorder_perm cols : NoDup cols → reorder cols ≡ₚ cols.
Proof.
  intros Hnd. apply NoDup_Permutation; [|done|].
  - unfold reorder. apply NoDup_app. split_and!.
    + apply NoDup_ListNoDup, List.NoDup_filter, NoDup_ListNoDup,
        NoDup_preferred_order.
    + intros c [Hc _]%list_elem_of_In%filter_In [_ Hc']%list_elem_of_In%filter_In.
      apply negb_true_iff, bool_decide_eq_false in Hc'.
      by apply Hc', list_elem_of_In.
    + by apply NoDup_ListNoDup, List.NoDup_filter, NoDup_ListNoDup.
  - intros c. pose proof (has_column_reorder c cols) as Hc.
    unfold has_column in Hc. split; intros Hin.
    + apply (bool_decide_eq_true_1 (c ∈ cols)). rewrite <- Hc.
      by apply bool_decide_eq_true_2.
    + apply (bool_decide_eq_true_1 (c ∈ reorder cols)). rewrite Hc.
      by apply bool_decide_eq_true_2.
Qed.

Lemma length_drop_dups_from seen c (rs : list Row) :
  (length (Pd.drop_dups_from seen c rs) ≤ length rs)%nat.
Proof.
  revert seen. induction rs as [|r rs IH]; intros seen; [done|].
  cbn [Pd.drop_dups_from]. destruct (existsb _ seen); cbn [length].
  - specialize (IH seen). lia.
  - specialize (IH (cell c r :: seen)). lia.
Qed.

Lemma length_omap_le {A B} (f : A → option B) (l : list A) :
  (length (omap f l) ≤ length l)%nat.
Proof.
  induction l as [|x l IH]; [done|]. cbn [omap list_omap].
  destruct (f x); simpl; fold (omap f l); lia.
Qed.

Section Clean.
Context `{Parsers}.

(** Property X13. Cleaning permutes the columns (the preferred ones first),
    never adds a row, and leaves every cell of the columns it has no rule
    for as it was in the raw row. *)
Theorem clean_transactions_keeps_columns df out :
  clean_transactions df = Some out → NoDup (columns df) →
  columns out ≡ₚ columns df ∧
  (length (rows out) ≤ length (rows df))%nat ∧
  ∀ r, r ∈ rows out →
       ∃ r0, r0 ∈ rows df ∧ ∀ c, c ∉ cleaned_cols → r !! c = r0 !! c.
Proof.
  intros Hclean Hnd. split_and!.
  - apply clean_transactions_Some in Hclean as (_ & _ & -> & _).
    by apply reorder_perm.
  - apply clean_transactions_Some in Hclean as (_ & _ & _ & Hcast).
    rewrite cast_columns_mapM in Hcast. apply length_mapM in Hcast.
    rewrite <- Hcast. unfold remove_duplicates.
    etrans; [|apply (length_omap_le (run (filter_steps (columns df))))].
    rewrite <- filter_rows_omap.
    destruct (has_column _ _); [apply length_drop_dups_from | done].
  - intros r Hr.
    destruct (clean_transactions_row _ _ _ Hclean Hr) as (r0 & Hr0 & Hrun).
    exists r0. split; [done|]. intros c Hc.
    rewrite (run_lookup c _ _ _ Hrun).
    unfold cleaned_cols in Hc. rewrite !not_elem_of_cons in Hc. destruct_and!.
    by rewrite updates_untouched by (repeat constructor; simpl; congruence).
Qed.

(** *** Types of the cleaned cells *)

Lemma astype_Int64_int v v' :
  Pd.astype_Int64 v = Some v' →
  v' = NA ∨
  ∃ q z, Pd.num_value v = Some q ∧ (q == inject_Z z)%Q ∧
         (Pd.int64_min ≤ z ≤ Pd.int64_max)%Z ∧ v' = Num (inject_Z z).
Proof.
  unfold Pd.astype_Int64.
  assert (∀ q, (let q' := Qred q in
                if bool_decide (Qden q' = 1%positive ∧
                                (Pd.int64_min ≤ Qnum q' ≤ Pd.int64_max)%Z)
                then Some (Num q') else None) = Some v' →
               ∃ z, (q == inject_Z z)%Q ∧
                    (Pd.int64_min ≤ z ≤ Pd.int64_max)%Z ∧
                    v' = Num (inject_Z z)) as Hq.
  { intros q. cbn zeta. case_bool_decide as Hd; [|done]. intros [= <-].
    destruct Hd as [Hden Hrange]. exists (Qnum (Qred q)). split; [|split; [done|]].
    - rewrite <- (Qred_correct q) at 1.
      destruct (Qred q) as [n d]. cbn in *. by subst.
    - destruct (Qred q) as [n d]. cbn in *. by subst. }
  destruct v as [|s|q|b|t]; cbn [Pd.num_value mbind option_bind].
  - intros [= <-]. by left.
  - intros [=].
  - intros Hv. right. destruct (Hq q Hv) as (z & ? & ? & ?). eauto 10.
  - intros Hv. right. destruct (Hq _ Hv) as (z & ? & ? & ?). eauto 10.
  - intros [=].
Qed.

Lemma id_after cols c v v' :
  c = "truck_id" ∨ c = "payment_method_id" ∨ c = "transaction_id" →
  has_column c cols = true →
  cell_after c (filter_steps cols ++ cast_steps cols) v = Some v' →
  Pd.astype_Int64 (Pd.to_numeric v) = Some v'.
Proof.
  intros [-> | [-> | ->]] Hc; cbn; rewrite Hc; cbn;
    by destruct (Pd.astype_Int64 (Pd.to_numeric v)).
Qed.

Lemma fsa_rating_after cols v v' :
  has_column "fsa_rating" cols = true →
  cell_after "fsa_rating" (filter_steps cols ++ cast_steps cols) v = Some v' →
  ∃ z, (0 ≤ z ≤ 5)%Z ∧ v' = Num (inject_Z z).
Proof.
  intros Hc. cbn. rewrite Hc. cbn.
  destruct (Pd.between 0 5 (Pd.to_numeric v)) eqn:Hb; cbn; [|done].
  rewrite to_numeric_idem.
  destruct (Pd.astype_Int64 (Pd.to_numeric v)) as [v1|] eqn:Hv; [|done].
  cbn. intros [= <-]. unfold Pd.between in Hb.
  destruct (astype_Int64_int _ _ Hv) as [->|(q & z & Hq & Hz & _ & ->)].
  - unfold Pd.astype_Int64 in Hv.
    destruct (Pd.to_numeric v); try done; cbn in Hv; by case_bool_decide.
  - exists z. split; [|done]. rewrite Hq in Hb.
    apply andb_true_iff in Hb as [H0 H5]. apply Qle_bool_iff in H0, H5.
    rewrite Hz in H0, H5. rewrite (Zle_Qle 0), (Zle_Qle z 5). done.
Qed.

Lemma has_card_reader_after cols v v' :
  has_column "has_card_reader" cols = true →
  cell_after "has_card_reader" (filter_steps cols ++ cast_steps cols) v = Some v' →
  ∃ b, v' = Bool b.
Proof.
  intros Hc. cbn. rewrite Hc. cbn.
  destruct (Pd.isin01 (Pd.to_numeric v)) eqn:Hb; cbn; [|done].
  rewrite to_numeric_idem.
  destruct (Pd.astype_Int64 (Pd.to_numeric v)) as [v1|] eqn:Hv; [|done].
  cbn. intros Hbool.
  destruct (astype_Int64_value _ _ Hv) as [-> | (q & Hq & ->)].
  - unfold Pd.astype_Int64 in Hv. unfold Pd.isin01 in Hb.
    destruct (Pd.to_numeric v); try done; simpl in *.
    all: by case_bool_decide.
  - simpl in Hbool. destruct (Qeq_bool (Qred q) 0).
    + injection Hbool as <-. eauto.
    + destruct (Qeq_bool (Qred q) 1); [|done]. injection Hbool as <-. eauto.
Qed.

Lemma text_after cols c v v' :
  c = "truck_name" ∨ c = "truck_description" →
  has_column c cols = true →
  cell_after c (filter_steps cols ++ cast_steps cols) v = Some v' →
  v' = NA ∨ ∃ s, v' = Str s ∧ strip s = s.
Proof.
  intros [-> | ->] Hc; cbn; rewrite Hc; cbn; intros [= <-];
    destruct v; cbn; eauto using strip_idem.
Qed.

(** Property X14. The cells of a cleaned row have the types of the final
    casts: an identifier is missing or an integer in the [Int64] range, the
    hygiene rating is an integer from 0 to 5, the card-reader flag is a
    boolean, and the truck name and description are missing or text without
    blanks at either end. *)
Theorem clean_transactions_types df out r :
  clean_transactions df = Some out → r ∈ rows out →
  (∀ c, c ∈ ["truck_id"; "payment_method_id"; "transaction_id"] →
        c ∈ columns df →
        r !! c = Some NA ∨
        ∃ z, (Pd.int64_min ≤ z ≤ Pd.int64_max)%Z ∧
             r !! c = Some (Num (inject_Z z))) ∧
  ("fsa_rating" ∈ columns df →
   ∃ z, (0 ≤ z ≤ 5)%Z ∧ r !! "fsa_rating" = Some (Num (inject_Z z))) ∧
  ("has_card_reader" ∈ columns df →
   ∃ b, r !! "has_card_reader" = Some (Bool b)) ∧
  (∀ c, c ∈ ["truck_name"; "truck_description"] → c ∈ columns df →
        r !! c = Some NA ∨ ∃ s, r !! c = Some (Str s) ∧ strip s = s).
Proof.
  intros Hclean Hr.
  destruct (clean_transactions_row _ _ _ Hclean Hr) as (r0 & _ & Hrun).
  assert (∀ c, c ∈ columns df → has_column c (columns df) = true) as Hcol
    by (intros c Hc; by apply bool_decide_eq_true).
  split_and!.
  - intros c Hc Hin. pose proof (Hcol c Hin) as Hc'.
    rewrite !elem_of_cons, elem_of_nil in Hc.
    assert (c = "truck_id" ∨ c = "payment_method_id" ∨ c = "transaction_id")
      as Hc'' by tauto.
    pose proof (id_after _ _ _ _ Hc'' Hc' (run_cell c _ _ _ Hrun)) as Hv.
    assert (r !! c = Some (cell c r)) as ->.
    { rewrite (run_lookup c _ _ _ Hrun).
      destruct Hc'' as [-> | [-> | ->]]; cbn; by rewrite Hc'. }
    destruct (astype_Int64_int _ _ Hv) as [->|(q & z & _ & _ & Hz & ->)]; eauto.
  - intros Hin. pose proof (Hcol _ Hin) as Hc'.
    destruct (fsa_rating_after _ _ _ Hc' (run_cell "fsa_rating" _ _ _ Hrun))
      as (z & Hz & Hv).
    exists z. split; [done|].
    rewrite (run_lookup "fsa_rating" _ _ _ Hrun). cbn. rewrite Hc'. cbn.
    by rewrite Hv.
  - intros Hin. pose proof (Hcol _ Hin) as Hc'.
    destruct (has_card_reader_after _ _ _ Hc'
                (run_cell "has_card_reader" _ _ _ Hrun)) as (b & Hv).
    exists b.
    rewrite (run_lookup "has_card_reader" _ _ _ Hrun). cbn. rewrite Hc'. cbn.
    by rewrite Hv.
  - intros c Hc Hin. pose proof (Hcol c Hin) as Hc'.
    rewrite !elem_of_cons, elem_of_nil in Hc.
    assert (c = "truck_name" ∨ c = "truck_description") as Hc'' by tauto.
    assert (r !! c = Some (cell c r)) as ->.
    { rewrite (run_lookup c _ _ _ Hrun).
      destruct Hc'' as [-> | ->]; cbn; by rewrite Hc'. }
    destruct (text_after _ _ _ _ Hc'' Hc' (run_cell c _ _ _ Hrun))
      as [->|(s & -> & ?)]; eauto.
Qed.

(** *** A rating that is no whole number *)

(** Property X15. The range check on the hygiene rating lets a fractional
    rating through, and the cast to [Int64] then raises: when the first row
    of the frame passes every filter and its rating is not a whole number,
    [clean_transactions] returns nothing at all. *)
Theorem fractional_rating_raises df r0 rest r1 q :
  "fsa_rating" ∈ columns df →
  rows df = r0 :: rest →
  filter_rows (columns df) [r0] = [r1] →
  cell "fsa_rating" r1 = Num q → Qden (Qred q) ≠ 1%positive →
  clean_transactions df = None.
Proof.
  intros Hfsa Hrows Hfirst Hq Hfrac.
  destruct (clean_transactions df) as [out|] eqn:Hclean; [exfalso|done].
  apply clean_transactions_Some in Hclean as (_ & _ & _ & Hcast).
  rewrite Hrows, filter_rows_omap in Hcast.
  rewrite filter_rows_omap in Hfirst. cbn [omap list_omap] in Hfirst, Hcast.
  destruct (run (filter_steps (columns df)) r0) as [r1'|]; [|done].
  injection Hfirst as ->.
  assert (∃ rs, remove_duplicates (columns df)
                  (r1 :: omap (run (filter_steps (columns df))) rest)
                = r1 :: rs) as [rs Hrs].
  { unfold remove_duplicates. destruct (has_column _ _); eauto. }
  fold (omap (run (filter_steps (columns df))) rest) in Hcast.
  rewrite Hrs, cast_columns_mapM, mapM_cons in Hcast.
  destruct (run (cast_steps (columns df)) r1) as [r2|] eqn:Hrun; [|done].
  apply (run_cell "fsa_rating") in Hrun. rewrite Hq in Hrun.
  cbn in Hrun. unfold has_column in Hrun.
  rewrite bool_decide_true in Hrun by done. cbn in Hrun.
  case_bool_decide as Hd; [|done]. by destruct Hd.
Qed.

End Clean.
End CleaningFacts.

Module CleaningExamples.
Import Py Scalars Transform TransformFacts CleaningFacts OptionFacts.

Lemma clean_transactions_keeps_columns_witness :
  clean_transactions Samples.raw_day = Some (cleaned Samples.raw_day) ∧
  NoDup (columns Samples.raw_day) ∧
  columns (cleaned Samples.raw_day) ≡ₚ columns Samples.raw_day ∧
  (length (rows (cleaned Samples.raw_day)) ≤ length (rows Samples.raw_day))%nat ∧
  ∀ r, r ∈ rows (cleaned Samples.raw_day) →
       ∃ r0, r0 ∈ rows Samples.raw_day ∧
             ∀ c, c ∉ RowSteps.cleaned_cols → r !! c = r0 !! c.
Proof.
  assert (NoDup (columns Samples.raw_day)) as Hnd
    by (apply (bool_decide_eq_true_1 _ (Decision0 := _)); vm_compute; reflexivity).
  split; [exact TransformExamples.cleaned_raw_day|]. split; [exact Hnd|].
  exact (clean_transactions_keeps_columns _ _
           TransformExamples.cleaned_raw_day Hnd).
Defined.

Lemma clean_transactions_types_witness :
  let r := Samples.first_cleaned in
  let df := Samples.raw_day in
  clean_transactions df = Some (cleaned df) ∧ r ∈ rows (cleaned df) ∧
  (∀ c, c ∈ ["truck_id"; "payment_method_id"; "transaction_id"] →
        c ∈ columns df →
        r !! c = Some NA ∨
        ∃ z, (Pd.int64_min ≤ z ≤ Pd.int64_max)%Z ∧
             r !! c = Some (Num (inject_Z z))) ∧
  ("fsa_rating" ∈ columns df →
   ∃ z, (0 ≤ z ≤ 5)%Z ∧ r !! "fsa_rating" = Some (Num (inject_Z z))) ∧
  ("has_card_reader" ∈ columns df →
   ∃ b, r !! "has_card_reader" = Some (Bool b)) ∧
  (∀ c, c ∈ ["truck_name"; "truck_description"] → c ∈ columns df →
        r !! c = Some NA ∨ ∃ s, r !! c = Some (Str s) ∧ strip s = s).
Proof.
  cbn zeta.
  assert (Samples.first_cleaned ∈ rows (cleaned Samples.raw_day)) as Hr.
  { apply (list_elem_of_lookup_2 _ 0%nat). vm_compute. reflexivity. }
  split; [exact TransformExamples.cleaned_raw_day|]. split; [exact Hr|].
  exact (clean_transactions_types _ _ _ TransformExamples.cleaned_raw_day Hr).
Defined.

Lemma fractional_rating_raises_witness :
  "fsa_rating" ∈ columns Cases.half_star ∧
  rows Cases.half_star = [Cases.half_star_row] ∧
  filter_rows (columns Cases.half_star) [Cases.half_star_row]
  = [Cases.half_star_valid] ∧
  cell "fsa_rating" Cases.half_star_valid = Num (9 # 2) ∧
  Qden (Qred (9 # 2)) ≠ 1%positive ∧
  clean_transactions Cases.half_star = None.
Proof.
  assert ("fsa_rating" ∈ columns Cases.half_star) as Hfsa
    by (apply (bool_decide_eq_true_1 _ (Decision0 := _)); vm_compute; reflexivity).
  assert (filter_rows (columns Cases.half_star) [Cases.half_star_row]
          = [Cases.half_star_valid]) as Hfirst.
  { rewrite (head_Some_default (filter_rows _ _) ∅) by (vm_compute; reflexivity).
    f_equal. }
  assert (cell "fsa_rating" Cases.half_star_valid = Num (9 # 2)) as Hq
    by (vm_compute; reflexivity).
  assert (Qden (Qred (9 # 2)) ≠ 1%positive) as Hfrac by (vm_compute; discriminate).
  split_and!; [exact Hfsa | reflexivity | exact Hfirst | exact Hq | exact Hfrac |].
  exact (fractional_rating_raises _ _ [] _ _ Hfsa eq_refl Hfirst Hq Hfrac).
Defined.

End CleaningExamples.

Module DimsFacts.
Import Py PyFacts CaseFacts RowSteps RowStepsFacts Transform TransformFacts
  IdempotenceFacts CleaningFacts Dims.

(** *** Keys after the removal of duplicates *)

Lemma dup_eqb_refl a : Pd.dup_eqb a a = true.
Proof. by apply dup_eqb_key. Qed.

Lemma dup_eqb_sym a b : Pd.dup_eqb a b = Pd.dup_eqb b a.
Proof.
  destruct (Pd.dup_eqb a b) eqn:Hab, (Pd.dup_eqb b a) eqn:Hba; try done.
  - apply dup_eqb_key in Hab. symmetry in Hab. apply dup_eqb_key in Hab.
    congruence.
  - apply dup_eqb_key in Hba. symmetry in Hba. apply dup_eqb_key in Hba.
    congruence.
Qed.

Lemma dup_eqb_trans a b c :
  Pd.dup_eqb a b = true → Pd.dup_eqb b c = true → Pd.dup_eqb a c = true.
Proof. rewrite !dup_eqb_key. congruence. Qed.

Lemma distinct_keys_nil key : distinct_keys key [].
Proof. by intros i j ri rj _ Hi. Qed.

Lemma distinct_keys_cons key r rs :
  distinct_keys key (r :: rs) ↔
  (∀ r', r' ∈ rs → Pd.dup_eqb (cell key r') (cell key r) = false) ∧
  distinct_keys key rs.
Proof.
  split.
  - intros Hd. split.
    + intros r' [j Hj]%list_elem_of_lookup_1.
      apply (Hd 0%nat (S j)); [lia|done..].
    + intros i j ri rj Hij Hi Hj. apply (Hd (S i) (S j)); [lia|done..].
  - intros [Hr Hd] i j ri rj Hij Hi Hj.
    destruct j as [|j]; [lia|]. destruct i as [|i].
    + injection Hi as <-. apply Hr. by eapply list_elem_of_lookup_2.
    + apply (Hd i j); [lia|done..].
Qed.

Lemma distinct_keys_filter key (p : Row → bool) rs :
  distinct_keys key rs → distinct_keys key (List.filter p rs).
Proof.
  induction rs as [|r rs IH]; [done|]. rewrite distinct_keys_cons.
  intros [Hr Hd]. cbn [List.filter]. destruct (p r); [|by apply IH].
  apply distinct_keys_cons. split; [|by apply IH].
  intros r' [Hr' _]%list_elem_of_In%filter_In. by apply Hr, list_elem_of_In.
Qed.

Lemma drop_dups_from_keys seen key (rs : list Row) :
  distinct_keys key (Pd.drop_dups_from seen key rs) ∧
  (∀ r s, r ∈ Pd.drop_dups_from seen key rs → s ∈ seen →
          Pd.dup_eqb (cell key r) s = false) ∧
  (∀ r, r ∈ rs →
        (∃ s, s ∈ seen ∧ Pd.dup_eqb (cell key r) s = true) ∨
        ∃ r', r' ∈ Pd.drop_dups_from seen key rs ∧
              Pd.dup_eqb (cell key r) (cell key r') = true).
Proof.
  revert seen. induction rs as [|r rs IH]; intros seen.
  - split_and!; [apply distinct_keys_nil| |].
    + intros r s Hr. by apply elem_of_nil in Hr.
    + intros r Hr. by apply elem_of_nil in Hr.
  - cbn [Pd.drop_dups_from].
    destruct (existsb (Pd.dup_eqb (cell key r)) seen) eqn:Hex.
    + destruct (IH seen) as (Hd & Hs & Hc). split_and!; [done..|].
      intros r1 [->|Hr1]%elem_of_cons; [|by apply Hc].
      left. apply existsb_exists in Hex as (s & Hs' & Hk).
      exists s. by rewrite list_elem_of_In.
    + destruct (IH (cell key r :: seen)) as (Hd & Hs & Hc). split_and!.
      * apply distinct_keys_cons. split; [|done].
        intros r' Hr'. apply Hs; [done|by left].
      * intros r1 s [->|Hr1]%elem_of_cons Hin.
        -- destruct (Pd.dup_eqb (cell key r) s) eqn:Hk; [|done].
           rewrite <- Hex. symmetry. apply existsb_exists.
           exists s. by rewrite <- list_elem_of_In.
        -- apply Hs; [done|by right].
      * intros r1 [->|Hr1]%elem_of_cons.
        -- right. exists r. split; [by left|apply dup_eqb_refl].
        -- destruct (Hc r1 Hr1) as [(s & [->|Hs']%elem_of_cons & Hk)|(r' & Hr' & Hk)].
           ++ right. exists r. split; [by left|done].
           ++ left. eauto.
           ++ right. exists r'. split; [by right|done].
Qed.

Lemma drop_duplicates_keys key (rs : list Row) :
  distinct_keys key (Pd.drop_duplicates key rs) ∧
  Pd.drop_duplicates key rs ⊆ rs ∧
  ∀ r, r ∈ rs →
       ∃ r', r' ∈ Pd.drop_duplicates key rs ∧
             Pd.dup_eqb (cell key r) (cell key r') = true.
Proof.
  destruct (drop_dups_from_keys [] key rs) as (Hd & _ & Hc).
  split_and!; [done|apply drop_dups_from_subseteq|].
  intros r Hr. destruct (Hc r Hr) as [(s & Hs & _)|?]; [|done].
  by apply elem_of_nil in Hs.
Qed.

(** *** The builders, row by row *)

Lemma restrict_lookup_in cols (r : Row) c :
  c ∈ cols → restrict cols r !! c = r !! c.
Proof.
  intros Hc. unfold restrict. rewrite map_lookup_filter.
  destruct (r !! c); cbn; [|done]. by rewrite option_guard_True.
Qed.

Lemma restrict_lookup_out cols (r : Row) c :
  c ∉ cols → restrict cols r !! c = None.
Proof.
  intros Hc. unfold restrict. apply map_lookup_filter_None.
  destruct (r !! c) as [v|]; [right|by left]. by intros x _.
Qed.

Lemma cell_restrict cols (r : Row) c :
  c ∈ cols → cell c (restrict cols r) = cell c r.
Proof. intros Hc. unfold cell. by rewrite restrict_lookup_in. Qed.

Lemma assign_mapM c f (rs : list Row) :
  mapM (run [set_cell c f]) rs = Some (Pd.assign c f rs).
Proof.
  unfold Pd.assign. induction rs as [|r rs IH]; [done|].
  rewrite mapM_cons, IH. done.
Qed.

Lemma build_dim_Some cols key steps df meta :
  build_dim cols key steps df = Some meta ↔
  forallb (λ c, has_column c (columns df)) cols = true ∧
  ∃ m, mapM (run steps) (Pd.drop_duplicates key (restrict cols <$> rows df))
       = Some m ∧
       meta = {| columns := cols; rows := Pd.keep Pd.notna key m |}.
Proof.
  unfold build_dim, select.
  destruct (forallb _ cols); cbn [mbind option_bind].
  - destruct (mapM _ _) as [m|]; cbn [mbind option_bind].
    + split; [intros [= <-]; eauto | by intros (_ & m' & [= <-] & ->)].
    + split; [done | by intros (_ & m' & ? & _)].
  - split; [done | by intros [? _]].
Qed.

Lemma mapM_run_cons s ss (rs : list Row) :
  mapM (run (s :: ss)) rs = mapM (run [s]) rs ≫= mapM (run ss).
Proof. symmetry. apply (mapM_run_app [s] ss). Qed.

Section Builders.
Context `{Parsers}.

Lemma build_truck_metadata_dim df :
  build_truck_metadata df = build_dim truck_cols "truck_id" truck_steps df.
Proof.
  unfold build_truck_metadata, build_dim, truck_steps.
  destruct (select truck_cols df) as [sel|]; cbn [mbind option_bind]; [|done].
  set (rs := Pd.drop_duplicates "truck_id" sel).
  rewrite !assign_cast_mapM.
  rewrite (mapM_run_cons _ [_; _; _; _]).
  destruct (mapM (run [Upd "truck_id" _]) rs) as [m1|];
    cbn [mbind option_bind]; [|done].
  rewrite assign_cast_mapM, (mapM_run_cons _ [_; _; _]).
  destruct (mapM (run [Upd "has_card_reader" _]) m1) as [m2|];
    cbn [mbind option_bind]; [|done].
  rewrite assign_cast_mapM, (mapM_run_cons _ [_; _]).
  destruct (mapM (run [Upd "fsa_rating" _]) m2) as [m3|];
    cbn [mbind option_bind]; [|done].
  rewrite (mapM_run_cons _ [_]), !assign_mapM. cbn [mbind option_bind].
  by rewrite assign_mapM.
Qed.

Lemma build_payment_method_metadata_dim df :
  build_payment_method_metadata df
  = build_dim pm_cols "payment_method_id" pm_steps df.
Proof.
  unfold build_payment_method_metadata, build_dim, pm_steps.
  destruct (select pm_cols df) as [sel|]; cbn [mbind option_bind]; [|done].
  set (rs := Pd.drop_duplicates "payment_method_id" sel).
  rewrite !assign_cast_mapM.
  rewrite (mapM_run_cons _ [_]).
  destruct (mapM (run [Upd "payment_method_id" _]) rs) as [m1|];
    cbn [mbind option_bind]; [|done].
  by rewrite assign_mapM.
Qed.

Lemma build_dim_row cols key steps df meta r :
  build_dim cols key steps df = Some meta → r ∈ rows meta →
  columns meta = cols ∧ Pd.notna (cell key r) = true ∧
  ∃ r0, r0 ∈ rows df ∧ run steps (restrict cols r0) = Some r.
Proof.
  intros (_ & m & Hm & ->)%build_dim_Some. cbn [rows columns].
  intros [Hr Hna]%list_elem_of_In%filter_In. apply list_elem_of_In in Hr.
  split; [done|]. split; [done|].
  apply mapM_Some_1 in Hm. apply list_elem_of_lookup_1 in Hr as [i Hi].
  destruct (Forall2_lookup_r _ _ _ _ _ Hm Hi) as (r1 & Hr1 & Hrun).
  apply list_elem_of_lookup_2, drop_dups_from_subseteq in Hr1.
  apply list_elem_of_fmap in Hr1 as (r0 & -> & Hr0). eauto.
Qed.

Lemma Int64_boolean_cases v v' :
  astype_Int64_boolean v = Some v' → v' = NA ∨ ∃ b, v' = Bool b.
Proof.
  unfold astype_Int64_boolean.
  destruct (Pd.astype_Int64 v) as [v1|] eqn:Hv; [|done]. intros [= <-].
  destruct (astype_Int64_value _ _ Hv) as [->|(q & _ & ->)]; cbn; eauto.
Qed.

(** Property X16. Every row of the truck table has a truck identifier that
    is an integer in the [Int64] range, never missing; a card-reader flag
    that is missing or a boolean; a rating that is missing or an integer; a
    name and a description that are missing or text without blanks at either
    end; and no cell outside these five columns. *)
Theorem build_truck_metadata_rows df meta r :
  build_truck_metadata df = Some meta → r ∈ rows meta →
  columns meta = truck_cols ∧
  (∃ z, (Pd.int64_min ≤ z ≤ Pd.int64_max)%Z ∧
        r !! "truck_id" = Some (Num (inject_Z z))) ∧
  (r !! "has_card_reader" = Some NA ∨
   ∃ b, r !! "has_card_reader" = Some (Bool b)) ∧
  (r !! "fsa_rating" = Some NA ∨
   ∃ z, r !! "fsa_rating" = Some (Num (inject_Z z))) ∧
  (∀ c, c ∈ ["truck_name"; "truck_description"] →
        r !! c = Some NA ∨ ∃ s, r !! c = Some (Str s) ∧ strip s = s) ∧
  (∀ c, c ∉ truck_cols → r !! c = None).
Proof.
  rewrite build_truck_metadata_dim. intros Hdim Hr.
  destruct (build_dim_row _ _ _ _ _ _ Hdim Hr) as (Hcols & Hna & r0 & _ & Hrun).
  split; [done|]. split_and!.
  - pose proof (run_cell "truck_id" _ _ _ Hrun) as Hv. cbn in Hv.
    rewrite (run_lookup "truck_id" _ _ _ Hrun). cbn.
    destruct (Pd.astype_Int64 _) as [v1|] eqn:Hv1; [|done]. cbn in Hv.
    injection Hv as Hv. rewrite <- Hv in *.
    destruct (astype_Int64_int _ _ Hv1) as [->|(q & z & _ & _ & Hz & ->)];
      [done|eauto].
  - pose proof (run_cell "has_card_reader" _ _ _ Hrun) as Hv. cbn in Hv.
    rewrite (run_lookup "has_card_reader" _ _ _ Hrun). cbn.
    destruct (astype_Int64_boolean _) as [v1|] eqn:Hv1; [|done]. cbn in Hv.
    injection Hv as <-.
    destruct (Int64_boolean_cases _ _ Hv1) as [->|(b & ->)]; eauto.
  - pose proof (run_cell "fsa_rating" _ _ _ Hrun) as Hv. cbn in Hv.
    rewrite (run_lookup "fsa_rating" _ _ _ Hrun). cbn.
    destruct (Pd.astype_Int64 _) as [v1|] eqn:Hv1; [|done]. cbn in Hv.
    injection Hv as <-.
    destruct (astype_Int64_int _ _ Hv1) as [->|(q & z & _ & _ & Hz & ->)]; eauto.
  - intros c Hc. rewrite !elem_of_cons, elem_of_nil in Hc.
    pose proof (run_cell c _ _ _ Hrun) as Hv.
    rewrite (run_lookup c _ _ _ Hrun).
    destruct Hc as [->|[->|[]]]; cbn in Hv |- *; injection Hv as <-;
      destruct (cell _ (restrict truck_cols r0)); cbn; eauto using strip_idem.
  - intros c Hc. rewrite (run_lookup c _ _ _ Hrun).
    rewrite restrict_lookup_out by done.
    unfold truck_cols in Hc. rewrite !not_elem_of_cons in Hc. destruct_and!.
    by rewrite updates_untouched by (repeat constructor; simpl; congruence).
Qed.

(** *** The tables of a cleaned frame *)

Lemma dup_eqb_notna a b :
  Pd.dup_eqb a b = true → Pd.notna a = true → Pd.notna b = true.
Proof. intros Hab%dup_eqb_key Ha. by destruct a, b. Qed.

Lemma build_dim_fixed cols key steps df :
  forallb (λ c, has_column c (columns df)) cols = true →
  (∀ r, r ∈ rows df → run steps (restrict cols r) = Some (restrict cols r)) →
  let kept := Pd.keep Pd.notna key
                (Pd.drop_duplicates key (restrict cols <$> rows df)) in
  build_dim cols key steps df = Some {| columns := cols; rows := kept |} ∧
  distinct_keys key kept ∧
  (∀ r, r ∈ rows df → Pd.notna (cell key (restrict cols r)) = true →
        ∃ m, m ∈ kept ∧
             Pd.dup_eqb (cell key (restrict cols r)) (cell key m) = true) ∧
  (∀ m, m ∈ kept → ∃ r, r ∈ rows df ∧ m = restrict cols r).
Proof.
  intros Hcols Hfix. cbn zeta.
  destruct (drop_duplicates_keys key (restrict cols <$> rows df))
    as (Hd & Hsub & Hcov).
  split_and!.
  - apply build_dim_Some. split; [done|]. eexists. split; [|done].
    apply mapM_fixed. intros r' Hr'. apply Hsub in Hr'.
    apply list_elem_of_fmap in Hr' as (r & -> & Hr). by apply Hfix.
  - by apply distinct_keys_filter.
  - intros r Hr Hna.
    destruct (Hcov (restrict cols r)) as (m & Hm & Hk).
    { apply list_elem_of_fmap. eauto. }
    exists m. split; [|done]. unfold Pd.keep.
    apply list_elem_of_In, filter_In. split; [by apply list_elem_of_In|].
    by apply (dup_eqb_notna _ _ Hk).
  - intros m [Hm _]%list_elem_of_In%filter_In.
    apply list_elem_of_In, Hsub, list_elem_of_fmap in Hm as (r & -> & Hr). eauto.
Qed.

Lemma cleaned_lookup df out r c :
  clean_transactions df = Some out → r ∈ rows out →
  c ∈ cleaned_cols → c ∈ columns df → r !! c = Some (cell c r).
Proof.
  intros Hclean Hr Hc Hin.
  destruct (clean_transactions_row _ _ _ Hclean Hr) as (r0 & _ & Hrun).
  assert (has_column c (columns df) = true) as Hcol by by apply bool_decide_eq_true.
  rewrite (run_lookup c _ _ _ Hrun).
  unfold cleaned_cols in Hc. rewrite !elem_of_cons, elem_of_nil in Hc.
  destruct Hc as [->|[->|[->|[->|[->|[->|[->|[->|[->|[->|[]]]]]]]]]]];
    cbn; rewrite ?Hcol; done.
Qed.

Lemma cleaned_cell_after df out r c :
  clean_transactions df = Some out → r ∈ rows out →
  ∃ v, cell_after c (filter_steps (columns df) ++ cast_steps (columns df)) v
       = Some (cell c r).
Proof.
  intros Hclean Hr.
  destruct (clean_transactions_row _ _ _ Hclean Hr) as (r0 & _ & Hrun).
  exists (cell c r0). by apply run_cell.
Qed.

Lemma truck_steps_fixed df out r :
  clean_transactions df = Some out →
  (∀ c, c ∈ truck_cols → c ∈ columns df) → r ∈ rows out →
  run truck_steps (restrict truck_cols r) = Some (restrict truck_cols r).
Proof.
  intros Hclean Hcols Hr.
  assert (∀ c, c ∈ truck_cols → has_column c (columns df) = true) as Hcol
    by (intros c Hc; by apply bool_decide_eq_true, Hcols).
  apply run_fixed.
  - intros c. destruct (decide (c ∈ truck_cols)) as [Hc|Hc].
    + rewrite (cell_restrict _ _ _ Hc).
      destruct (cleaned_cell_after _ _ r c Hclean Hr) as (v & Hv).
      pose proof (Hcol c Hc) as Hc'.
      unfold truck_cols in Hc. rewrite !elem_of_cons, elem_of_nil in Hc.
      destruct Hc as [->|[->|[->|[->|[->|[]]]]]].
      * pose proof (id_after _ _ _ _ (or_introl eq_refl) Hc' Hv) as Hid.
        cbn. by rewrite (astype_Int64_stable _ _ Hid).
      * destruct (text_after _ _ _ _ (or_introl eq_refl) Hc' Hv)
          as [->|(s & -> & Hs)]; cbn; [done|by rewrite Hs].
      * destruct (text_after _ _ _ _ (or_intror eq_refl) Hc' Hv)
          as [->|(s & -> & Hs)]; cbn; [done|by rewrite Hs].
      * destruct (has_card_reader_after _ _ _ Hc' Hv) as (b & ->).
        destruct b; vm_compute; reflexivity.
      * destruct (stable_fsa_rating _ _ _ Hv) as [_ Hcast].
        cbn in Hcast. rewrite Hc' in Hcast. cbn in Hcast. cbn.
        by destruct (Pd.astype_Int64 _).
    + unfold truck_cols in Hc. rewrite !not_elem_of_cons in Hc. destruct_and!.
      by rewrite cell_after_untouched by (repeat constructor; simpl; congruence).
  - intros c Hup.
    assert (c ∈ truck_cols) as Hc.
    { destruct (decide (c ∈ truck_cols)) as [|Hc]; [done|].
      unfold truck_cols in Hc. rewrite !not_elem_of_cons in Hc. destruct_and!.
      by rewrite updates_untouched in Hup
        by (repeat constructor; simpl; congruence). }
    rewrite (restrict_lookup_in _ _ _ Hc).
    rewrite (cleaned_lookup _ _ _ c Hclean Hr); [done| |by apply Hcols].
    unfold truck_cols in Hc. unfold cleaned_cols.
    rewrite !elem_of_cons in *. tauto.
Qed.

Lemma forallb_cleaned_columns df out cols :
  clean_transactions df = Some out → (∀ c, c ∈ cols → c ∈ columns df) →
  forallb (λ c, has_column c (columns out)) cols = true.
Proof.
  intros (_ & _ & Hcols & _)%clean_transactions_Some Hin.
  apply forallb_forall. intros c Hc%list_elem_of_In.
  rewrite Hcols, has_column_reorder. by apply bool_decide_eq_true, Hin.
Qed.

Lemma cleaned_id_cell df out r c :
  clean_transactions df = Some out → r ∈ rows out →
  c = "truck_id" ∨ c = "payment_method_id" ∨ c = "transaction_id" →
  c ∈ columns df →
  cell c r = NA ∨ ∃ z, cell c r = Num (inject_Z z).
Proof.
  intros Hclean Hr Hc Hin.
  destruct (cleaned_cell_after _ _ r c Hclean Hr) as (v & Hv).
  assert (has_column c (columns df) = true) as Hc' by by apply bool_decide_eq_true.
  pose proof (id_after _ _ _ _ Hc Hc' Hv) as Hid.
  destruct (astype_Int64_int _ _ Hid) as [->|(q & z & _ & _ & _ & ->)]; eauto.
Qed.

Lemma dup_eqb_int_cells a b :
  (a = NA ∨ ∃ z, a = Num (inject_Z z)) →
  (b = NA ∨ ∃ z, b = Num (inject_Z z)) →
  Pd.dup_eqb a b = true → a = b.
Proof.
  intros [->|[z ->]] [->|[z' ->]]; try done.
  unfold Pd.dup_eqb. cbn [Pd.num_value].
  intros Heq%Qeq_bool_iff.
  apply (proj1 (inject_Z_injective z z')) in Heq. by rewrite Heq.
Qed.

(** Property X17. On the cleaned transactions the truck table is built
    without an error and without changing a cell: its rows are cleaned rows
    cut down to the five truck columns, one for each truck identifier that
    occurs, the first in frame order, and none for a missing identifier. *)
Theorem truck_table_of_cleaned df out :
  clean_transactions df = Some out →
  (∀ c, c ∈ truck_cols → c ∈ columns df) →
  let kept := Pd.keep Pd.notna "truck_id"
                (Pd.drop_duplicates "truck_id"
                   (restrict truck_cols <$> rows out)) in
  build_truck_metadata out = Some {| columns := truck_cols; rows := kept |} ∧
  distinct_keys "truck_id" kept ∧
  (∀ r, r ∈ rows out → cell "truck_id" r ≠ NA →
        ∃ m, m ∈ kept ∧ cell "truck_id" m = cell "truck_id" r) ∧
  (∀ m, m ∈ kept → ∃ r, r ∈ rows out ∧ m = restrict truck_cols r).
Proof.
  intros Hclean Hcols. cbn zeta. rewrite build_truck_metadata_dim.
  assert ("truck_id" ∈ truck_cols) as Hid by (unfold truck_cols; by left).
  destruct (build_dim_fixed truck_cols "truck_id" truck_steps out)
    as (Hdim & Hd & Hcov & Hfrom).
  { by eapply forallb_cleaned_columns. }
  { intros r Hr. by eapply truck_steps_fixed. }
  split_and!; [done..| |done].
  intros r Hr Hna. rewrite <- (cell_restrict truck_cols r _ Hid) in Hna.
  destruct (Hcov r Hr) as (m & Hm & Hk).
  { by destruct (cell "truck_id" (restrict truck_cols r)). }
  exists m. split; [done|].
  destruct (Hfrom m Hm) as (r' & Hr' & ->).
  rewrite !(cell_restrict truck_cols _ _ Hid) in Hk.
  rewrite (cell_restrict truck_cols _ _ Hid). symmetry.
  apply dup_eqb_int_cells; [| |done];
    (eapply cleaned_id_cell; [done|done|by left|by apply Hcols]).
Qed.

Lemma pm_steps_fixed df out r :
  clean_transactions df = Some out →
  (∀ c, c ∈ pm_cols → c ∈ columns df) → r ∈ rows out →
  run pm_steps (restrict pm_cols r) = Some (restrict pm_cols r).
Proof.
  intros Hclean Hcols Hr.
  assert (∀ c, c ∈ pm_cols → has_column c (columns df) = true) as Hcol
    by (intros c Hc; by apply bool_decide_eq_true, Hcols).
  apply run_fixed.
  - intros c. destruct (decide (c ∈ pm_cols)) as [Hc|Hc].
    + rewrite (cell_restrict _ _ _ Hc).
      destruct (cleaned_cell_after _ _ r c Hclean Hr) as (v & Hv).
      pose proof (Hcol c Hc) as Hc'.
      unfold pm_cols in Hc. rewrite !elem_of_cons, elem_of_nil in Hc.
      destruct Hc as [->|[->|[]]].
      * pose proof (id_after _ _ _ _ (or_intror (or_introl eq_refl)) Hc' Hv)
          as Hid.
        cbn. by rewrite (astype_Int64_stable _ _ Hid).
      * destruct (payment_method_after _ _ _ Hc' Hv) as [-> | ->];
          vm_compute; reflexivity.
    + unfold pm_cols in Hc. rewrite !not_elem_of_cons in Hc. destruct_and!.
      by rewrite cell_after_untouched by (repeat constructor; simpl; congruence).
  - intros c Hup.
    assert (c ∈ pm_cols) as Hc.
    { destruct (decide (c ∈ pm_cols)) as [|Hc]; [done|].
      unfold pm_cols in Hc. rewrite !not_elem_of_cons in Hc. destruct_and!.
      by rewrite updates_untouched in Hup
        by (repeat constructor; simpl; congruence). }
    rewrite (restrict_lookup_in _ _ _ Hc).
    rewrite (cleaned_lookup _ _ _ c Hclean Hr); [done| |by apply Hcols].
    unfold pm_cols in Hc. unfold cleaned_cols.
    rewrite !elem_of_cons in *. tauto.
Qed.

(** Property X18. On the cleaned transactions the payment-method table is
    built without an error: one row for each payment-method identifier that
    occurs, the first in frame order, each a cleaned row cut down to the
    identifier and the label, and the label is [cash] or [card]. *)
Theorem payment_method_table_of_cleaned df out :
  clean_transactions df = Some out →
  (∀ c, c ∈ pm_cols → c ∈ columns df) →
  let kept := Pd.keep Pd.notna "payment_method_id"
                (Pd.drop_duplicates "payment_method_id"
                   (restrict pm_cols <$> rows out)) in
  build_payment_method_metadata out
  = Some {| columns := pm_cols; rows := kept |} ∧
  distinct_keys "payment_method_id" kept ∧
  (∀ r, r ∈ rows out → cell "payment_method_id" r ≠ NA →
        ∃ m, m ∈ kept ∧
             cell "payment_method_id" m = cell "payment_method_id" r) ∧
  (∀ m, m ∈ kept →
        (∃ r, r ∈ rows out ∧ m = restrict pm_cols r) ∧
        (m !! "payment_method" = Some (Str "cash") ∨
         m !! "payment_method" = Some (Str "card"))).
Proof.
  intros Hclean Hcols. cbn zeta. rewrite build_payment_method_metadata_dim.
  assert ("payment_method_id" ∈ pm_cols) as Hid by (unfold pm_cols; by left).
  assert ("payment_method" ∈ pm_cols) as Hpm
    by (unfold pm_cols; right; by left).
  destruct (build_dim_fixed pm_cols "payment_method_id" pm_steps out)
    as (Hdim & Hd & Hcov & Hfrom).
  { by eapply forallb_cleaned_columns. }
  { intros r Hr. by eapply pm_steps_fixed. }
  split_and!; [done..| |].
  - intros r Hr Hna. rewrite <- (cell_restrict pm_cols r _ Hid) in Hna.
    destruct (Hcov r Hr) as (m & Hm & Hk).
    { by destruct (cell "payment_method_id" (restrict pm_cols r)). }
    exists m. split; [done|].
    destruct (Hfrom m Hm) as (r' & Hr' & ->).
    rewrite !(cell_restrict pm_cols _ _ Hid) in Hk.
    rewrite (cell_restrict pm_cols _ _ Hid). symmetry.
    apply dup_eqb_int_cells; [| |done];
      (eapply cleaned_id_cell; [done|done|right; by left|by apply Hcols]).
  - intros m Hm. destruct (Hfrom m Hm) as (r & Hr & ->).
    split; [eauto|]. rewrite (restrict_lookup_in _ _ _ Hpm).
    destruct (cleaned_cell_after _ _ r "payment_method" Hclean Hr) as (v & Hv).
    assert (has_column "payment_method" (columns df) = true) as Hc'
      by by apply bool_decide_eq_true, Hcols.
    rewrite (cleaned_lookup _ _ _ "payment_method" Hclean Hr);
      [|unfold cleaned_cols; by left|by apply Hcols].
    destruct (payment_method_after _ _ _ Hc' Hv) as [-> | ->]; eauto.
Qed.

End Builders.
End DimsFacts.

Module DimsExamples.
Import Py Scalars Transform Dims DimsFacts OptionFacts.

Lemma day_trucks_dim_built :
  build_truck_metadata (cleaned Samples.raw_day) = Some Cases.day_trucks_dim.
Proof. apply default_Some. vm_compute. reflexivity. Qed.

(** The cleaned sample day has one truck and one payment-method
    identifier, first seen on a card sale. *)
Lemma day_dims :
  (λ r, cell "truck_id" r) <$> rows Cases.day_trucks_dim = [Num 3] ∧
  (λ r, cell "payment_method" r) <$> rows Cases.day_payments_dim
  = [Str "card"].
Proof. vm_compute. done. Qed.

Lemma build_truck_metadata_rows_witness :
  let meta := Cases.day_trucks_dim in
  let r := default ∅ (head (rows meta)) in
  build_truck_metadata (cleaned Samples.raw_day) = Some meta ∧
  r ∈ rows meta ∧
  columns meta = truck_cols ∧
  (∃ z, (Pd.int64_min ≤ z ≤ Pd.int64_max)%Z ∧
        r !! "truck_id" = Some (Num (inject_Z z))) ∧
  (r !! "has_card_reader" = Some NA ∨
   ∃ b, r !! "has_card_reader" = Some (Bool b)) ∧
  (r !! "fsa_rating" = Some NA ∨
   ∃ z, r !! "fsa_rating" = Some (Num (inject_Z z))) ∧
  (∀ c, c ∈ ["truck_name"; "truck_description"] →
        r !! c = Some NA ∨ ∃ s, r !! c = Some (Str s) ∧ strip s = s) ∧
  (∀ c, c ∉ truck_cols → r !! c = None).
Proof.
  cbn zeta.
  assert (default ∅ (head (rows Cases.day_trucks_dim))
          ∈ rows Cases.day_trucks_dim) as Hr.
  { apply (list_elem_of_lookup_2 _ 0%nat). vm_compute. reflexivity. }
  split; [exact day_trucks_dim_built|]. split; [exact Hr|].
  exact (build_truck_metadata_rows _ _ _ day_trucks_dim_built Hr).
Defined.

Lemma truck_table_of_cleaned_witness :
  let df := Samples.raw_day in
  let out := cleaned Samples.raw_day in
  clean_transactions df = Some out ∧
  (∀ c, c ∈ truck_cols → c ∈ columns df) ∧
  let kept := Pd.keep Pd.notna "truck_id"
                (Pd.drop_duplicates "truck_id"
                   (restrict truck_cols <$> rows out)) in
  build_truck_metadata out = Some {| columns := truck_cols; rows := kept |} ∧
  distinct_keys "truck_id" kept ∧
  (∀ r, r ∈ rows out → cell "truck_id" r ≠ NA →
        ∃ m, m ∈ kept ∧ cell "truck_id" m = cell "truck_id" r) ∧
  (∀ m, m ∈ kept → ∃ r, r ∈ rows out ∧ m = restrict truck_cols r).
Proof.
  cbn zeta.
  assert (∀ c, c ∈ truck_cols → c ∈ columns Samples.raw_day) as Hcols.
  { apply Forall_forall.
    apply (bool_decide_eq_true_1 _ (Decision0 := _)). vm_compute. reflexivity. }
  split; [exact TransformExamples.cleaned_raw_day|]. split; [exact Hcols|].
  exact (truck_table_of_cleaned _ _ TransformExamples.cleaned_raw_day Hcols).
Defined.

Lemma payment_method_table_of_cleaned_witness :
  let df := Samples.raw_day in
  let out := cleaned Samples.raw_day in
  clean_transactions df = Some out ∧
  (∀ c, c ∈ pm_cols → c ∈ columns df) ∧
  let kept := Pd.keep Pd.notna "payment_method_id"
                (Pd.drop_duplicates "payment_method_id"
                   (restrict pm_cols <$> rows out)) in
  build_payment_method_metadata out
  = Some {| columns := pm_cols; rows := kept |} ∧
  distinct_keys "payment_method_id" kept ∧
  (∀ r, r ∈ rows out → cell "payment_method_id" r ≠ NA →
        ∃ m, m ∈ kept ∧
             cell "payment_method_id" m = cell "payment_method_id" r) ∧
  (∀ m, m ∈ kept →
        (∃ r, r ∈ rows out ∧ m = restrict pm_cols r) ∧
        (m !! "payment_method" = Some (Str "cash") ∨
         m !! "payment_method" = Some (Str "card"))).
Proof.
  cbn zeta.
  assert (∀ c, c ∈ pm_cols → c ∈ columns Samples.raw_day) as Hcols.
  { apply Forall_forall.
    apply (bool_decide_eq_true_1 _ (Decision0 := _)). vm_compute. reflexivity. }
  split; [exact TransformExamples.cleaned_raw_day|]. split; [exact Hcols|].
  exact (payment_method_table_of_cleaned _ _
           TransformExamples.cleaned_raw_day Hcols).
Defined.

End DimsExamples.

Module LakeFacts.
Import Transform Load Lake RowSteps RowStepsFacts IdempotenceFacts LoadFacts.

(** *** Path components and keys *)

Lemma list_ascii_app (a b : string) :
  list_ascii_of_string (a ++ b)
  = (list_ascii_of_string a ++ list_ascii_of_string b)%list.
Proof. induction a as [|x a IH]; [done|]. simpl. by rewrite IH. Qed.

Lemma no_slash_app a b : no_slash a → no_slash b → no_slash (a ++ b).
Proof.
  unfold no_slash. rewrite list_ascii_app, elem_of_app. tauto.
Qed.

Lemma string_app_inv_head (a s s' : string) : a ++ s = a ++ s' → s = s'.
Proof. induction a as [|x a IH]; [done|]. intros [= Heq]. by apply IH. Qed.

Lemma no_slash_split a a' s s' :
  no_slash a → no_slash a' →
  a ++ String "/" s = a' ++ String "/" s' → a = a' ∧ s = s'.
Proof.
  unfold no_slash. revert a'. induction a as [|x a IH]; intros [|x' a'] Ha Ha'; simpl.
  - by intros [= ->].
  - intros [= <- _]. destruct Ha'. by left.
  - intros [= -> _]. destruct Ha. by left.
  - intros [= -> Heq]. simpl in Ha, Ha'. rewrite elem_of_cons in Ha, Ha'.
    destruct (IH a') as [-> ->]; [tauto | tauto | done | done].
Qed.

Lemma no_slash_joined a a' s : no_slash a → a ≠ a' ++ String "/" s.
Proof.
  unfold no_slash. intros Ha ->. apply Ha.
  rewrite list_ascii_app, elem_of_app. right. by left.
Qed.

Lemma as_posix_cons c d p :
  as_posix (c :: d :: p) = c ++ String "/" (as_posix (d :: p)).
Proof. reflexivity. Qed.

Lemma as_posix_inj p p' :
  p ≠ [] → p' ≠ [] → Forall no_slash p → Forall no_slash p' →
  as_posix p = as_posix p' → p = p'.
Proof.
  revert p'. induction p as [|c p IH]; intros p' Hp Hp' Hs Hs'; [done|].
  destruct p' as [|c' p']; [done|].
  apply Forall_cons in Hs as [Hc Hs]. apply Forall_cons in Hs' as [Hc' Hs'].
  destruct p as [|d p], p' as [|d' p'].
  - by intros [= ->].
  - rewrite as_posix_cons. intros Heq. by apply no_slash_joined in Heq.
  - rewrite as_posix_cons. intros Heq. symmetry in Heq.
    by apply no_slash_joined in Heq.
  - rewrite !as_posix_cons. intros [-> Heq]%no_slash_split; [|done..].
    f_equal. by apply IH.
Qed.

Lemma object_key_Some (local_dir : Path) (s3_prefix : string) (file : Path)
    (key : string) :
  object_key local_dir s3_prefix file = Some key ↔
  ∃ rel, rel ≠ [] ∧ file = (local_dir ++ rel)%list ∧
         key = s3_prefix ++ "/" ++ as_posix rel.
Proof.
  unfold object_key, relative_to. case_bool_decide as Hpre.
  - destruct Hpre as [rel ->]. rewrite drop_app_length. split.
    + destruct rel as [|c rel]; [done|]. intros [= <-]. by exists (c :: rel).
    + intros (rel' & Hne & ->%app_inv_head & ->).
      by destruct rel' as [|c rel'].
  - split; [done|]. intros (rel & _ & -> & _). destruct Hpre. by exists rel.
Qed.

(** *** The upload *)

Lemma upload_lookup (local_dir : Path) (bucket s3_prefix : string)
    (fs : Files) (s3 : S3) :
  (∀ p p' k, is_Some (fs !! p) → is_Some (fs !! p') →
             object_key local_dir s3_prefix p = Some k →
             object_key local_dir s3_prefix p' = Some k → p = p') →
  (∀ p c k, fs !! p = Some c → object_key local_dir s3_prefix p = Some k →
            upload_directory_to_s3 local_dir bucket s3_prefix fs s3
              !! (bucket, k) = Some c) ∧
  (∀ bk, (∀ p k, is_Some (fs !! p) →
                 object_key local_dir s3_prefix p = Some k → bk ≠ (bucket, k)) →
         upload_directory_to_s3 local_dir bucket s3_prefix fs s3 !! bk
         = s3 !! bk).
Proof.
  unfold upload_directory_to_s3.
  apply (map_fold_weak_ind
    (λ (r : S3) (m : Files),
       (∀ p p' k, is_Some (m !! p) → is_Some (m !! p') →
                  object_key local_dir s3_prefix p = Some k →
                  object_key local_dir s3_prefix p' = Some k → p = p') →
       (∀ p c k, m !! p = Some c → object_key local_dir s3_prefix p = Some k →
                 r !! (bucket, k) = Some c) ∧
       (∀ bk, (∀ p k, is_Some (m !! p) →
                      object_key local_dir s3_prefix p = Some k →
                      bk ≠ (bucket, k)) →
              r !! bk = s3 !! bk))).
  - intros _. split; [intros p c k; by rewrite lookup_empty | done].
  - intros i x m r Hi IH Hinj.
    destruct IH as [Hin Hout].
    { intros p p' k [c Hp] [c' Hp']. apply Hinj.
      - exists c. rewrite lookup_insert_ne; [done|]. intros ->. congruence.
      - exists c'. rewrite lookup_insert_ne; [done|]. intros ->. congruence. }
    split.
    + intros p c k Hp Hk. destruct (decide (p = i)) as [->|Hne].
      * rewrite lookup_insert_eq in Hp. injection Hp as ->.
        rewrite Hk. by rewrite lookup_insert_eq.
      * rewrite lookup_insert_ne in Hp by congruence.
        destruct (object_key local_dir s3_prefix i) as [k'|] eqn:Hk'; [|eauto].
        destruct (decide (k' = k)) as [->|Hkk].
        -- destruct Hne. apply (Hinj p i k); [| |done..].
           ++ exists c. rewrite lookup_insert_ne; [done | congruence].
           ++ exists x. by rewrite lookup_insert_eq.
        -- rewrite lookup_insert_ne by congruence. eauto.
    + intros bk Hbk.
      assert (r !! bk = s3 !! bk) as Hr.
      { apply Hout. intros p k [c Hp]. apply Hbk. exists c.
        rewrite lookup_insert_ne; [done|]. intros ->. congruence. }
      destruct (object_key local_dir s3_prefix i) as [k'|] eqn:Hk'; [|done].
      rewrite lookup_insert_ne; [done|]. intros <-.
      apply (Hbk i k'); [|done..]. exists x. by rewrite lookup_insert_eq.
Qed.

(** Property X19. The upload mirrors the directory: a file at
    [local_dir/rel] is stored in the bucket under the key
    [prefix/rel], with its content, and no other object of the store is
    written or changed. Path components hold no [/]. *)
Theorem upload_mirrors_directory (local_dir : Path)
    (bucket s3_prefix : string) (fs : Files) (s3 : S3) :
  (∀ rel, is_Some (fs !! (local_dir ++ rel)%list) → Forall no_slash rel) →
  (∀ rel content, rel ≠ [] → fs !! (local_dir ++ rel)%list = Some content →
     upload_directory_to_s3 local_dir bucket s3_prefix fs s3
       !! (bucket, s3_prefix ++ "/" ++ as_posix rel) = Some content) ∧
  (∀ b k, (∀ rel, rel ≠ [] → is_Some (fs !! (local_dir ++ rel)%list) →
                  (b, k) ≠ (bucket, s3_prefix ++ "/" ++ as_posix rel)) →
     upload_directory_to_s3 local_dir bucket s3_prefix fs s3 !! (b, k)
     = s3 !! (b, k)).
Proof.
  intros Hfs.
  destruct (upload_lookup local_dir bucket s3_prefix fs s3) as [Hin Hout].
  { intros p p' k Hp Hp' (rel & Hne & -> & ->)%object_key_Some
      (rel' & Hne' & -> & Heq)%object_key_Some.
    apply string_app_inv_head in Heq. injection Heq as Heq.
    f_equal. apply as_posix_inj; auto. }
  split.
  - intros rel content Hne Hrel. apply (Hin _ _ _ Hrel).
    apply object_key_Some. eauto.
  - intros b k Hbk. apply Hout.
    intros p k' Hp (rel & Hne & -> & ->)%object_key_Some. by apply Hbk.
Qed.

(** *** The partition writer *)

Section Writer.
Context `{Parsers}.

Lemma mapM_stamp col (l : list Row) :
  mapM (stamp col) l =
  (rs ← mapM (step "year" col (λ t, pretty (year t))) l;
   rs ← mapM (step "month" col (λ t, fmt_02d (month t))) rs;
   rs ← mapM (step "day" col (λ t, fmt_02d (day t))) rs;
   mapM (step "hour" col (λ t, fmt_02d (hour t))) rs).
Proof.
  unfold stamp.
  rewrite <- (mapM_bind_fuse (step "year" col _)).
  destruct (mapM (step "year" col _) l) as [rs1|]; [|done].
  cbn [mbind option_bind].
  rewrite <- (mapM_bind_fuse (step "month" col _)).
  destruct (mapM (step "month" col _) rs1) as [rs2|]; [|done].
  cbn [mbind option_bind].
  by rewrite <- (mapM_bind_fuse (step "day" col _)).
Qed.

Lemma writer_unfold df root col file fs :
  write_time_partitioned_transactions df root col file fs =
  if has_column col (columns df)
  then rs ← mapM (stamp col) (parsed_rows col (rows df));
       Some (write_groups (columns df) root file fs rs)
  else None.
Proof.
  unfold write_time_partitioned_transactions, parsed_rows.
  destruct (has_column col (columns df)); [|done]. cbn [negb].
  rewrite valid_rows, mapM_stamp. unfold assign_part, step.
  destruct (mapM _ _) as [rs1|]; [|done]. cbn [mbind option_bind].
  destruct (mapM _ _) as [rs2|]; [|done]. cbn [mbind option_bind].
  destruct (mapM _ _) as [rs3|]; [|done]. cbn [mbind option_bind].
  by destruct (mapM _ _) as [rs4|].
Qed.

(** *** What the loop writes *)

Lemma write_groups_foldl cols root file fs rs :
  write_groups cols root file fs rs =
  foldl (λ fs (g : list Cell * list Row),
           <[(out_dir root g.1 ++ [file])%list :=
               {| columns := written_cols cols;
                  rows := drop_parts <$> g.2 |}]> fs)
        fs (Pd.groupby part_key rs).
Proof. unfold write_groups. apply foldl_ext_pairs. by intros ? []. Qed.

Lemma write_groups_agree cols root file fs fs0 rs p :
  fs !! p = fs0 !! p →
  write_groups cols root file fs rs !! p
  = write_groups cols root file fs0 rs !! p.
Proof.
  rewrite !write_groups_foldl. revert fs fs0.
  induction (Pd.groupby part_key rs) as [|g gs IH]; intros fs fs0 Hp; [done|].
  cbn [foldl]. apply IH.
  destruct (decide ((out_dir root g.1 ++ [file])%list = p)) as [<-|Hne].
  - by rewrite !lookup_insert_eq.
  - by rewrite !lookup_insert_ne.
Qed.

Lemma write_groups_dom cols root file fs rs p :
  is_Some (write_groups cols root file fs rs !! p) →
  is_Some (fs !! p) ∨
  ∃ r, r ∈ rs ∧ p = (out_dir root (part_key r) ++ [file])%list.
Proof.
  rewrite write_groups_foldl.
  assert (∀ g, g ∈ Pd.groupby part_key rs → ∃ r, r ∈ rs ∧ g.1 = part_key r)
    as Hkeys.
  { intros g [(r & -> & Hr)%list_elem_of_fmap _]%elem_of_groupby. eauto. }
  revert fs Hkeys.
  induction (Pd.groupby part_key rs) as [|g gs IH]; intros fs Hkeys; [by left|].
  cbn [foldl]. intros Hp. apply IH in Hp as [Hp|Hp].
  - destruct (decide ((out_dir root g.1 ++ [file])%list = p)) as [<-|Hne].
    + right. destruct (Hkeys g) as (r & Hr & ->); [by left|]. eauto.
    + rewrite lookup_insert_ne in Hp by done. by left.
  - by right.
  - intros g' Hg'. apply Hkeys. by right.
Qed.

Lemma write_groups_frame cols root file fs rs p :
  ¬ root `prefix_of` p → write_groups cols root file fs rs !! p = fs !! p.
Proof.
  intros Hp. rewrite write_groups_foldl. revert fs.
  induction (Pd.groupby part_key rs) as [|g gs IH]; intros fs; [done|].
  cbn [foldl]. rewrite IH. apply lookup_insert_ne. intros <-. apply Hp.
  unfold out_dir. rewrite <- app_assoc. by eexists.
Qed.

(** *** When the writer raises *)

Lemma parsed_rows_time col rs r :
  r ∈ parsed_rows col rs → ∃ t, cell col r = Time t.
Proof.
  unfold parsed_rows. intros (r0 & _ & Hr)%list_elem_of_omap.
  destruct (event_time col r0) as [t|]; [|done]. injection Hr as <-.
  exists t. by rewrite cell_insert_eq.
Qed.

Lemma stamp_is_Some col r t :
  col ∉ ["year"; "month"; "day"] → cell col r = Time t →
  is_Some (stamp col r).
Proof.
  rewrite !elem_of_cons, elem_of_nil. intros Hcol Ht. unfold stamp.
  rewrite (step_Some _ _ _ _ _ Ht). cbn [mbind option_bind].
  rewrite (step_Some _ _ _ _ t) by (rewrite cell_insert_ne; [done|]; intros <-; tauto).
  cbn [mbind option_bind].
  rewrite (step_Some _ _ _ _ t)
    by (rewrite !cell_insert_ne; [done|intros <-; tauto..]).
  cbn [mbind option_bind].
  rewrite (step_Some _ _ _ _ t)
    by (rewrite !cell_insert_ne; [done|intros <-; tauto..]).
  done.
Qed.

Lemma stamped_rows col rs :
  col ∉ ["year"; "month"; "day"] →
  is_Some (mapM (stamp col) (parsed_rows col rs)).
Proof.
  intros Hcol. apply mapM_is_Some, Forall_forall.
  intros r (t & Ht)%parsed_rows_time. by apply (stamp_is_Some _ _ t).
Qed.

(** Property X20. The partition writer raises only for a missing
    timestamp column: on a frame that has the column it completes
    whatever the column holds, the rows without a readable time being
    left out. The column is not one of the helper columns [year],
    [month], [day]. *)
Theorem writer_raises_on_missing_column (df : DataFrame) (root : Path)
    (col file : string) (fs : Files) :
  col ∉ ["year"; "month"; "day"] →
  (is_Some (write_time_partitioned_transactions df root col file fs)
   ↔ col ∈ columns df).
Proof.
  intros Hcol. rewrite writer_unfold. unfold has_column.
  case_bool_decide as Hin.
  - destruct (stamped_rows col (rows df) Hcol) as [rs ->].
    cbn [mbind option_bind]. split; [done | by eexists].
  - split; [by intros [? ?] | done].
Qed.

(** *** The lake *)

Lemma under_transaction_not_dim (base : Path) (d f : string) (p : Path) :
  d ≠ "transaction" →
  (base ++ ["transaction"])%list `prefix_of` p → p ≠ (base ++ [d; f])%list.
Proof.
  intros Hd [rel ->]. rewrite <- app_assoc. intros Heq%app_inv_head.
  injection Heq as Heq _. congruence.
Qed.

(** Property X21. The lake has three parts that do not disturb each
    other: the truck table at [base/truck/truck.parquet], the
    payment-method table at [base/payment_method/payment_method.parquet],
    and under [base/transaction] exactly what the partition writer makes
    of the transactions; every other file is left as it was, and the
    directory returned is [base]. *)
Theorem lake_layout (dim_truck dim_payment_method transactions : DataFrame)
    (base out : Path) (fs fs' : Files) :
  write_data_lake_structure dim_truck dim_payment_method transactions base fs
  = Some (out, fs') →
  out = base ∧
  fs' !! (base ++ ["truck"; "truck.parquet"])%list = Some dim_truck ∧
  fs' !! (base ++ ["payment_method"; "payment_method.parquet"])%list
  = Some dim_payment_method ∧
  (∃ fs_t,
     write_time_partitioned_transactions transactions
       (base ++ ["transaction"])%list "at" default_filename fs = Some fs_t ∧
     ∀ p, (base ++ ["transaction"])%list `prefix_of` p →
          fs' !! p = fs_t !! p) ∧
  (∀ p, ¬ (base ++ ["transaction"])%list `prefix_of` p →
        p ≠ (base ++ ["truck"; "truck.parquet"])%list →
        p ≠ (base ++ ["payment_method"; "payment_method.parquet"])%list →
        fs' !! p = fs !! p).
Proof.
  unfold write_data_lake_structure, write_unpartitioned_parquet.
  rewrite !writer_unfold.
  destruct (has_column "at" (columns transactions)); [|done].
  destruct (mapM _ _) as [rs|]; [|done]. cbn [mbind option_bind].
  intros [= <- <-].
  assert (base ++ ["truck"; "truck.parquet"]
          ≠ base ++ ["payment_method"; "payment_method.parquet"])%list as Hne.
  { intros Heq%app_inv_head. discriminate. }
  split_and!; [done| | | |].
  - rewrite write_groups_frame.
    + rewrite lookup_insert_ne by done. by rewrite lookup_insert_eq.
    + intros Hp. by eapply (under_transaction_not_dim base "truck").
  - rewrite write_groups_frame.
    + by rewrite lookup_insert_eq.
    + intros Hp. by eapply (under_transaction_not_dim base "payment_method").
  - eexists. split; [done|]. intros p Hp. apply write_groups_agree.
    rewrite !lookup_insert_ne; [done|symmetry..].
    + by apply (under_transaction_not_dim base "truck").
    + by apply (under_transaction_not_dim base "payment_method").
  - intros p Hp Ht Hpm. rewrite write_groups_frame by done.
    by rewrite !lookup_insert_ne.
Qed.

End Writer.
End LakeFacts.

Module PipelineFacts.
Import Transform Load Lake Dims RowSteps RowStepsFacts IdempotenceFacts.
Import TransformFacts LoadFacts LakeFacts DimsFacts.

(** *** The names the writer gives to directories *)

Lemma pretty_N_char_no_slash x : pretty_N_char x ≠ "/"%char.
Proof. unfold pretty_N_char. by repeat case_match. Qed.

Lemma pretty_N_go_no_slash x s : no_slash s → no_slash (pretty_N_go x s).
Proof.
  revert s. induction (N.lt_wf_0 x) as [x _ IH]; intros s Hs.
  assert (x = 0 ∨ 0 < x)%N as [->|Hpos] by lia.
  - by rewrite pretty_N_go_0.
  - rewrite pretty_N_go_step by done. apply IH.
    + by apply N.div_lt.
    + unfold no_slash in *. cbn [list_ascii_of_string].
      rewrite elem_of_cons. intros [Heq|Hin]; [|done].
      by apply (pretty_N_char_no_slash (x `mod` 10)).
Qed.

Ltac no_slash_text :=
  unfold no_slash; cbn [list_ascii_of_string];
  rewrite ?elem_of_cons, elem_of_nil; intros Hin;
  repeat (destruct Hin as [Hin|Hin]; [discriminate|]); exact Hin.

Lemma pretty_N_no_slash (n : N) : no_slash (pretty n).
Proof.
  unfold pretty, pretty_N. case_decide.
  - no_slash_text.
  - apply pretty_N_go_no_slash. unfold no_slash. apply not_elem_of_nil.
Qed.

Lemma fmt_02d_no_slash n : no_slash (fmt_02d n).
Proof.
  unfold fmt_02d. destruct (n <? 10)%N.
  - apply no_slash_app; [no_slash_text | apply pretty_N_no_slash].
  - apply pretty_N_no_slash.
Qed.

Lemma partition_of_no_slash t : Forall no_slash (partition_of t).
Proof.
  unfold partition_of.
  repeat (constructor;
          [apply no_slash_app;
           [no_slash_text
           | first [apply pretty_N_no_slash | apply fmt_02d_no_slash]]|]).
  constructor.
Qed.

Section Main.
Context `{Parsers}.

Lemma stamped_keys col (rs rs' : list Row) :
  mapM (stamp col) (parsed_rows col rs) = Some rs' →
  Forall (λ r', ∃ t, part_key r' = key_of t) rs'.
Proof. intros Hs. by destruct (written_rows col [] [] col rs rs' Hs). Qed.

(** *** The files of the lake *)

Lemma lake_written (dim_truck dim_payment_method tx : DataFrame)
    (base : Path) (fs : Files) :
  has_column "at" (columns tx) = true →
  ∃ rs, mapM (stamp "at") (parsed_rows "at" (rows tx)) = Some rs ∧
        write_data_lake_structure dim_truck dim_payment_method tx base fs
        = Some (base,
                write_groups (columns tx) (base ++ ["transaction"])%list
                  default_filename
                  (<[(base ++ ["payment_method"; "payment_method.parquet"])%list
                     := dim_payment_method]>
                     (<[(base ++ ["truck"; "truck.parquet"])%list
                        := dim_truck]> fs)) rs).
Proof.
  intros Hat.
  destruct (stamped_rows "at" (rows tx)) as [rs Hrs].
  { rewrite !elem_of_cons, elem_of_nil. intros [|[|[|]]]; done. }
  exists rs. split; [done|].
  unfold write_data_lake_structure, write_unpartitioned_parquet.
  rewrite writer_unfold, Hat, Hrs. done.
Qed.

Lemma lake_components (base : Path) (fs : Files) (cols : list string)
    (rs : list Row) (dt dp : DataFrame) (rel : Path) :
  Forall (λ r', ∃ t, part_key r' = key_of t) rs →
  (∀ rel, is_Some (fs !! (base ++ rel)%list) → Forall no_slash rel) →
  is_Some (write_groups cols (base ++ ["transaction"])%list default_filename
             (<[(base ++ ["payment_method"; "payment_method.parquet"])%list
                := dp]>
                (<[(base ++ ["truck"; "truck.parquet"])%list := dt]> fs)) rs
           !! (base ++ rel)%list) →
  Forall no_slash rel.
Proof.
  intros Hkeys Hfs [Hrel | (r & Hr & Heq)]%write_groups_dom.
  - destruct (decide (rel = ["payment_method"; "payment_method.parquet"]))
      as [->|Hpm].
    { repeat constructor; no_slash_text. }
    rewrite lookup_insert_ne in Hrel by (intros Heq%app_inv_head; congruence).
    destruct (decide (rel = ["truck"; "truck.parquet"])) as [->|Ht].
    { repeat constructor; no_slash_text. }
    rewrite lookup_insert_ne in Hrel by (intros Heq%app_inv_head; congruence).
    by apply Hfs.
  - rewrite Forall_forall in Hkeys. destruct (Hkeys r Hr) as [t Ht].
    rewrite Ht, out_dir_key_of, <- !app_assoc in Heq.
    apply app_inv_head in Heq as ->. cbn [app].
    constructor; [no_slash_text|]. apply Forall_app. split.
    + apply partition_of_no_slash.
    + repeat constructor. unfold default_filename. no_slash_text.
Qed.

(** Property X22. Once cleaning has succeeded on a frame that has the
    truck and payment-method columns, and the bucket name is set, the rest
    of the run raises nothing: both tables are built, the lake is written
    under [input], and every file of [input] (those of earlier runs
    included) is stored under the key [input/] followed by its relative
    path, the two tables at [input/truck/truck.parquet] and
    [input/payment_method/payment_method.parquet]; no other object of the
    store is touched. Without a bucket name the run raises. *)
Theorem pipeline_uploads_lake (raw tx : DataFrame) (bucket : string)
    (fs : Files) (s3 : S3) :
  clean_transactions raw = Some tx →
  (∀ c, c ∈ truck_cols → c ∈ columns raw) →
  (∀ c, c ∈ pm_cols → c ∈ columns raw) →
  (∀ rel, is_Some (fs !! ("input" :: rel)) → Forall no_slash rel) →
  main raw None fs s3 = None ∧
  ∃ dim_truck dim_payment_method fs' s3',
    main raw (Some bucket) fs s3 = Some (fs', s3') ∧
    build_truck_metadata tx = Some dim_truck ∧
    build_payment_method_metadata tx = Some dim_payment_method ∧
    write_data_lake_structure dim_truck dim_payment_method tx ["input"] fs
    = Some (["input"], fs') ∧
    s3' !! (bucket, "input/truck/truck.parquet") = Some dim_truck ∧
    s3' !! (bucket, "input/payment_method/payment_method.parquet")
    = Some dim_payment_method ∧
    (∀ rel content, rel ≠ [] → fs' !! ("input" :: rel) = Some content →
       s3' !! (bucket, "input/" ++ as_posix rel) = Some content) ∧
    (∀ b k, (∀ rel, rel ≠ [] → is_Some (fs' !! ("input" :: rel)) →
                    (b, k) ≠ (bucket, "input/" ++ as_posix rel)) →
       s3' !! (b, k) = s3 !! (b, k)).
Proof.
  intros Hclean Htruck Hpm Hfs.
  destruct (build_dim_fixed truck_cols "truck_id" truck_steps tx)
    as (Hdt & _).
  { by eapply forallb_cleaned_columns. }
  { intros r Hr. by eapply truck_steps_fixed. }
  destruct (build_dim_fixed pm_cols "payment_method_id" pm_steps tx)
    as (Hdp & _).
  { by eapply forallb_cleaned_columns. }
  { intros r Hr. by eapply pm_steps_fixed. }
  rewrite <- build_truck_metadata_dim in Hdt.
  rewrite <- build_payment_method_metadata_dim in Hdp.
  set (dt := {| columns := truck_cols; rows := _ |}) in Hdt.
  set (dp := {| columns := pm_cols; rows := _ |}) in Hdp.
  assert (has_column "at" (columns tx) = true) as Hat.
  { apply clean_transactions_Some in Hclean as (_ & Hat & -> & _).
    by rewrite has_column_reorder. }
  destruct (lake_written dt dp tx ["input"] fs Hat) as (rs & Hrs & Hlake).
  set (fs' := write_groups _ _ _ _ rs) in Hlake.
  assert (∀ rel, is_Some (fs' !! ("input" :: rel)) → Forall no_slash rel)
    as Hfs'.
  { intros rel. apply (lake_components ["input"] fs); [|done].
    by apply (stamped_keys "at" (rows tx)). }
  destruct (upload_lookup ["input"] bucket "input" fs' s3) as [Hin Hout].
  { intros p p' k Hp Hp' (rel & Hne & -> & ->)%object_key_Some
      (rel' & Hne' & -> & Heq)%object_key_Some.
    apply string_app_inv_head in Heq. injection Heq as Heq.
    f_equal. apply as_posix_inj; auto. }
  assert (∀ rel content, rel ≠ [] → fs' !! ("input" :: rel) = Some content →
            upload_directory_to_s3 ["input"] bucket "input" fs' s3
              !! (bucket, "input/" ++ as_posix rel) = Some content) as Hmirror.
  { intros rel content Hne Hrel. apply (Hin _ _ _ Hrel).
    apply object_key_Some. exists rel. done. }
  split.
  { unfold main. rewrite Hclean. cbn [mbind option_bind].
    rewrite Hdt. cbn [mbind option_bind]. rewrite Hdp.
    cbn [mbind option_bind]. by rewrite Hlake. }
  exists dt, dp, fs', (upload_directory_to_s3 ["input"] bucket "input" fs' s3).
  split_and!; [|done|done|done| | |done|].
  - unfold main. rewrite Hclean. cbn [mbind option_bind].
    rewrite Hdt. cbn [mbind option_bind]. rewrite Hdp.
    cbn [mbind option_bind]. by rewrite Hlake.
  - apply (Hmirror ["truck"; "truck.parquet"]); [done|].
    unfold fs'. rewrite write_groups_frame.
    + rewrite lookup_insert_ne by done. by rewrite lookup_insert_eq.
    + intros [rel Heq]. discriminate.
  - apply (Hmirror ["payment_method"; "payment_method.parquet"]); [done|].
    unfold fs'. rewrite write_groups_frame.
    + by rewrite lookup_insert_eq.
    + intros [rel Heq]. discriminate.
  - intros b k Hbk. apply Hout.
    intros p k' Hp (rel & Hne & -> & ->)%object_key_Some. by apply Hbk.
Qed.

End Main.

Lemma no_slash_files (local_dir : Path) (fs : Files) :
  map_Forall (λ p _, Forall no_slash (drop (length local_dir) p)) fs →
  ∀ rel, is_Some (fs !! (local_dir ++ rel)%list) → Forall no_slash rel.
Proof.
  intros Hfs rel [c Hc]. apply Hfs in Hc. by rewrite drop_app_length in Hc.
Qed.

End PipelineFacts.

Module LakeExamples.
Import Scalars Transform Load Lake Dims LakeFacts PipelineFacts OptionFacts.

Lemma day_lake_written :
  write_data_lake_structure Cases.day_trucks_dim Cases.day_payments_dim
    (cleaned Samples.raw_day) ["input"] ∅
  = Some (Cases.day_lake.1, Cases.day_lake.2).
Proof.
  rewrite <- surjective_pairing. apply default_Some. vm_compute. reflexivity.
Qed.

(** The lake of the sample day: the two tables and the two hours of
    2024-03-05 in which the day's valid sales fall. *)
Lemma day_lake_files :
  ((λ pf, as_posix (fst pf)) <$> map_to_list (snd Cases.day_lake)) ≡ₚ
  [ "input/truck/truck.parquet";
    "input/payment_method/payment_method.parquet";
    "input/transaction/year=2024/month=03/day=05/hour=14/transaction.parquet";
    "input/transaction/year=2024/month=03/day=05/hour=15/transaction.parquet" ].
Proof.
  apply (bool_decide_eq_true_1 _ (Decision0 := _)). vm_compute. reflexivity.
Qed.

Lemma upload_mirrors_directory_witness :
  let fs := Cases.day_lake.2 in
  (∀ rel, is_Some (fs !! (["input"] ++ rel)%list) → Forall no_slash rel) ∧
  (∀ rel content, rel ≠ [] → fs !! (["input"] ++ rel)%list = Some content →
     upload_directory_to_s3 ["input"] "trucks" "input" fs ∅
       !! ("trucks", "input" ++ "/" ++ as_posix rel) = Some content) ∧
  (∀ b k, (∀ rel, rel ≠ [] → is_Some (fs !! (["input"] ++ rel)%list) →
                  (b, k) ≠ ("trucks", "input" ++ "/" ++ as_posix rel)) →
     upload_directory_to_s3 ["input"] "trucks" "input" fs ∅ !! (b, k)
     = (∅ : S3) !! (b, k)).
Proof.
  cbn zeta.
  assert (∀ rel, is_Some (Cases.day_lake.2 !! (["input"] ++ rel)%list) →
                 Forall no_slash rel) as Hfs.
  { apply no_slash_files.
    apply (bool_decide_eq_true_1 _ (Decision0 := _)). vm_compute. reflexivity. }
  split; [exact Hfs|].
  exact (upload_mirrors_directory ["input"] "trucks" "input" _ ∅ Hfs).
Defined.

Lemma writer_raises_on_missing_column_witness :
  let df := cleaned Samples.raw_day in
  ("at" ∉ ["year"; "month"; "day"]) ∧
  (is_Some (write_time_partitioned_transactions df ["input"; "transaction"]
              "at" default_filename ∅)
   ↔ "at" ∈ columns df).
Proof.
  cbn zeta.
  assert ("at" ∉ ["year"; "month"; "day"]) as Hcol.
  { apply (bool_decide_eq_true_1 _ (Decision0 := _)). vm_compute. reflexivity. }
  split; [exact Hcol|].
  exact (writer_raises_on_missing_column _ _ _ _ _ Hcol).
Defined.

Lemma lake_layout_witness :
  let tx := cleaned Samples.raw_day in
  let fs' := Cases.day_lake.2 in
  write_data_lake_structure Cases.day_trucks_dim Cases.day_payments_dim
    tx ["input"] ∅ = Some (Cases.day_lake.1, fs') ∧
  Cases.day_lake.1 = ["input"] ∧
  fs' !! (["input"] ++ ["truck"; "truck.parquet"])%list
  = Some Cases.day_trucks_dim ∧
  fs' !! (["input"] ++ ["payment_method"; "payment_method.parquet"])%list
  = Some Cases.day_payments_dim ∧
  (∃ fs_t,
     write_time_partitioned_transactions tx
       (["input"] ++ ["transaction"])%list "at" default_filename ∅
     = Some fs_t ∧
     ∀ p, (["input"] ++ ["transaction"])%list `prefix_of` p →
          fs' !! p = fs_t !! p) ∧
  (∀ p, ¬ (["input"] ++ ["transaction"])%list `prefix_of` p →
        p ≠ (["input"] ++ ["truck"; "truck.parquet"])%list →
        p ≠ (["input"] ++ ["payment_method"; "payment_method.parquet"])%list →
        fs' !! p = (∅ : Files) !! p).
Proof.
  cbn zeta. split; [exact day_lake_written|].
  exact (lake_layout _ _ _ _ _ _ _ day_lake_written).
Defined.

Lemma pipeline_uploads_lake_witness :
  let raw := Samples.raw_day in
  let tx := cleaned Samples.raw_day in
  clean_transactions raw = Some tx ∧
  (∀ c, c ∈ truck_cols → c ∈ columns raw) ∧
  (∀ c, c ∈ pm_cols → c ∈ columns raw) ∧
  (∀ rel, is_Some ((∅ : Files) !! ("input" :: rel)) → Forall no_slash rel) ∧
  main raw None ∅ ∅ = None ∧
  ∃ dim_truck dim_payment_method fs' s3',
    main raw (Some "trucks") ∅ ∅ = Some (fs', s3') ∧
    build_truck_metadata tx = Some dim_truck ∧
    build_payment_method_metadata tx = Some dim_payment_method ∧
    write_data_lake_structure dim_truck dim_payment_method tx ["input"] ∅
    = Some (["input"], fs') ∧
    s3' !! ("trucks", "input/truck/truck.parquet") = Some dim_truck ∧
    s3' !! ("trucks", "input/payment_method/payment_method.parquet")
    = Some dim_payment_method ∧
    (∀ rel content, rel ≠ [] → fs' !! ("input" :: rel) = Some content →
       s3' !! ("trucks", "input/" ++ as_posix rel) = Some content) ∧
    (∀ b k, (∀ rel, rel ≠ [] → is_Some (fs' !! ("input" :: rel)) →
                    (b, k) ≠ ("trucks", "input/" ++ as_posix rel)) →
       s3' !! (b, k) = (∅ : S3) !! (b, k)).
Proof.
  cbn zeta.
  assert (∀ c, c ∈ truck_cols → c ∈ columns Samples.raw_day) as Htruck.
  { apply Forall_forall.
    apply (bool_decide_eq_true_1 _ (Decision0 := _)). vm_compute. reflexivity. }
  assert (∀ c, c ∈ pm_cols → c ∈ columns Samples.raw_day) as Hpm.
  { apply Forall_forall.
    apply (bool_decide_eq_true_1 _ (Decision0 := _)). vm_compute. reflexivity. }
  assert (∀ rel, is_Some ((∅ : Files) !! ("input" :: rel)) →
                 Forall no_slash rel) as Hfs.
  { apply (no_slash_files ["input"]).
    apply (bool_decide_eq_true_1 _ (Decision0 := _)). vm_compute. reflexivity. }
  split; [exact TransformExamples.cleaned_raw_day|].
  split; [exact Htruck|]. split; [exact Hpm|]. split; [exact Hfs|].
  exact (pipeline_uploads_lake _ _ "trucks" ∅ ∅
           TransformExamples.cleaned_raw_day Htruck Hpm Hfs).
Defined.

End LakeExamples.

Module TrendFacts.
Import Metrics Trend MetricsFacts SortingFacts.

(** *** The order of timestamps *)

Lemma lex_compare_refl a : lex_compare a a = Eq.
Proof. induction a as [|x a IH]; [done|]. simpl. by rewrite N.compare_refl. Qed.

Lemma lex_compare_antisym a b :
  lex_compare b a = CompOpp (lex_compare a b).
Proof.
  revert b. induction a as [|x a IH]; intros [|y b]; simpl; try done.
  rewrite (N.compare_antisym x y).
  destruct (x ?= y)%N; simpl; [apply IH | done..].
Qed.

Lemma lex_compare_le_trans a b c :
  lex_compare a b ≠ Gt → lex_compare b c ≠ Gt → lex_compare a c ≠ Gt.
Proof.
  revert b c. induction a as [|x a IH]; intros [|y b] [|z c]; simpl; try done.
  destruct (N.compare_spec x y) as [->|Hxy|Hxy]; [| |done].
  - destruct (N.compare_spec y z) as [->|Hyz|Hyz]; [|done..]. apply IH.
  - intros _. destruct (N.compare_spec y z) as [->|Hyz|Hyz]; [| |done]; intros _.
    + by rewrite (proj2 (N.compare_lt_iff x z)).
    + rewrite (proj2 (N.compare_lt_iff x z)); [done|lia].
Qed.

Lemma timestamp_leb_total a b :
  timestamp_leb a b = false → timestamp_leb b a = true.
Proof.
  unfold timestamp_leb. rewrite (lex_compare_antisym (fields a) (fields b)).
  by destruct (lex_compare (fields a) (fields b)).
Qed.

Lemma timestamp_leb_trans a b c :
  timestamp_leb a b = true → timestamp_leb b c = true →
  timestamp_leb a c = true.
Proof.
  unfold timestamp_leb.
  pose proof (lex_compare_le_trans (fields a) (fields b) (fields c)) as Htr.
  destruct (lex_compare (fields a) (fields b)),
    (lex_compare (fields b) (fields c)),
    (lex_compare (fields a) (fields c)); try done;
    intros _ _; exfalso; by apply Htr.
Qed.

(** *** Groups of a keyed frame *)



(** *** The trend *)

Lemma compute_trend_grain df time_grain :
  compute_trend df time_grain = trend_by (grain_key time_grain) df.
Proof. unfold compute_trend, grain_key. by destruct (String.eqb _ _). Qed.

Lemma trend_keys_spec (key : Sale → option Timestamp) (df : list Sale) :
  let ks := Pd.sort_values timestamp_leb (remove_dups (omap key df)) in
  NoDup ks ∧ ∀ k, k ∈ ks ↔ ∃ r, r ∈ df ∧ key r = Some k.
Proof.
  cbn zeta. split.
  - rewrite sort_values_perm. apply NoDup_remove_dups.
  - intros k. rewrite sort_values_perm, elem_of_remove_dups.
    apply list_elem_of_omap.
Qed.

Lemma bucket_trend_by (key : Sale → option Timestamp) (df : list Sale) :
  bucket <$> trend_by key df
  = Pd.sort_values timestamp_leb (remove_dups (omap key df)).
Proof. unfold trend_by. rewrite <- list_fmap_compose. apply list_fmap_id. Qed.


(** Property X24. The trend has one row for each day (or hour) that
    occurs in the input, in chronological order, none twice; each row
    aggregates the sales of its day (or hour): the transaction count is
    at most their number, and a row is never empty. *)
Theorem trend_chronological df time_grain :
  let buckets := bucket <$> compute_trend df time_grain in
  NoDup buckets ∧
  StronglySorted (λ a b, timestamp_leb a b = true) buckets ∧
  (∀ k, k ∈ buckets ↔ ∃ r, r ∈ df ∧ grain_key time_grain r = Some k) ∧
  ∀ p, p ∈ compute_trend df time_grain →
       let g := bucket_rows (grain_key time_grain) (bucket p) df in
       g ≠ [] ∧
       trend_revenue p = sum_total g ∧
       (trend_transactions p ≤ length g)%nat ∧
       trend_avg_sale p = mean_total g.
Proof.
  cbn zeta. rewrite compute_trend_grain, bucket_trend_by.
  destruct (trend_keys_spec (grain_key time_grain) df) as [Hnd Hin].
  split_and!; [done| |done|].
  - apply sort_values_sorted;
      [apply timestamp_leb_total | apply timestamp_leb_trans].
  - unfold trend_by. intros p (k & -> & Hk)%list_elem_of_fmap.
    cbn [bucket trend_revenue trend_transactions trend_avg_sale].
    split_and!; [|done| |done].
    + apply Hin in Hk as (r & Hr & Hkey). unfold bucket_rows.
      intros Hnil%fmap_nil_inv.
      assert (r ∈ List.filter
                    (λ r, bool_decide (grain_key time_grain r = Some k)) df)
        as Hmem.
      { apply list_elem_of_In, filter_In. split; [by apply list_elem_of_In|].
        by apply bool_decide_eq_true. }
      rewrite Hnil in Hmem. by apply elem_of_nil in Hmem.
    + unfold nunique.
      etrans; [apply PerfFacts.length_remove_dups|].
      apply PerfFacts.length_omap.
Qed.

End TrendFacts.

Module TrendExamples.
Import Metrics Trend.

(** The three sample sales make two days and three hours; both trends
    add up to the 15.60 of the three totals. *)
Lemma trend_day_rows :
  (λ p, (day (bucket p), Qred (trend_revenue p), trend_transactions p))
    <$> compute_trend Cases.trend_day "Daily"
  = [ (5%N, 26 # 5, 1%nat); (6%N, 52 # 5, 2%nat) ] ∧
  (λ p, (day (bucket p), hour (bucket p), Qred (trend_revenue p)))
    <$> compute_trend Cases.trend_day "Hourly"
  = [ (5%N, 14%N, 26 # 5); (6%N, 9%N, 37 # 5); (6%N, 18%N, 3%Q) ] ∧
  Qred (total_revenue Cases.trend_day) = 78 # 5.
Proof. vm_compute. done. Qed.

End TrendExamples.
